(** * Expense tracker: filter view, totals and the recurring-transaction scheduler

    A shallow embedding of the client-side logic of
    [src/components/ExpenseTracker.js], [src/components/Reports.js] and
    [src/components/RecurringTransactions.js].

    - JavaScript numbers that hold money are binary64 floats ([float]).
    - A ['yyyy-MM-dd'] string is kept as its three numeric fields ([ymd]).
    - A JavaScript [Date] is a local calendar day plus the milliseconds
      elapsed in that day ([Instant]); time zones and DST are left out.
    - React state is passed explicitly; [setState(prev => ...)] updaters are
      applied in the order in which they were queued. *)

From Stdlib Require Import ZArith QArith List String Ascii Bool Lia Floats.
From Stdlib Require Import Sorted Permutation.
Import ListNotations.

Local Open Scope string_scope.
Local Open Scope Z_scope.

(** ** JavaScript built-ins used by the components *)

Module JS.

(** [String.prototype.toLowerCase] for text in the ASCII range, where it
    changes the letters A to Z and nothing else. *)
Definition lowerAscii (c : ascii) : ascii :=
  let n := nat_of_ascii c in
  if (Nat.leb 65 n && Nat.leb n 90)%bool then ascii_of_nat (n + 32) else c.

Fixpoint toLowerCase (s : string) : string :=
  match s with
  | EmptyString => EmptyString
  | String c r => String (lowerAscii c) (toLowerCase r)
  end.

(** [s.includes(sub)]: [sub] occurs in [s] at some offset. *)
Fixpoint includes (s sub : string) : bool :=
  (String.prefix sub s
   || match s with
      | EmptyString => false
      | String _ r => includes r sub
      end)%bool.

(** Truthiness of a string: only [''] is falsy. *)
Definition truthy (s : string) : bool := negb (String.eqb s "").

Section Sort.
Context {A : Type} (cmp : A -> A -> Z).

(** [Array.prototype.sort(cmp)] is a stable sort: [a] stays in front of
    the first element it does not have to follow. *)
Fixpoint insert (a : A) (l : list A) : list A :=
  match l with
  | [] => [a]
  | b :: r => if cmp a b <=? 0 then a :: b :: r else b :: insert a r
  end.

Fixpoint sort (l : list A) : list A :=
  match l with
  | [] => []
  | a :: r => insert a (sort r)
  end.
End Sort.

(** [arr.slice(0, n)]. *)
Definition slice0 {A : Type} (n : nat) (l : list A) : list A := firstn n l.

End JS.

(** ** Calendar dates and the date-fns functions the components import *)

Module DateFns.

Record ymd : Type := mkYmd { year : Z; month : Z; dayOfMonth : Z }.

Definition ymd_eqb (a b : ymd) : bool :=
  ((year a =? year b) && (month a =? month b)
   && (dayOfMonth a =? dayOfMonth b))%bool.

Record Instant : Type := mkInstant { date : ymd; msOfDay : Z }.

Definition msPerDay : Z := 86400000.

Definition isLeapYear (y : Z) : bool :=
  ((y mod 4 =? 0) && (negb (y mod 100 =? 0) || (y mod 400 =? 0)))%bool.

(** Days in month [m] (1..12) of year [y]. *)
Definition daysInMonth (y m : Z) : Z :=
  if m =? 2 then (if isLeapYear y then 29 else 28)
  else if (m =? 4) || (m =? 6) || (m =? 9) || (m =? 11) then 30
  else 31.

(** Day number since 1970-01-01 of a civil date (proleptic Gregorian). *)
Definition daysFromCivil (d : ymd) : Z :=
  let y := if month d <=? 2 then year d - 1 else year d in
  let era := y / 400 in
  let yoe := y - era * 400 in
  let mp := (month d + 9) mod 12 in
  let doy := (153 * mp + 2) / 5 + dayOfMonth d - 1 in
  let doe := yoe * 365 + yoe / 4 - yoe / 100 + doy in
  era * 146097 + doe - 719468.

Definition civilFromDays (n : Z) : ymd :=
  let z := n + 719468 in
  let era := z / 146097 in
  let doe := z - era * 146097 in
  let yoe := (doe - doe / 1460 + doe / 36524 - doe / 146096) / 365 in
  let doy := doe - (365 * yoe + yoe / 4 - yoe / 100) in
  let mp := (5 * doy + 2) / 153 in
  let d := doy - (153 * mp + 2) / 5 + 1 in
  let m := if mp <? 10 then mp + 3 else mp - 9 in
  mkYmd (if m <=? 2 then yoe + era * 400 + 1 else yoe + era * 400) m d.

(** [date.getTime()], in local milliseconds. *)
Definition getTime (i : Instant) : Z :=
  daysFromCivil (date i) * msPerDay + msOfDay i.

(** [new Date('yyyy-MM-dd').getTime()]: midnight of that day. *)
Definition dateValue (s : ymd) : Z := daysFromCivil s * msPerDay.

(** [date.getDay()]: 0 is Sunday; 1970-01-01 was a Thursday. *)
Definition getDay (i : Instant) : Z := (daysFromCivil (date i) + 4) mod 7.

(** [parseISO('yyyy-MM-dd')]: local midnight. *)
Definition parseISO (s : ymd) : Instant := mkInstant s 0.

(** [format(d, 'yyyy-MM-dd')]. *)
Definition format (i : Instant) : ymd := date i.

Definition isAfter (a b : Instant) : bool := getTime b <? getTime a.
Definition isBefore (a b : Instant) : bool := getTime a <? getTime b.

(** date-fns [toInteger]: [Math.ceil] below zero, [Math.floor] otherwise. *)
Definition toInteger (q : Q) : Z := Z.quot (Qnum q) (Zpos (Qden q)).

(** [d.setMonth(m0, 0)]: the last day of the month before month index
    [m0] (0-based, any integer) of year [y]. *)
Definition lastDayBeforeMonthIndex (y m0 : Z) : ymd :=
  let total := y * 12 + (m0 - 1) in
  let y' := total / 12 in
  let m' := total mod 12 + 1 in
  mkYmd y' m' (daysInMonth y' m').

(** [addMonths(date, amount)], as date-fns 2 has it. The amount goes through
    [toInteger], the day of the month is capped by the length of the month
    reached, the time of day is kept. (Later versions hand the fraction to
    [Date.prototype.setMonth], which drops it as well.) *)
Definition addMonths (d : Instant) (dirtyAmount : Q) : Instant :=
  let amount := toInteger dirtyAmount in
  if amount =? 0 then d
  else
    let dayOfMonth' := dayOfMonth (date d) in
    let endOfDesiredMonth :=
      lastDayBeforeMonthIndex (year (date d)) (month (date d) - 1 + amount + 1) in
    let daysInMonth' := dayOfMonth endOfDesiredMonth in
    if daysInMonth' <=? dayOfMonth'
    then mkInstant endOfDesiredMonth (msOfDay d)
    else mkInstant
           (mkYmd (year endOfDesiredMonth) (month endOfDesiredMonth) dayOfMonth')
           (msOfDay d).

Definition endOfDayMs : Z := msPerDay - 1.

Definition startOfWeek (d : Instant) : Instant :=
  mkInstant (civilFromDays (daysFromCivil (date d) - getDay d)) 0.
Definition endOfWeek (d : Instant) : Instant :=
  mkInstant (civilFromDays (daysFromCivil (date d) + (6 - getDay d))) endOfDayMs.
Definition startOfMonth (d : Instant) : Instant :=
  mkInstant (mkYmd (year (date d)) (month (date d)) 1) 0.
Definition endOfMonth (d : Instant) : Instant :=
  mkInstant (lastDayBeforeMonthIndex (year (date d)) (month (date d) - 1 + 1))
            endOfDayMs.
Definition startOfYear (d : Instant) : Instant :=
  mkInstant (mkYmd (year (date d)) 1 1) 0.
Definition endOfYear (d : Instant) : Instant :=
  mkInstant (mkYmd (year (date d)) 12 31) endOfDayMs.

Record Interval : Type := mkInterval { start : Instant; end_ : Instant }.

Definition isWithinInterval (d : Instant) (i : Interval) : bool :=
  ((getTime (start i) <=? getTime d) && (getTime d <=? getTime (end_ i)))%bool.

End DateFns.

Import DateFns.


(** ** Entries (transactions) *)

Module Entry.

Record Transaction : Type := mk {
  id : float;
  type : string;
  amount : float;
  category : string;
  description : string;
  date : ymd;
  isRecurring : bool;
  recurringId : option Z
}.

End Entry.

(** ** [ExpenseTracker.js] *)

Module ExpenseTracker.
Import Entry.

(** The filter state of the Reports tab. *)
Record Criteria : Type := mkCriteria {
  searchTerm : string;
  filterType : string;
  filterCategory : string;
  dateRange : string
}.

(** The comparator handed to [sort]: [new Date(b.date) - new Date(a.date)]. *)
Definition byDateDesc (a b : Transaction) : Z :=
  dateValue (date b) - dateValue (date a).

(** [filteredTransactions], with [new Date()] passed in as [now]. *)
Definition filteredTransactions
    (c : Criteria) (now : Instant) (transactions : list Transaction)
    : list Transaction :=
  let filtered := transactions in
  let filtered :=
    if JS.truthy (searchTerm c) then
      filter (fun t =>
                JS.includes (JS.toLowerCase (description t))
                            (JS.toLowerCase (searchTerm c))
                || JS.includes (JS.toLowerCase (category t))
                               (JS.toLowerCase (searchTerm c)))%bool
             filtered
    else filtered in
  let filtered :=
    if negb (String.eqb (filterType c) "all") then
      filter (fun t => String.eqb (type t) (filterType c)) filtered
    else filtered in
  let filtered :=
    if negb (String.eqb (filterCategory c) "all") then
      filter (fun t => String.eqb (category t) (filterCategory c)) filtered
    else filtered in
  let filtered :=
    if negb (String.eqb (dateRange c) "all") then
      if String.eqb (dateRange c) "today" then
        let today := format now in
        filter (fun t => ymd_eqb (format (parseISO (date t))) today) filtered
      else if String.eqb (dateRange c) "week" then
        let dateInterval := mkInterval (startOfWeek now) (endOfWeek now) in
        filter (fun t => isWithinInterval (parseISO (date t)) dateInterval)
               filtered
      else if String.eqb (dateRange c) "month" then
        let dateInterval := mkInterval (startOfMonth now) (endOfMonth now) in
        filter (fun t => isWithinInterval (parseISO (date t)) dateInterval)
               filtered
      else if String.eqb (dateRange c) "year" then
        let dateInterval := mkInterval (startOfYear now) (endOfYear now) in
        filter (fun t => isWithinInterval (parseISO (date t)) dateInterval)
               filtered
      else filtered
    else filtered in
  JS.sort byDateDesc filtered.

Record Totals : Type := mkTotals {
  income : float;
  expense : float;
  balance : float
}.

(** [arr.reduce((sum, t) => sum + t.amount, 0)]. *)
Definition sumAmounts (l : list Transaction) : float :=
  fold_left (fun sum t => PrimFloat.add sum (amount t)) l 0%float.

(** [filteredTotals], over the list [filteredTransactions] holds. *)
Definition filteredTotals (filteredTransactions : list Transaction) : Totals :=
  let income :=
    sumAmounts (filter (fun t => String.eqb (type t) "income")
                       filteredTransactions) in
  let expense :=
    sumAmounts (filter (fun t => String.eqb (type t) "expense")
                       filteredTransactions) in
  mkTotals income expense (PrimFloat.sub income expense).

(** What the promise of a [transactionAPI] call settles to. *)
Inductive Response : Type :=
| Success (data : Transaction)     (* resolved, [response.success] is true *)
| NoSuccess                        (* resolved, [response.success] is falsy *)
| Rejected (message : string).     (* rejected: the [catch] branch runs *)

(** The Entry Store collaborator ([services/api]). *)
Record TransactionAPI : Type := mkAPI {
  createTransaction : Transaction -> Response;
  updateTransaction : float -> Transaction -> Response
}.

Record State : Type := mkState {
  transactions : list Transaction;
  editingTransaction : option Transaction;
  showTransactionForm : bool
}.

(** [handleSaveTransaction]. [editing] is the [editingTransaction] the
    closure captured when the component rendered; the state updaters run
    on the state current when the promise settles. The dashboard reload
    touches no field of [State]. *)
Definition handleSaveTransaction
    (api : TransactionAPI) (editing : option Transaction)
    (transactionData : Transaction) (st : State) : State :=
  match editing with
  | Some e =>
      match updateTransaction api (id e) transactionData with
      | Success data =>
          mkState
            (map (fun t => if PrimFloat.eqb (id t) (id e) then data else t)
                 (transactions st))
            None false
      | NoSuccess => mkState (transactions st) None false
      | Rejected _ => st
      end
  | None =>
      match createTransaction api transactionData with
      | Success data => mkState (data :: transactions st) None false
      | NoSuccess => mkState (transactions st) None false
      | Rejected _ => st
      end
  end.

End ExpenseTracker.

(** ** [Reports.js] *)

Module Reports.
Import Entry.

Record PeriodTotals : Type := mkPeriodTotals {
  income : float;
  expense : float;
  balance : float;
  savings : float
}.

(** [periodTotals], over the entries of the report period. *)
Definition periodTotals (filteredTransactions : list Transaction)
    : PeriodTotals :=
  let income :=
    ExpenseTracker.sumAmounts
      (filter (fun t => String.eqb (type t) "income") filteredTransactions) in
  let expense :=
    ExpenseTracker.sumAmounts
      (filter (fun t => String.eqb (type t) "expense") filteredTransactions) in
  mkPeriodTotals income expense (PrimFloat.sub income expense)
    (if PrimFloat.ltb 0%float income
     then PrimFloat.mul (PrimFloat.div (PrimFloat.sub income expense) income)
                        100%float
     else 0%float).

End Reports.

(** ** [RecurringTransactions.js] *)

Module Recurring.

Record RecurringTemplate : Type := mk {
  id : Z;
  type : string;
  description : string;
  amount : float;
  category : string;
  frequency : string;
  startDate : ymd;
  endDate : option ymd;
  isActive : bool;
  lastProcessed : option ymd;
  nextDue : option ymd;
  createdAt : string
}.

(** The [FREQUENCIES] table: value, label, days. *)
Definition FREQUENCIES : list (string * string * Z) :=
  [ ("monthly", "Monthly", 30); ("weekly", "Weekly", 7);
    ("quarterly", "Quarterly", 90); ("yearly", "Yearly", 365) ].

(** [{ ...t, isActive: b }]. *)
Definition withIsActive (t : RecurringTemplate) (b : bool) : RecurringTemplate :=
  mk (id t) (type t) (description t) (amount t) (category t) (frequency t)
     (startDate t) (endDate t) b (lastProcessed t) (nextDue t) (createdAt t).

(** [{ ...t, lastProcessed: lp, nextDue: nd }]. *)
Definition withProcessed (t : RecurringTemplate) (lp nd : ymd)
    : RecurringTemplate :=
  mk (id t) (type t) (description t) (amount t) (category t) (frequency t)
     (startDate t) (endDate t) (isActive t) (Some lp) (Some nd) (createdAt t).

(** [recurring.nextDue ? parseISO(recurring.nextDue)
                       : parseISO(recurring.startDate)]. *)
Definition dueInstant (recurring : RecurringTemplate) : Instant :=
  match nextDue recurring with
  | Some s => parseISO s
  | None => parseISO (startDate recurring)
  end.

(** The second argument of [addMonths] in both the pass and [processNow]. *)
Definition periodAmount (frequency : string) : Q :=
  if String.eqb frequency "monthly" then 1%Q
  else if String.eqb frequency "weekly" then (1 # 4)%Q
  else if String.eqb frequency "quarterly" then 3%Q
  else 12%Q.

(** [isAfter(today, nextDue) ||
     format(today, 'yyyy-MM-dd') === format(nextDue, 'yyyy-MM-dd')]. *)
Definition isDue (today nextDue : Instant) : bool :=
  (isAfter today nextDue || ymd_eqb (format today) (format nextDue))%bool.

(** [parseFloat(x)] on a number [x]: the number is printed and read back,
    which gives [x] again except that [-0] prints as ["0"] and comes back as
    [0]. *)
Definition parseFloatNumber (x : float) : float :=
  if PrimFloat.eqb x 0%float then 0%float else x.

(** The transaction both paths build; [suffix] is [" (Auto)"] or
    [" (Manual)"], [newId] stands for [Date.now() + Math.random()]. *)
Definition newTransaction (newId : float) (suffix : string) (today : Instant)
    (recurring : RecurringTemplate) : Entry.Transaction :=
  Entry.mk newId (type recurring) (parseFloatNumber (amount recurring))
           (category recurring)
           (description recurring ++ suffix) (format today) true
           (Some (id recurring)).

(** The body of the [forEach] callback: the value left at
    [updatedTransactions[index]] and the argument of [onAddTransaction],
    when it is called. *)
Definition processEntry (today : Instant) (newId : float)
    (recurring : RecurringTemplate)
    : RecurringTemplate * option Entry.Transaction :=
  if negb (isActive recurring) then (recurring, None)
  else
    let nextDue := dueInstant recurring in
    if isDue today nextDue then
      let nextDueDate := addMonths nextDue (periodAmount (frequency recurring)) in
      (withProcessed recurring (format today) (format nextDueDate),
       Some (newTransaction newId " (Auto)" today recurring))
    else (recurring, None).

Definition optList {A : Type} (o : option A) : list A :=
  match o with Some a => [a] | None => [] end.

(** [updatedTransactions.forEach((recurring, index) => ...)] from [index]
    on: the array after the loop and the [onAddTransaction] calls, in
    order. [newId index] is the id drawn at that index. *)
Fixpoint forEachFrom (today : Instant) (newId : nat -> float) (index : nat)
    (l : list RecurringTemplate)
    : list RecurringTemplate * list Entry.Transaction :=
  match l with
  | [] => ([], [])
  | recurring :: rest =>
      let r := processEntry today (newId index) recurring in
      let rs := forEachFrom today newId (S index) rest in
      (fst r :: fst rs, (optList (snd r) ++ snd rs)%list)
  end.

(** One run of [processRecurringTransactions]: the templates the component
    holds afterwards ([setRecurringTransactions] is called only when
    [hasUpdates]) and the transactions handed to [onAddTransaction]. *)
Definition processRecurringTransactions (today : Instant)
    (newId : nat -> float) (recurringTransactions : list RecurringTemplate)
    : list RecurringTemplate * list Entry.Transaction :=
  let r := forEachFrom today newId 0 recurringTransactions in
  let hasUpdates := match snd r with [] => false | _ => true end in
  (if hasUpdates then fst r else recurringTransactions, snd r).

(** What a pass at [today] leaves at the position of [r]; the id drawn for
    the transaction does not enter it. *)
Definition afterPass (today : Instant) (r : RecurringTemplate) : RecurringTemplate :=
  fst (processEntry today 0%float r).

(** [toggleActive(id)]. *)
Definition toggleActive (i : Z) (prev : list RecurringTemplate)
    : list RecurringTemplate :=
  map (fun t => if id t =? i then withIsActive t (negb (isActive t)) else t)
      prev.

(** [processNow(id)]; every [new Date()] of the handler reads the same
    instant [now]. *)
Definition processNow (now : Instant) (newId : float) (i : Z)
    (recurringTransactions : list RecurringTemplate)
    : list RecurringTemplate * option Entry.Transaction :=
  match find (fun t => id t =? i) recurringTransactions with
  | None => (recurringTransactions, None)
  | Some recurring =>
      let nextDueDate := addMonths now (periodAmount (frequency recurring)) in
      (map (fun t => if id t =? i
                     then withProcessed t (format now) (format nextDueDate)
                     else t)
           recurringTransactions,
       Some (newTransaction newId " (Manual)" now recurring))
  end.

Definition activeRecurring (l : list RecurringTemplate) : list RecurringTemplate :=
  filter (fun t => isActive t) l.

Definition inactiveRecurring (l : list RecurringTemplate) : list RecurringTemplate :=
  filter (fun t => negb (isActive t)) l.

(** [new Date(t.nextDue).getTime()]; [new Date(null)] is the epoch. *)
Definition nextDueValue (t : RecurringTemplate) : Z :=
  match nextDue t with Some s => dateValue s | None => 0 end.

Definition byNextDueAsc (a b : RecurringTemplate) : Z :=
  nextDueValue a - nextDueValue b.

Definition hasNextDue (t : RecurringTemplate) : bool :=
  match nextDue t with Some _ => true | None => false end.

(** [upcomingTransactions]. *)
Definition upcomingTransactions (l : list RecurringTemplate)
    : list RecurringTemplate :=
  JS.slice0 5 (JS.sort byNextDueAsc (filter hasNextDue (activeRecurring l))).

(** The ids wired to a rendered "Process Now" button: one per row of the
    upcoming list and one per row of the active list. The rows of the
    paused list carry Resume, Edit and Delete only. *)
Definition processNowTargets (l : list RecurringTemplate) : list Z :=
  (map id (upcomingTransactions l) ++ map id (activeRecurring l))%list.

End Recurring.

(** ** The two components together *)

Module App.

Record State : Type := mkState {
  tracker : ExpenseTracker.State;
  criteria : ExpenseTracker.Criteria;
  recurringTransactions : list Recurring.RecurringTemplate
}.

(** Whether [filteredTransactions] runs none of its filter stages:
    [filtered] is then still the [transactions] state array itself, and the
    closing [filtered.sort(...)] sorts that array in place. *)
Definition sortsStateInPlace (c : ExpenseTracker.Criteria) : bool :=
  (negb (JS.truthy (ExpenseTracker.searchTerm c))
   && String.eqb (ExpenseTracker.filterType c) "all"
   && String.eqb (ExpenseTracker.filterCategory c) "all"
   && (String.eqb (ExpenseTracker.dateRange c) "all"
       || negb (String.eqb (ExpenseTracker.dateRange c) "today"
                || String.eqb (ExpenseTracker.dateRange c) "week"
                || String.eqb (ExpenseTracker.dateRange c) "month"
                || String.eqb (ExpenseTracker.dateRange c) "year")))%bool.

(** The entry list the component holds once it has rendered with the list
    [l] a [setTransactions] stored: the memo of [filteredTransactions] is
    computed again for the new array. *)
Definition rendered (c : ExpenseTracker.Criteria) (l : list Entry.Transaction)
    : list Entry.Transaction :=
  if sortsStateInPlace c then JS.sort ExpenseTracker.byDateDesc l else l.

(** Whether [handleSaveTransaction] reaches a [setTransactions]. *)
Definition storesNewList (api : ExpenseTracker.TransactionAPI)
    (editing : option Entry.Transaction) (tx : Entry.Transaction) : bool :=
  match editing with
  | Some e =>
      match ExpenseTracker.updateTransaction api (Entry.id e) tx with
      | ExpenseTracker.Success _ => true
      | _ => false
      end
  | None =>
      match ExpenseTracker.createTransaction api tx with
      | ExpenseTracker.Success _ => true
      | _ => false
      end
  end.

(** One save settling, and the render it causes when it stored a list. *)
Definition saveAndRender (c : ExpenseTracker.Criteria)
    (api : ExpenseTracker.TransactionAPI) (editing : option Entry.Transaction)
    (tx : Entry.Transaction) (s : ExpenseTracker.State) : ExpenseTracker.State :=
  let s' := ExpenseTracker.handleSaveTransaction api editing tx s in
  if storesNewList api editing tx then
    ExpenseTracker.mkState
      (rendered c (ExpenseTracker.transactions s'))
      (ExpenseTracker.editingTransaction s')
      (ExpenseTracker.showTransactionForm s')
  else s'.

(** [<RecurringTransactions onAddTransaction={handleSaveTransaction} />]:
    the pass runs to its end, [setRecurringTransactions] included, without
    looking at what the promises return; the saves then settle in turn, each
    with the [editingTransaction] the handler captured when the pass called
    it. *)
Definition runPass (api : ExpenseTracker.TransactionAPI) (today : Instant)
    (newId : nat -> float) (st : State) : State :=
  let r := Recurring.processRecurringTransactions today newId
             (recurringTransactions st) in
  mkState
    (fold_left
       (fun s tx =>
          saveAndRender (criteria st) api
            (ExpenseTracker.editingTransaction (tracker st)) tx s)
       (snd r) (tracker st))
    (criteria st)
    (fst r).

End App.

(** ** The specification's wording, for comparison with the code *)

Module Spec.

(** One period of a frequency added to a calendar day: weekly is +7 days,
    monthly +1 calendar month, quarterly +3 calendar months, yearly +1
    calendar year; calendar months are counted as [addMonths] counts
    them. *)
Definition advance (frequency : string) (due : ymd) : ymd :=
  if String.eqb frequency "weekly" then civilFromDays (daysFromCivil due + 7)
  else if String.eqb frequency "monthly" then format (addMonths (parseISO due) 1)
  else if String.eqb frequency "quarterly" then format (addMonths (parseISO due) 3)
  else format (addMonths (parseISO due) 12).

(** The frequencies counted in whole calendar months. *)
Definition calendarFrequency (frequency : string) : bool :=
  (String.eqb frequency "monthly" || String.eqb frequency "quarterly"
   || String.eqb frequency "yearly")%bool.

Section Predicates.
Import Entry ExpenseTracker.
Variables (c : Criteria) (now : Instant).

(** Case-insensitive substring match against description OR category;
    an empty search text filters nothing. *)
Definition matchesSearch (t : Transaction) : bool :=
  (String.eqb (searchTerm c) ""
   || JS.includes (JS.toLowerCase (description t)) (JS.toLowerCase (searchTerm c))
   || JS.includes (JS.toLowerCase (category t)) (JS.toLowerCase (searchTerm c)))%bool.

Definition matchesType (t : Transaction) : bool :=
  (String.eqb (filterType c) "all" || String.eqb (type t) (filterType c))%bool.

Definition matchesCategory (t : Transaction) : bool :=
  (String.eqb (filterCategory c) "all"
   || String.eqb (category t) (filterCategory c))%bool.

(** [today] is the calendar day of [now]; [week], [month] and [year] are
    the week (from Sunday), month and year that contain [now]. *)
Definition matchesDateRange (t : Transaction) : bool :=
  if String.eqb (dateRange c) "today" then ymd_eqb (date t) (format now)
  else if String.eqb (dateRange c) "week" then
    isWithinInterval (parseISO (date t))
                     (mkInterval (startOfWeek now) (endOfWeek now))
  else if String.eqb (dateRange c) "month" then
    isWithinInterval (parseISO (date t))
                     (mkInterval (startOfMonth now) (endOfMonth now))
  else if String.eqb (dateRange c) "year" then
    isWithinInterval (parseISO (date t))
                     (mkInterval (startOfYear now) (endOfYear now))
  else true.

(** All predicates composed conjunctively. *)
Definition satisfiesAll (t : Transaction) : bool :=
  (matchesSearch t && matchesType t && matchesCategory t
   && matchesDateRange t)%bool.
End Predicates.

(** The sum of [amount] over the entries of type [ty], added up from the
    first entry to the last, starting from 0. *)
Fixpoint amountSumFrom (acc : float) (ty : string)
    (entries : list Entry.Transaction) : float :=
  match entries with
  | [] => acc
  | t :: rest =>
      amountSumFrom
        (if String.eqb (Entry.type t) ty
         then PrimFloat.add acc (Entry.amount t) else acc)
        ty rest
  end.

Definition amountSum (ty : string) (entries : list Entry.Transaction) : float :=
  amountSumFrom 0%float ty entries.

(** Sorted by date, latest first. *)
Definition sortedByDateDesc (l : list Entry.Transaction) : Prop :=
  StronglySorted
    (fun a b => dateValue (Entry.date b) <= dateValue (Entry.date a)) l.

(** Sorted by [nextDue], earliest first. *)
Definition sortedByNextDueAsc (l : list Recurring.RecurringTemplate) : Prop :=
  StronglySorted
    (fun a b => Recurring.nextDueValue a <= Recurring.nextDueValue b) l.

(** The templates a pass at [today] has to emit for. *)
Definition dueActive (today : Instant) (l : list Recurring.RecurringTemplate)
    : list Recurring.RecurringTemplate :=
  filter (fun r => (Recurring.isActive r
                    && Recurring.isDue today (Recurring.dueInstant r))%bool) l.

(** Every field but [isActive] agrees. *)
Definition sameButIsActive (t t' : Recurring.RecurringTemplate) : Prop :=
  Recurring.id t' = Recurring.id t
  /\ Recurring.type t' = Recurring.type t
  /\ Recurring.description t' = Recurring.description t
  /\ Recurring.amount t' = Recurring.amount t
  /\ Recurring.category t' = Recurring.category t
  /\ Recurring.frequency t' = Recurring.frequency t
  /\ Recurring.startDate t' = Recurring.startDate t
  /\ Recurring.endDate t' = Recurring.endDate t
  /\ Recurring.lastProcessed t' = Recurring.lastProcessed t
  /\ Recurring.nextDue t' = Recurring.nextDue t
  /\ Recurring.createdAt t' = Recurring.createdAt t.

End Spec.

(** ** Sample data *)

Module Sample.

Definition rent (freq : string) (active : bool) (due : option ymd)
    : Recurring.RecurringTemplate :=
  Recurring.mk 1700000000000 "expense" "Rent" 1200%float "Rent" freq
               (mkYmd 2024 1 1) None active None due "2024-01-01T09:00:00.000Z".

Definition gym (freq : string) (active : bool) (due : option ymd)
    : Recurring.RecurringTemplate :=
  Recurring.mk 1700000000001 "expense" "Gym" 30%float "Subscription" freq
               (mkYmd 2024 1 1) None active None due "2024-01-01T09:05:00.000Z".

Definition ids (n : nat) : float := (1700000000000.5 + PrimFloat.of_uint63 (Uint63.of_nat n))%float.

Definition at10 (d : ymd) : Instant := mkInstant d 36000000.

Definition entry (i : float) (ty : string) (a : float) (d : ymd)
    : Entry.Transaction :=
  Entry.mk i ty a "Food" "Lunch" d false None.

Definition ledger : list Entry.Transaction :=
  [ entry 1%float "income" 2500.5%float (mkYmd 2024 1 15);
    entry 2%float "expense" 120.25%float (mkYmd 2024 1 16);
    entry 3%float "expense" 30%float (mkYmd 2024 1 16) ].

(** An Entry Store that rejects every write. *)
Definition rejecting : ExpenseTracker.TransactionAPI :=
  ExpenseTracker.mkAPI (fun _ => ExpenseTracker.Rejected "Network Error")
                       (fun _ _ => ExpenseTracker.Rejected "Network Error").

(** An Entry Store that accepts every write as it is. *)
Definition accepting : ExpenseTracker.TransactionAPI :=
  ExpenseTracker.mkAPI (fun t => ExpenseTracker.Success t)
                       (fun _ t => ExpenseTracker.Success t).

Definition emptyTracker : ExpenseTracker.State :=
  ExpenseTracker.mkState [] None false.

(** The filter bar as the component starts with it. *)
Definition noFilter : ExpenseTracker.Criteria :=
  ExpenseTracker.mkCriteria "" "all" "all" "all".

End Sample.


(** ** Calendar order *)

Module Calendar.

(** A day that exists: month 1..12, day within the month. *)
Definition validDate (d : ymd) : bool :=
  ((1 <=? month d) && (month d <=? 12) && (1 <=? dayOfMonth d)
   && (dayOfMonth d <=? daysInMonth (year d) (month d)))%bool.

(** Earlier in the calendar: the order of ['yyyy-MM-dd'] strings. *)
Definition ymd_ltb (a b : ymd) : bool :=
  ((year a <? year b)
   || ((year a =? year b)
       && ((month a <? month b)
           || ((month a =? month b) && (dayOfMonth a <? dayOfMonth b)))))%bool.

Definition ymd_leb (a b : ymd) : bool := (ymd_ltb a b || ymd_eqb a b)%bool.

(** An instant of a day that exists, at a time of that day. *)
Definition wellFormed (i : Instant) : bool :=
  (validDate (date i) && (0 <=? msOfDay i) && (msOfDay i <? msPerDay))%bool.

(** The parts of [daysFromCivil]: the year counted from March, the day
    number of its 1 March, the day within that year. *)
Definition shiftedYear (d : ymd) : Z :=
  if month d <=? 2 then year d - 1 else year d.

Definition marchFirst (y : Z) : Z :=
  let era := y / 400 in
  let yoe := y - era * 400 in
  era * 146097 + yoe * 365 + yoe / 4 - yoe / 100.

Definition dayOfShiftedYear (d : ymd) : Z :=
  (153 * ((month d + 9) mod 12) + 2) / 5 + dayOfMonth d - 1.

End Calendar.

(** ** More of date-fns *)

Module DateFnsMore.

(** [addDays(date, amount)]: [setDate(getDate() + amount)], which the
    [Date] object normalises through the day number. *)
Definition addDays (d : Instant) (amount : Z) : Instant :=
  if amount =? 0 then d
  else mkInstant (civilFromDays (daysFromCivil (date d) + amount)) (msOfDay d).

Definition subDays (d : Instant) (amount : Z) : Instant := addDays d (- amount).

Definition subMonths (d : Instant) (amount : Z) : Instant :=
  addMonths d (inject_Z (- amount)).

Definition startOfDay (d : Instant) : Instant := mkInstant (date d) 0.

Definition endOfDay (d : Instant) : Instant := mkInstant (date d) endOfDayMs.

(** [isWithinInterval(parseISO(t.date), { start, end })], the test every
    date filter of the components applies to an entry. *)
Definition entryWithin (start_ end_ : Instant) (t : Entry.Transaction) : bool :=
  isWithinInterval (parseISO (Entry.date t)) (mkInterval start_ end_).

End DateFnsMore.

(** ** [ExpenseTracker.js], the remaining handlers *)

Module Tracker.
Import Entry ExpenseTracker.

Record Categories : Type := mkCategories {
  income : list string;
  expense : list string
}.

Definition DEFAULT_CATEGORIES : Categories :=
  mkCategories
    ["Salary"; "Freelance"; "Investment"; "Business"; "Gift"; "Other Income"]
    ["Food"; "Grocery"; "EMI"; "Bills"; "Entertainment"; "Transport";
     "Shopping"; "Healthcare"; "Education"; "Other Expense"].

(** [arr.includes(s)] on an array of strings. *)
Definition includesString (arr : list string) (s : string) : bool :=
  existsb (String.eqb s) arr.

(** What [categoriesAPI.getCategories()] delivers in [response.data]. *)
Inductive CategoryData : Type :=
| ArrayData (names : list string)
| ObjectData (byType : Categories).

(** The [Array.isArray] branch of [loadCategories]. *)
Definition splitCategories (categoryData : list string) : Categories :=
  let incomeCategories :=
    filter (fun cat =>
              includesString
                ["Salary"; "Freelance"; "Investment"; "Business"; "Gift"] cat)
           categoryData in
  let expenseCategories :=
    filter (fun cat => negb (includesString incomeCategories cat))
           categoryData in
  mkCategories
    (match incomeCategories with
     | [] => income DEFAULT_CATEGORIES
     | _ => incomeCategories
     end)
    (match expenseCategories with
     | [] => expense DEFAULT_CATEGORIES
     | _ => expenseCategories
     end).

(** [loadCategories]: [response] is [None] when the call fails or the
    response carries no data; the categories held are kept then. *)
Definition loadCategories (response : option CategoryData) (categories : Categories)
    : Categories :=
  match response with
  | None => categories
  | Some (ArrayData categoryData) => splitCategories categoryData
  | Some (ObjectData categoryData) => categoryData
  end.

(** What the promise of [transactionAPI.deleteTransaction] settles to. *)
Inductive DeleteResponse : Type :=
| Deleted
| NotDeleted
| DeleteRejected (message : string).

(** [handleDeleteTransaction(id)]; [confirmed] is the answer to
    [window.confirm]. *)
Definition handleDeleteTransaction (deleteTransaction : float -> DeleteResponse)
    (confirmed : bool) (i : float) (st : State) : State :=
  if confirmed then
    match deleteTransaction i with
    | Deleted =>
        mkState (filter (fun t => negb (PrimFloat.eqb (id t) i)) (transactions st))
                (editingTransaction st) (showTransactionForm st)
    | NotDeleted => st
    | DeleteRejected _ => st
    end
  else st.

End Tracker.

(** ** [Reports.js], the period filter and the charts *)

Module ReportsView.
Import Entry DateFnsMore.

(** [filteredTransactions] of the Reports tab. The custom bounds are the
    values of two date inputs, [None] while an input is empty. The custom
    branch is written for a clock on UTC, where [new Date('yyyy-MM-dd')] is
    the local midnight that starts the day, and for bounds in order:
    [isWithinInterval] throws a RangeError when the start is after the end,
    where this function gives the empty list. *)
Definition filteredTransactions (reportPeriod : string)
    (customStartDate customEndDate : option ymd) (now : Instant)
    (transactions : list Transaction) : list Transaction :=
  match (if String.eqb reportPeriod "custom" then customStartDate else None),
        customEndDate with
  | Some s, Some e =>
      filter (entryWithin (parseISO s) (parseISO e)) transactions
  | _, _ =>
      if String.eqb reportPeriod "week" then
        filter (entryWithin (startOfWeek now) (endOfWeek now)) transactions
      else if String.eqb reportPeriod "month" then
        filter (entryWithin (startOfMonth now) (endOfMonth now)) transactions
      else if String.eqb reportPeriod "year" then
        filter (entryWithin (startOfYear now) (endOfYear now)) transactions
      else transactions
  end.

(** The entries [monthlyComparisonData] counts for the month [i] months
    back. *)
Definition monthTransactions (now : Instant) (i : Z)
    (transactions : list Transaction) : list Transaction :=
  let date := subMonths now i in
  filter (entryWithin (startOfMonth date) (endOfMonth date)) transactions.

End ReportsView.

(** ** The dashboard *)

Module Dashboard.
Import Entry DateFnsMore.

(** [todayTransactions]. *)
Definition todayTransactions (today : Instant) (transactions : list Transaction)
    : list Transaction :=
  let todayStart := startOfDay today in
  let todayEnd := endOfDay today in
  filter (entryWithin todayStart todayEnd) transactions.

(** [last7Days] of [weeklyComparisonData]: six days ago first, today last. *)
Definition last7Days (now : Instant) : list Instant :=
  map (fun i => subDays now i) [6; 5; 4; 3; 2; 1; 0].

(** The entries [weeklyComparisonData] counts for the day of [date]. *)
Definition dayTransactions (date : Instant) (transactions : list Transaction)
    : list Transaction :=
  let dayStart := startOfDay date in
  let dayEnd := endOfDay date in
  filter (entryWithin dayStart dayEnd) transactions.

(** The entries [monthlyTrendData] counts in its bucket [i] (0 is the
    latest): thirty-day steps back from now, fifteen days to either side. *)
Definition trendTransactions (now : Instant) (i : Z)
    (transactions : list Transaction) : list Transaction :=
  let date := subDays now (i * 30) in
  let monthStart := startOfDay (subDays date 15) in
  let monthEnd := endOfDay (subDays date (-15)) in
  filter (entryWithin monthStart monthEnd) transactions.

End Dashboard.

(** ** Totals by category, for the pie and doughnut charts *)

Module ByCategory.
Import Entry.

(** [x || 0] on a number: [0], [-0] and [NaN] are falsy. *)
Definition orZero (x : float) : float :=
  if (PrimFloat.eqb x 0%float || negb (PrimFloat.eqb x x))%bool then 0%float else x.

(** The names [Object.prototype] defines: read on a plain object they give
    the inherited member, and ["__proto__"] cannot be stored as a key. *)
Definition prototypeNames : list string :=
  ["__proto__"; "constructor"; "hasOwnProperty"; "isPrototypeOf";
   "propertyIsEnumerable"; "toLocaleString"; "toString"; "valueOf";
   "__defineGetter__"; "__defineSetter__"; "__lookupGetter__";
   "__lookupSetter__"].

Fixpoint allDigits (s : string) : bool :=
  match s with
  | EmptyString => true
  | String c r =>
      (Nat.leb 48 (nat_of_ascii c) && Nat.leb (nat_of_ascii c) 57
       && allDigits r)%bool
  end.

(** An ordinary key of a plain object: none of the inherited names, and
    not a string of digits, which an object lists before its other keys. *)
Definition plainKey (k : string) : bool :=
  (negb (existsb (String.eqb k) prototypeNames)
   && negb (negb (String.eqb k "") && allDigits k))%bool.

(** [o[k] = (o[k] || 0) + a] on an object used as a map with ordinary keys
    ([plainKey]), which it lists in the order in which they were added. *)
Fixpoint addTo (o : list (string * float)) (k : string) (a : float)
    : list (string * float) :=
  match o with
  | [] => [(k, PrimFloat.add 0%float a)]
  | (k', v) :: r =>
      if String.eqb k' k then (k', PrimFloat.add (orZero v) a) :: r
      else (k', v) :: addTo r k a
  end.

(** The [forEach] over the expense entries that fills the object. *)
Definition expensesByCategory (transactions : list Transaction)
    : list (string * float) :=
  fold_left (fun o t => addTo o (category t) (amount t))
            (filter (fun t => String.eqb (type t) "expense") transactions) [].

Definition colors10 : list string :=
  ["#3498db"; "#2ecc71"; "#e74c3c"; "#f39c12"; "#9b59b6";
   "#1abc9c"; "#34495e"; "#e67e22"; "#95a5a6"; "#f1c40f"].

(** [categoryData] of the dashboard: labels, data, slice colours. *)
Definition categoryData (transactions : list Transaction)
    : list string * list float * list string :=
  let o := expensesByCategory transactions in
  let labels := map fst o in
  let data := map snd o in
  (labels, data, firstn (List.length labels) colors10).

(** The sign [sort] reads off a comparator result; [NaN] counts as 0. *)
Definition floatSign (x : float) : Z :=
  if PrimFloat.ltb 0%float x then 1
  else if PrimFloat.ltb x 0%float then -1 else 0.

(** [sortedCategories] of [categoryTrendData]: the eight largest totals. *)
Definition sortedCategories (filteredTransactions : list Transaction)
    : list (string * float) :=
  JS.slice0 8
    (JS.sort (fun a b => floatSign (PrimFloat.sub (snd b) (snd a)))
             (expensesByCategory filteredTransactions)).

End ByCategory.

(** ** [RecurringTransactions.js], the form and the list handlers *)

Module RecurringForm.

(** The value of the amount field: the text of the input, or the number
    [handleEdit] copied from the template. *)
Inductive FieldValue : Type :=
| Text (s : string)
| Num (x : float).

Definition truthyField (v : FieldValue) : bool :=
  match v with
  | Text s => JS.truthy s
  | Num x => (negb (PrimFloat.eqb x 0%float) && PrimFloat.eqb x x)%bool
  end.

(** [parseFloat(formData.amount)], [parse] being [parseFloat] on strings. *)
Definition parseFloatField (parse : string -> float) (v : FieldValue) : float :=
  match v with
  | Text s => parse s
  | Num x => Recurring.parseFloatNumber x
  end.

(** [formData]; [id] and [createdAt] are present only after [handleEdit]
    spread a template into it. *)
Record FormData : Type := mkForm {
  type : string;
  description : string;
  amount : FieldValue;
  category : string;
  frequency : string;
  startDate : ymd;
  endDate : option ymd;
  isActive : bool;
  lastProcessed : option ymd;
  nextDue : option ymd;
  id : option Z;
  createdAt : option string
}.

Record State : Type := mkState {
  recurringTransactions : list Recurring.RecurringTemplate;
  showForm : bool;
  editingTransaction : option Recurring.RecurringTemplate;
  formData : FormData
}.

(** What the handlers read from the environment: [new Date()],
    [Date.now()] and [new Date().toISOString()]. *)
Record Clock : Type := mkClock {
  now : Instant;
  dateNow : Z;
  isoNow : string
}.

(** [calculateNextDue(startDate, frequency)]. *)
Definition calculateNextDue (startDate : ymd) (frequency : string)
    (today : Instant) : ymd :=
  let start := parseISO startDate in
  if isBefore start today then format today else startDate.

Definition initialForm (today : Instant) : FormData :=
  mkForm "expense" "" (Text "") "" "monthly" (format today) None true
         None None None None.

(** [resetForm]. *)
Definition resetForm (today : Instant) (st : State) : State :=
  mkState (recurringTransactions st) false None (initialForm today).

(** [handleEdit(transaction)]. *)
Definition handleEdit (transaction : Recurring.RecurringTemplate) (st : State)
    : State :=
  mkState (recurringTransactions st) true (Some transaction)
    (mkForm (Recurring.type transaction) (Recurring.description transaction)
            (Num (Recurring.amount transaction)) (Recurring.category transaction)
            (Recurring.frequency transaction) (Recurring.startDate transaction)
            (Recurring.endDate transaction) (Recurring.isActive transaction)
            (Recurring.lastProcessed transaction) (Recurring.nextDue transaction)
            (Some (Recurring.id transaction))
            (Some (Recurring.createdAt transaction))).

(** The template [handleSubmit] builds: [{ id, ...formData, amount, nextDue,
    createdAt }], later keys overriding earlier ones. *)
Definition recurringTransaction (parse : string -> float) (clock : Clock)
    (st : State) : Recurring.RecurringTemplate :=
  let f := formData st in
  Recurring.mk
    (match id f with
     | Some i => i
     | None => match editingTransaction st with
               | Some e => Recurring.id e
               | None => dateNow clock
               end
     end)
    (type f) (description f) (parseFloatField parse (amount f)) (category f)
    (frequency f) (startDate f) (endDate f) (isActive f) (lastProcessed f)
    (Some (calculateNextDue (startDate f) (frequency f) (now clock)))
    (match editingTransaction st with
     | Some e => Recurring.createdAt e
     | None => isoNow clock
     end).

(** [handleSubmit]. *)
Definition handleSubmit (parse : string -> float) (clock : Clock) (st : State)
    : State :=
  let f := formData st in
  if (negb (JS.truthy (description f)) || negb (truthyField (amount f))
      || negb (JS.truthy (category f)))%bool
  then st
  else
    let rt := recurringTransaction parse clock st in
    resetForm (now clock)
      (mkState
         (match editingTransaction st with
          | Some e =>
              map (fun t => if Recurring.id t =? Recurring.id e then rt else t)
                  (recurringTransactions st)
          | None => (recurringTransactions st ++ [rt])%list
          end)
         (showForm st) (editingTransaction st) (formData st)).

(** [handleDelete(id)]; [confirmed] is the answer to [window.confirm]. *)
Definition handleDelete (confirmed : bool) (i : Z) (st : State) : State :=
  if confirmed then
    mkState (filter (fun t => negb (Recurring.id t =? i)) (recurringTransactions st))
            (showForm st) (editingTransaction st) (formData st)
  else st.

End RecurringForm.

(** ** The transaction form *)

Module TransactionForm.

Record FormData : Type := mkForm {
  type : string;
  amount : string;
  category : string;
  description : string;
  date : option ymd
}.

(** The keys [validateForm] sets in [newErrors]. *)
Record Errors : Type := mkErrors {
  amountError : option string;
  categoryError : option string;
  descriptionError : option string;
  dateError : option string
}.

(** What [handleSubmit] hands to [onSave]. *)
Record TransactionData : Type := mkData {
  dataType : string;
  dataAmount : float;
  dataCategory : string;
  dataDescription : string;
  dataDate : ymd
}.

(** A string holds the UTF-8 bytes of the text. The characters [trim]
    removes are the white space and line terminators of the language:
    U+0009 to U+000D and U+0020 (one byte each), U+00A0 (C2 A0), U+1680
    (E1 9A 80), U+2000 to U+200A, U+2028, U+2029 and U+202F (E2 80 80 to 8A,
    A8, A9, AF), U+205F (E2 81 9F), U+3000 (E3 80 80) and U+FEFF
    (EF BB BF). *)
Definition isSpace (c : ascii) : bool :=
  let n := nat_of_ascii c in
  (Nat.eqb n 32 || (Nat.leb 9 n && Nat.leb n 13))%bool.

Definition isSpace2 (a b : ascii) : bool :=
  (Nat.eqb (nat_of_ascii a) 194 && Nat.eqb (nat_of_ascii b) 160)%bool.

Definition isSpace3 (a b c : ascii) : bool :=
  let x := nat_of_ascii a in
  let y := nat_of_ascii b in
  let z := nat_of_ascii c in
  ((Nat.eqb x 225 && Nat.eqb y 154 && Nat.eqb z 128)
   || (Nat.eqb x 226 && Nat.eqb y 128
       && ((Nat.leb 128 z && Nat.leb z 138) || Nat.eqb z 168 || Nat.eqb z 169
           || Nat.eqb z 175))
   || (Nat.eqb x 226 && Nat.eqb y 129 && Nat.eqb z 159)
   || (Nat.eqb x 227 && Nat.eqb y 128 && Nat.eqb z 128)
   || (Nat.eqb x 239 && Nat.eqb y 187 && Nat.eqb z 191))%bool.

(** The bytes left when the white space at the front is dropped. *)
Fixpoint trimStartBytes (l : list ascii) : list ascii :=
  match l with
  | [] => []
  | a :: r =>
      if isSpace a then trimStartBytes r
      else
        match r with
        | [] => l
        | b :: r2 =>
            if isSpace2 a b then trimStartBytes r2
            else
              match r2 with
              | [] => l
              | c :: r3 => if isSpace3 a b c then trimStartBytes r3 else l
              end
        end
  end.

(** The same on the bytes read from the end: each character comes last
    byte first. *)
Fixpoint trimStartReversed (l : list ascii) : list ascii :=
  match l with
  | [] => []
  | a :: r =>
      if isSpace a then trimStartReversed r
      else
        match r with
        | [] => l
        | b :: r2 =>
            if isSpace2 b a then trimStartReversed r2
            else
              match r2 with
              | [] => l
              | c :: r3 => if isSpace3 c b a then trimStartReversed r3 else l
              end
        end
  end.

Definition trimEndBytes (l : list ascii) : list ascii :=
  rev (trimStartReversed (rev l)).

(** [s.trim()]. *)
Definition trim (s : string) : string :=
  string_of_list_ascii (trimEndBytes (trimStartBytes (list_ascii_of_string s))).

(** [validateForm]: the errors it stores and whether there are none. *)
Definition validateForm (parse : string -> float) (formData : FormData)
    : Errors * bool :=
  let newErrors :=
    mkErrors
      (if (negb (JS.truthy (amount formData))
           || PrimFloat.leb (parse (amount formData)) 0%float)%bool
       then Some "Please enter a valid amount" else None)
      (if negb (JS.truthy (category formData))
       then Some "Please select a category" else None)
      (if negb (JS.truthy (trim (description formData)))
       then Some "Please enter a description" else None)
      (match date formData with
       | None => Some "Please select a date"
       | Some _ => None
       end) in
  (newErrors,
   match amountError newErrors, categoryError newErrors,
         descriptionError newErrors, dateError newErrors with
   | None, None, None, None => true
   | _, _, _, _ => false
   end).

(** [handleSubmit]: the errors left in the form and the argument of
    [onSave], when it is called. *)
Definition handleSubmit (parse : string -> float) (formData : FormData)
    : Errors * option TransactionData :=
  let v := validateForm parse formData in
  if negb (snd v) then (fst v, None)
  else
    (fst v,
     match date formData with
     | Some d =>
         Some (mkData (type formData) (parse (amount formData))
                      (category formData) (trim (description formData)) d)
     | None => None
     end).

End TransactionForm.

(** ** Relations the properties below are stated with *)

Module Props.

(** Every field but [lastProcessed] and [nextDue] agrees. *)
Definition sameButProcessed (t t' : Recurring.RecurringTemplate) : Prop :=
  Recurring.id t' = Recurring.id t
  /\ Recurring.type t' = Recurring.type t
  /\ Recurring.description t' = Recurring.description t
  /\ Recurring.amount t' = Recurring.amount t
  /\ Recurring.category t' = Recurring.category t
  /\ Recurring.frequency t' = Recurring.frequency t
  /\ Recurring.startDate t' = Recurring.startDate t
  /\ Recurring.endDate t' = Recurring.endDate t
  /\ Recurring.isActive t' = Recurring.isActive t
  /\ Recurring.createdAt t' = Recurring.createdAt t.

(** [tx] is the transaction built from template [r] on the day of [today]:
    the amount as [parseFloat] returns it, the description ending in
    [suffix]. *)
Definition emittedFrom (suffix : string) (today : Instant)
    (r : Recurring.RecurringTemplate) (tx : Entry.Transaction) : Prop :=
  Entry.type tx = Recurring.type r
  /\ Entry.amount tx = Recurring.parseFloatNumber (Recurring.amount r)
  /\ Entry.category tx = Recurring.category r
  /\ Entry.description tx = (Recurring.description r ++ suffix)%string
  /\ Entry.date tx = format today
  /\ Entry.isRecurring tx = true
  /\ Entry.recurringId tx = Some (Recurring.id r).

(** The templates after [n] runs of the pass at the same instant: the
    effect that holds the pass depends on [recurringTransactions] and runs
    again whenever a pass has stored a new list. *)
Fixpoint rerun (n : nat) (today : Instant) (newId : nat -> float)
    (l : list Recurring.RecurringTemplate) : list Recurring.RecurringTemplate :=
  match n with
  | O => l
  | S k =>
      rerun k today newId
            (fst (Recurring.processRecurringTransactions today newId l))
  end.

(** The bytes begin with a character [trim] removes. *)
Definition startsWithSpaceBytes (l : list ascii) : bool :=
  match l with
  | [] => false
  | a :: r =>
      (TransactionForm.isSpace a
       || match r with
          | [] => false
          | b :: r2 =>
              (TransactionForm.isSpace2 a b
               || match r2 with
                  | [] => false
                  | c :: _ => TransactionForm.isSpace3 a b c
                  end)
          end)%bool
  end.

(** The bytes, read from the end, begin with such a character. *)
Definition startsWithSpaceReversed (l : list ascii) : bool :=
  match l with
  | [] => false
  | a :: r =>
      (TransactionForm.isSpace a
       || match r with
          | [] => false
          | b :: r2 =>
              (TransactionForm.isSpace2 b a
               || match r2 with
                  | [] => false
                  | c :: _ => TransactionForm.isSpace3 c b a
                  end)
          end)%bool
  end.

(** [s] begins, or ends, with a character [trim] removes. *)
Definition startsWithSpace (s : string) : bool :=
  startsWithSpaceBytes (list_ascii_of_string s).

Definition endsWithSpace (s : string) : bool :=
  startsWithSpaceReversed (rev (list_ascii_of_string s)).

(** One period after the due day of [r] is still not after the day of
    [today]: the template is overdue by a full period or more. *)
Definition overdueByAPeriod (today : Instant) (r : Recurring.RecurringTemplate)
    : bool :=
  Calendar.ymd_leb
    (Spec.advance (Recurring.frequency r) (format (Recurring.dueInstant r)))
    (format today).

(** Every expense entry has a category that is an ordinary key of a plain
    object. *)
Definition plainCategories (l : list Entry.Transaction) : Prop :=
  forall t, In t l -> Entry.type t = "expense" ->
            ByCategory.plainKey (Entry.category t) = true.

(** An entry of type expense with category [c]. *)
Definition expenseOf (c : string) (t : Entry.Transaction) : Prop :=
  Entry.type t = "expense" /\ Entry.category t = c.

End Props.

(** ** Facts about the built-ins *)

Section SortFacts.
Context {A : Type} (cmp : A -> A -> Z).

Let le (a b : A) : Prop := cmp a b <= 0.

Lemma insert_perm (a : A) (l : list A) :
  Permutation (JS.insert cmp a l) (a :: l).
Proof.
  induction l as [| b r IH]; simpl.
  - apply Permutation_refl.
  - destruct (cmp a b <=? 0).
    + apply Permutation_refl.
    + eapply perm_trans; [apply perm_skip, IH | apply perm_swap].
Qed.

Lemma sort_perm (l : list A) : Permutation (JS.sort cmp l) l.
Proof.
  induction l as [| a r IH]; simpl.
  - constructor.
  - eapply perm_trans; [apply insert_perm | apply perm_skip, IH].
Qed.

(** Sorting a list that is in order already leaves it as it is. *)
Lemma sort_sorted_id (l : list A) :
  StronglySorted le l -> JS.sort cmp l = l.
Proof.
  induction 1 as [| a r Hs IH Hall]; simpl.
  - reflexivity.
  - rewrite IH. destruct r as [| b r']; simpl.
    + reflexivity.
    + inversion Hall as [| ? ? Hab _]; subst. unfold le in Hab.
      apply Z.leb_le in Hab. now rewrite Hab.
Qed.

Hypothesis cmp_total : forall a b, 0 < cmp a b -> cmp b a <= 0.
Hypothesis cmp_trans : forall a b c, cmp a b <= 0 -> cmp b c <= 0 -> cmp a c <= 0.

Lemma insert_sorted (a : A) (l : list A) :
  StronglySorted le l -> StronglySorted le (JS.insert cmp a l).
Proof.
  induction 1 as [| b r Hs IH Hall]; simpl.
  - repeat constructor.
  - destruct (cmp a b <=? 0) eqn:E.
    + apply Z.leb_le in E. constructor.
      * now constructor.
      * constructor; [exact E |].
        eapply Forall_impl; [| exact Hall].
        intros c Hbc. now apply cmp_trans with b.
    + apply Z.leb_gt in E. constructor; [exact IH |].
      eapply Permutation_Forall.
      * apply Permutation_sym, insert_perm.
      * constructor; [now apply cmp_total | exact Hall].
Qed.

Lemma sort_sorted (l : list A) : StronglySorted le (JS.sort cmp l).
Proof.
  induction l as [| a r IH]; simpl.
  - constructor.
  - now apply insert_sorted.
Qed.
End SortFacts.

Lemma firstn_StronglySorted {A : Type} (R : A -> A -> Prop) (n : nat) (l : list A) :
  StronglySorted R l -> StronglySorted R (firstn n l).
Proof.
  intros H. revert n. induction H as [| a r Hs IH Hall]; intros [| n]; simpl;
    try constructor.
  - apply IH.
  - rewrite Forall_forall in *. intros x Hx. apply Hall.
    rewrite <- (firstn_skipn n r). apply in_or_app. now left.
Qed.

Lemma filter_filter_andb {A : Type} (f g : A -> bool) (l : list A) :
  filter f (filter g l) = filter (fun x => (g x && f x)%bool) l.
Proof.
  induction l as [| a r IH]; simpl.
  - reflexivity.
  - destruct (g a); simpl; [destruct (f a) |]; now rewrite IH.
Qed.

(** A filter stage that is skipped when its guard is off. *)
Lemma guarded_filter {A : Type} (guard : bool) (f : A -> bool) (l : list A) :
  (if guard then filter f l else l) = filter (fun x => (negb guard || f x)%bool) l.
Proof.
  destruct guard; simpl.
  - reflexivity.
  - symmetry. apply forallb_filter_id. now apply forallb_forall.
Qed.

Lemma ymd_eqb_eq (a b : ymd) : ymd_eqb a b = true <-> a = b.
Proof.
  unfold ymd_eqb. rewrite !andb_true_iff, !Z.eqb_eq.
  destruct a, b; simpl. split.
  - intros [[-> ->] ->]. reflexivity.
  - intros H. inversion H. auto.
Qed.

Lemma StronglySorted_pairwise {A : Type} (R : A -> A -> Prop) (l : list A) :
  (forall a b, In a l -> In b l -> R a b) -> StronglySorted R l.
Proof.
  induction l as [| a r IH]; intros H.
  - constructor.
  - constructor.
    + apply IH. intros x y Hx Hy. apply H; now right.
    + apply Forall_forall. intros y Hy. apply H; [now left | now right].
Qed.

Lemma StronglySorted_weaken {A : Type} (R S : A -> A -> Prop) (l : list A) :
  (forall a b, R a b -> S a b) -> StronglySorted R l -> StronglySorted S l.
Proof.
  intros HRS. induction 1 as [| a r Hs IH Hall]; constructor.
  - exact IH.
  - eapply Forall_impl; [| exact Hall]. intros b. apply HRS.
Qed.

(** ** The filter view *)

Section FilterView.
Import Entry ExpenseTracker.

(** The date stage of [filteredTransactions] keeps what
    [Spec.matchesDateRange] accepts. *)
Lemma date_stage (c : Criteria) (now : Instant) (l : list Transaction) :
  (if negb (String.eqb (dateRange c) "all") then
     if String.eqb (dateRange c) "today" then
       filter (fun t => ymd_eqb (format (parseISO (date t))) (format now)) l
     else if String.eqb (dateRange c) "week" then
       filter (fun t => isWithinInterval (parseISO (date t))
                          (mkInterval (startOfWeek now) (endOfWeek now))) l
     else if String.eqb (dateRange c) "month" then
       filter (fun t => isWithinInterval (parseISO (date t))
                          (mkInterval (startOfMonth now) (endOfMonth now))) l
     else if String.eqb (dateRange c) "year" then
       filter (fun t => isWithinInterval (parseISO (date t))
                          (mkInterval (startOfYear now) (endOfYear now))) l
     else l
   else l)
  = filter (Spec.matchesDateRange c now) l.
Proof.
  assert (Hall : forall f, (forall t : Transaction, f t = true) -> l = filter f l).
  { intros f Hf. symmetry. apply forallb_filter_id, forallb_forall.
    intros t _. apply Hf. }
  unfold Spec.matchesDateRange.
  destruct (String.eqb (dateRange c) "all") eqn:Eall; simpl.
  - apply String.eqb_eq in Eall. rewrite Eall. simpl. now apply Hall.
  - destruct (String.eqb (dateRange c) "today"); [reflexivity |].
    destruct (String.eqb (dateRange c) "week"); [reflexivity |].
    destruct (String.eqb (dateRange c) "month"); [reflexivity |].
    destruct (String.eqb (dateRange c) "year"); [reflexivity |].
    now apply Hall.
Qed.

(** The stages of [filteredTransactions] amount to one filter by the
    conjunction. *)
Lemma filteredTransactions_one_filter (c : Criteria) (now : Instant)
    (l : list Transaction) :
  filteredTransactions c now l
  = JS.sort byDateDesc (filter (Spec.satisfiesAll c now) l).
Proof.
  unfold filteredTransactions. cbv zeta. rewrite date_stage.
  rewrite !guarded_filter, !filter_filter_andb. f_equal.
  apply filter_ext. intros t.
  unfold Spec.satisfiesAll, Spec.matchesSearch, Spec.matchesType,
    Spec.matchesCategory, JS.truthy.
  rewrite !negb_involutive, orb_assoc, !andb_assoc. reflexivity.
Qed.

Lemma byDateDesc_sorted (l : list Transaction) :
  Spec.sortedByDateDesc (JS.sort byDateDesc l).
Proof.
  unfold Spec.sortedByDateDesc.
  apply StronglySorted_weaken with (R := fun a b => byDateDesc a b <= 0).
  - unfold byDateDesc. intros a b H. lia.
  - apply sort_sorted; unfold byDateDesc; intros; lia.
Qed.

(** C6. Filtering with [dateRange = 'today'] (no search text, type and
    category on 'all') returns exactly the entries whose date is the
    evaluation day, in their original order; of two entries dated
    2024-01-15 and 2024-01-16, evaluated on 2024-01-15, only the first is
    returned. *)
Theorem filter_today_exact :
  (forall (now : Instant) (transactions : list Transaction),
      filteredTransactions (mkCriteria "" "all" "all" "today") now transactions
      = filter (fun t => ymd_eqb (date t) (format now)) transactions)
  /\ (forall ms i1 ty1 a1 c1 d1 r1 ri1 i2 ty2 a2 c2 d2 r2 ri2,
         filteredTransactions (mkCriteria "" "all" "all" "today")
           (mkInstant (mkYmd 2024 1 15) ms)
           [ Entry.mk i1 ty1 a1 c1 d1 (mkYmd 2024 1 15) r1 ri1;
             Entry.mk i2 ty2 a2 c2 d2 (mkYmd 2024 1 16) r2 ri2 ]
         = [ Entry.mk i1 ty1 a1 c1 d1 (mkYmd 2024 1 15) r1 ri1 ]).
Proof.
  assert (Hgen : forall now transactions,
             filteredTransactions (mkCriteria "" "all" "all" "today") now transactions
             = filter (fun t => ymd_eqb (date t) (format now)) transactions).
  { intros now transactions. unfold filteredTransactions. simpl.
    apply sort_sorted_id. apply StronglySorted_pairwise.
    intros a b Ha Hb. apply filter_In in Ha, Hb.
    destruct Ha as [_ Ha], Hb as [_ Hb].
    apply ymd_eqb_eq in Ha, Hb. unfold byDateDesc.
    replace (date b) with (date a) by congruence. lia. }
  split; [exact Hgen |].
  intros. rewrite Hgen. reflexivity.
Qed.

(** C7. For every entry collection and every criteria, the filter returns
    exactly the entries that satisfy all four predicates together (each of
    them a no-op on 'all'), each as often as it occurs, and the result is
    sorted by date, latest first. *)
Theorem filter_conjunctive_sorted (c : Criteria) (now : Instant)
    (transactions : list Transaction) :
  let result := filteredTransactions c now transactions in
  result = JS.sort byDateDesc (filter (Spec.satisfiesAll c now) transactions)
  /\ Permutation result (filter (Spec.satisfiesAll c now) transactions)
  /\ (forall t, In t result <->
                In t transactions
                /\ Spec.matchesSearch c t = true
                /\ Spec.matchesType c t = true
                /\ Spec.matchesCategory c t = true
                /\ Spec.matchesDateRange c now t = true)
  /\ Spec.sortedByDateDesc result.
Proof.
  cbv zeta. rewrite filteredTransactions_one_filter.
  split; [reflexivity |]. split; [apply sort_perm |]. split.
  - intros t. split.
    + intros H. apply (Permutation_in _ (sort_perm byDateDesc _)) in H.
      apply filter_In in H. destruct H as [Hin H].
      unfold Spec.satisfiesAll in H. rewrite !andb_true_iff in H. tauto.
    + intros (Hin & H1 & H2 & H3 & H4).
      apply (Permutation_in _ (Permutation_sym (sort_perm byDateDesc _))).
      apply filter_In. split; [exact Hin |].
      unfold Spec.satisfiesAll. now rewrite H1, H2, H3, H4.
  - apply byDateDesc_sorted.
Qed.

End FilterView.

(** ** Totals *)

Section TotalsFacts.
Import Entry.

Lemma fold_filter_amountSumFrom (ty : string) (l : list Transaction) (acc : float) :
  fold_left (fun sum t => PrimFloat.add sum (amount t))
            (filter (fun t => String.eqb (type t) ty) l) acc
  = Spec.amountSumFrom acc ty l.
Proof.
  revert acc. induction l as [| t r IH]; intros acc; simpl.
  - reflexivity.
  - destruct (String.eqb (type t) ty); simpl; apply IH.
Qed.

Lemma sumAmounts_filter (ty : string) (l : list Transaction) :
  ExpenseTracker.sumAmounts (filter (fun t => String.eqb (type t) ty) l)
  = Spec.amountSum ty l.
Proof. apply fold_filter_amountSumFrom. Qed.

(** C9. For every non-empty entry collection, both totals computations
    ([filteredTotals] and [periodTotals]) give
    [balance = income - expense], with [income] and [expense] the sums of
    [amount] over the entries of that type. *)
Theorem totals_balance_exact (entries : list Transaction) :
  entries <> [] ->
  let t := ExpenseTracker.filteredTotals entries in
  let p := Reports.periodTotals entries in
  ExpenseTracker.balance t
    = PrimFloat.sub (ExpenseTracker.income t) (ExpenseTracker.expense t)
  /\ ExpenseTracker.income t = Spec.amountSum "income" entries
  /\ ExpenseTracker.expense t = Spec.amountSum "expense" entries
  /\ Reports.balance p = PrimFloat.sub (Reports.income p) (Reports.expense p)
  /\ Reports.income p = Spec.amountSum "income" entries
  /\ Reports.expense p = Spec.amountSum "expense" entries.
Proof.
  intros _. cbv zeta.
  unfold ExpenseTracker.filteredTotals, Reports.periodTotals. simpl.
  rewrite !sumAmounts_filter. repeat split.
Qed.

Lemma totals_balance_exact_witness :
  Sample.ledger <> []
  /\ ExpenseTracker.balance (ExpenseTracker.filteredTotals Sample.ledger)
     = PrimFloat.sub
         (ExpenseTracker.income (ExpenseTracker.filteredTotals Sample.ledger))
         (ExpenseTracker.expense (ExpenseTracker.filteredTotals Sample.ledger)).
Proof.
  split; [discriminate |].
  apply (totals_balance_exact Sample.ledger). discriminate.
Defined.

Example ledger_totals :
  ExpenseTracker.filteredTotals Sample.ledger
  = ExpenseTracker.mkTotals 2500.5%float 150.25%float 2350.25%float.
Proof. vm_compute. reflexivity. Qed.

End TotalsFacts.

(** ** Templates: pause, resume and the upcoming list *)

Section TemplateFacts.
Import Recurring.

Lemma withIsActive_negb_twice (t : RecurringTemplate) :
  withIsActive (withIsActive t (negb (isActive t)))
               (negb (isActive (withIsActive t (negb (isActive t))))) = t.
Proof. destruct t as [? ? ? ? ? ? ? ? []]; reflexivity. Qed.

(** C10. [toggleActive(id)] applied twice gives the collection back, and
    one [toggleActive(id)] keeps the length and the order, flips
    [isActive] on the templates with that id and on no other, and leaves
    every other field of every template as it was. *)
Theorem toggleActive_involutive_local (i : Z) (l : list RecurringTemplate) :
  toggleActive i (toggleActive i l) = l
  /\ Forall2 (fun t t' =>
                Spec.sameButIsActive t t'
                /\ isActive t' = (if id t =? i then negb (isActive t)
                                  else isActive t)
                /\ (id t <> i -> t' = t))
             l (toggleActive i l).
Proof.
  split.
  - unfold toggleActive. rewrite map_map.
    rewrite <- (map_id l) at 2. apply map_ext. intros t.
    destruct (id t =? i) eqn:E; simpl; rewrite E.
    + apply withIsActive_negb_twice.
    + reflexivity.
  - induction l as [| t r IH]; simpl; constructor; [| exact IH].
    destruct (id t =? i) eqn:E.
    + apply Z.eqb_eq in E.
      repeat split; try reflexivity. intros Hne. contradiction.
    + repeat split; reflexivity.
Qed.

Lemma byNextDueAsc_sorted (l : list RecurringTemplate) :
  Spec.sortedByNextDueAsc (JS.sort byNextDueAsc l).
Proof.
  unfold Spec.sortedByNextDueAsc.
  apply StronglySorted_weaken with (R := fun a b => byNextDueAsc a b <= 0).
  - unfold byNextDueAsc. intros a b H. lia.
  - apply sort_sorted; unfold byNextDueAsc; intros; lia.
Qed.

Lemma upcoming_in_active (l : list RecurringTemplate) (t : RecurringTemplate) :
  In t (upcomingTransactions l) -> In t (activeRecurring l).
Proof.
  unfold upcomingTransactions, JS.slice0. intros H.
  assert (H' : In t (JS.sort byNextDueAsc (filter hasNextDue (activeRecurring l)))).
  { rewrite <- (firstn_skipn 5 (JS.sort _ _)). apply in_or_app. now left. }
  apply (Permutation_in _ (sort_perm _ _)) in H'.
  apply filter_In in H'. tauto.
Qed.

(** C8. The upcoming list holds only templates of the collection with
    [isActive = true], is sorted by [nextDue] ascending, and has at most
    [limit] entries, the limit being the 5 the component passes to
    [slice]. *)
Theorem upcoming_active_sorted_bounded (l : list RecurringTemplate) :
  let limit := 5%nat in
  Forall (fun t => In t l /\ isActive t = true) (upcomingTransactions l)
  /\ Spec.sortedByNextDueAsc (upcomingTransactions l)
  /\ (List.length (upcomingTransactions l) <= limit)%nat.
Proof.
  cbv zeta. split; [| split].
  - apply Forall_forall. intros t H. apply upcoming_in_active in H.
    unfold activeRecurring in H. apply filter_In in H. exact H.
  - unfold upcomingTransactions, JS.slice0.
    apply firstn_StronglySorted, byNextDueAsc_sorted.
  - unfold upcomingTransactions, JS.slice0. apply firstn_le_length.
Qed.

End TemplateFacts.

(** ** The scheduler pass *)

Section SchedulerFacts.
Import Recurring.

Lemma processEntry_due (today : Instant) (nid : float) (r : RecurringTemplate) :
  isActive r = true -> isDue today (dueInstant r) = true ->
  processEntry today nid r
  = (withProcessed r (format today)
       (format (addMonths (dueInstant r) (periodAmount (frequency r)))),
     Some (newTransaction nid " (Auto)" today r)).
Proof. intros Ha Hd. unfold processEntry. now rewrite Ha, Hd. Qed.

Lemma processEntry_skip (today : Instant) (nid : float) (r : RecurringTemplate) :
  (isActive r && isDue today (dueInstant r))%bool = false ->
  processEntry today nid r = (r, None).
Proof.
  intros H. unfold processEntry. destruct (isActive r); simpl in *.
  - now rewrite H.
  - reflexivity.
Qed.

Lemma processEntry_fst (today : Instant) (nid : float) (r : RecurringTemplate) :
  fst (processEntry today nid r) = afterPass today r.
Proof.
  unfold afterPass, processEntry.
  destruct (isActive r); simpl; [| reflexivity].
  destruct (isDue today (dueInstant r)); reflexivity.
Qed.

Lemma forEachFrom_fst (today : Instant) (newId : nat -> float) (l : list RecurringTemplate) :
  forall k, fst (forEachFrom today newId k l) = map (afterPass today) l.
Proof.
  induction l as [| r rest IH]; intros k; simpl.
  - reflexivity.
  - now rewrite processEntry_fst, IH.
Qed.

(** The emitted transactions carry, in order, the ids of the active
    templates that are due. *)
Lemma forEachFrom_snd_ids (today : Instant) (newId : nat -> float) (l : list RecurringTemplate) :
  forall k, map Entry.recurringId (snd (forEachFrom today newId k l))
            = map (fun r => Some (id r)) (Spec.dueActive today l).
Proof.
  induction l as [| r rest IH]; intros k; simpl.
  - reflexivity.
  - rewrite map_app, IH.
    destruct (isActive r && isDue today (dueInstant r))%bool eqn:E.
    + apply andb_true_iff in E. destruct E as [Ha Hd].
      now rewrite (processEntry_due _ _ _ Ha Hd).
    + now rewrite (processEntry_skip _ _ _ E).
Qed.

Lemma forEachFrom_none_due (today : Instant) (newId : nat -> float) (l : list RecurringTemplate) :
  Spec.dueActive today l = [] ->
  forall k, forEachFrom today newId k l = (l, []).
Proof.
  induction l as [| r rest IH]; intros H k; simpl.
  - reflexivity.
  - simpl in H.
    destruct (isActive r && isDue today (dueInstant r))%bool eqn:E; [discriminate |].
    now rewrite (processEntry_skip _ _ _ E), (IH H).
Qed.

Lemma pass_snd (today : Instant) (newId : nat -> float) (l : list RecurringTemplate) :
  snd (processRecurringTransactions today newId l) = snd (forEachFrom today newId 0 l).
Proof. reflexivity. Qed.

(** [hasUpdates] only spares a [setState] that would store the same list. *)
Lemma pass_fst (today : Instant) (newId : nat -> float) (l : list RecurringTemplate) :
  fst (processRecurringTransactions today newId l) = map (afterPass today) l.
Proof.
  unfold processRecurringTransactions. cbv zeta. simpl fst.
  destruct (snd (forEachFrom today newId 0 l)) eqn:E.
  - assert (H : Spec.dueActive today l = []).
    { pose proof (forEachFrom_snd_ids today newId l 0) as Hids.
      rewrite E in Hids. simpl in Hids. symmetry in Hids.
      now apply map_eq_nil in Hids. }
    rewrite <- (forEachFrom_fst today newId l 0).
    now rewrite (forEachFrom_none_due _ _ _ H).
  - apply forEachFrom_fst.
Qed.

Lemma afterPass_due (today : Instant) (r : RecurringTemplate) :
  isActive r = true -> isDue today (dueInstant r) = true ->
  afterPass today r
  = withProcessed r (format today)
      (format (addMonths (dueInstant r) (periodAmount (frequency r)))).
Proof. intros Ha Hd. unfold afterPass. now rewrite processEntry_due. Qed.

Lemma afterPass_skip (today : Instant) (r : RecurringTemplate) :
  (isActive r && isDue today (dueInstant r))%bool = false -> afterPass today r = r.
Proof. intros H. unfold afterPass. now rewrite processEntry_skip. Qed.

Lemma addMonths_msOfDay (d : Instant) (q : Q) : msOfDay (addMonths d q) = msOfDay d.
Proof.
  unfold addMonths. cbv zeta. destruct (toInteger q =? 0); [reflexivity |].
  match goal with |- context [if ?c then _ else _] => destruct c end; reflexivity.
Qed.

Lemma dueInstant_midnight (r : RecurringTemplate) : msOfDay (dueInstant r) = 0.
Proof. unfold dueInstant. destruct (nextDue r); reflexivity. Qed.

Lemma parseISO_format (d : Instant) : msOfDay d = 0 -> parseISO (format d) = d.
Proof. destruct d as [s ms]. simpl. intros ->. reflexivity. Qed.

(** The calendar day [addMonths] returns does not depend on the time of
    day. *)
Lemma format_addMonths (d : Instant) (q : Q) :
  format (addMonths d q) = format (addMonths (parseISO (format d)) q).
Proof.
  unfold addMonths, format, parseISO. cbv zeta. simpl.
  destruct (toInteger q =? 0); [reflexivity |].
  match goal with |- context [if ?c then _ else _] => destruct c end; reflexivity.
Qed.

Lemma advance_calendar (frequency : string) (d : Instant) :
  Spec.calendarFrequency frequency = true ->
  format (addMonths d (periodAmount frequency))
  = Spec.advance frequency (format d).
Proof.
  unfold Spec.calendarFrequency. rewrite !orb_true_iff, !String.eqb_eq.
  intros [[-> | ->] | ->]; unfold Spec.advance, periodAmount; simpl String.eqb;
    cbv iota; apply format_addMonths.
Qed.

(** On a weekly template [addMonths] receives 0.25, which [toInteger] cuts
    to 0: the day is returned as it came. *)
Lemma weekly_not_advanced (d : Instant) : addMonths d (periodAmount "weekly") = d.
Proof. reflexivity. Qed.

Lemma NoDup_map_inj {A B : Type} (f : A -> B) (l : list A) (a b : A) :
  NoDup (map f l) -> In a l -> In b l -> f a = f b -> a = b.
Proof.
  induction l as [| x r IH]; simpl; intros Hnd Ha Hb Hf; [contradiction |].
  inversion Hnd as [| ? ? Hnot Hnd']; subst.
  destruct Ha as [-> | Ha], Hb as [-> | Hb].
  - reflexivity.
  - exfalso. apply Hnot. rewrite Hf. now apply in_map.
  - exfalso. apply Hnot. rewrite <- Hf. now apply in_map.
  - now apply IH.
Qed.

Lemma forEachFrom_emitted_origin (today : Instant) (newId : nat -> float)
    (l : list RecurringTemplate) (tx : Entry.Transaction) :
  forall k, In tx (snd (forEachFrom today newId k l)) ->
            exists r, In r l /\ isActive r = true
                      /\ isDue today (dueInstant r) = true
                      /\ Entry.recurringId tx = Some (id r).
Proof.
  induction l as [| r rest IH]; intros k H; simpl in H.
  - contradiction.
  - apply in_app_or in H. destruct H as [H | H].
    + destruct (isActive r && isDue today (dueInstant r))%bool eqn:E.
      * apply andb_true_iff in E. destruct E as [Ha Hd].
        rewrite (processEntry_due _ _ _ Ha Hd) in H. simpl in H.
        destruct H as [<- | []]. exists r. simpl. auto.
      * rewrite (processEntry_skip _ _ _ E) in H. contradiction.
    + destruct (IH _ H) as (r0 & Hin & Hrest). exists r0. simpl. auto.
Qed.

End SchedulerFacts.

(** ** Advancing [nextDue] *)

Section AdvanceClaims.
Import Recurring.

(** C1. A weekly template due on 2024-01-01 and processed by the pass on
    that day emits its transaction and is stamped as processed, but its
    [nextDue] stays 2024-01-01, where one weekly period later is
    2024-01-08. *)
Theorem weekly_pass_keeps_nextDue :
  let r := Sample.rent "weekly" true (Some (mkYmd 2024 1 1)) in
  let today := Sample.at10 (mkYmd 2024 1 1) in
  let p := processRecurringTransactions today Sample.ids [r] in
  isActive r = true
  /\ isDue today (dueInstant r) = true
  /\ map Entry.recurringId (snd p) = [Some (id r)]
  /\ map lastProcessed (fst p) = [Some (mkYmd 2024 1 1)]
  /\ map nextDue (fst p) = [Some (mkYmd 2024 1 1)]
  /\ Spec.advance (frequency r) (mkYmd 2024 1 1) = mkYmd 2024 1 8.
Proof. cbv zeta. repeat split. Qed.

(** The same on every weekly template the pass finds active and due. *)
Lemma weekly_pass_general (today : Instant) (r : RecurringTemplate) :
  isActive r = true -> isDue today (dueInstant r) = true ->
  frequency r = "weekly" ->
  nextDue (afterPass today r) = Some (format (dueInstant r)).
Proof.
  intros Ha Hd Hf. rewrite (afterPass_due _ _ Ha Hd), Hf. reflexivity.
Qed.

(** The pass on the frequencies counted in calendar months. *)
Lemma calendar_pass_advances (today : Instant) (r : RecurringTemplate) :
  isActive r = true -> isDue today (dueInstant r) = true ->
  Spec.calendarFrequency (frequency r) = true ->
  nextDue (afterPass today r)
  = Some (Spec.advance (frequency r) (format (dueInstant r)))
  /\ lastProcessed (afterPass today r) = Some (format today).
Proof.
  intros Ha Hd Hf. rewrite (afterPass_due _ _ Ha Hd). simpl.
  now rewrite (advance_calendar _ _ Hf).
Qed.

(** C4, counterexample. [processNow] on 2024-01-15 for a monthly template
    due since 2024-01-10 sets [nextDue] to 2024-02-15, one month after the
    evaluation day, and not to 2024-02-10, one month after the due day. *)
Lemma processNow_anchored_from_now :
  let r := Sample.rent "monthly" true (Some (mkYmd 2024 1 10)) in
  let now := Sample.at10 (mkYmd 2024 1 15) in
  isDue now (dueInstant r) = true
  /\ Spec.advance (frequency r) (format (dueInstant r)) = mkYmd 2024 2 10
  /\ map nextDue (fst (processNow now (Sample.ids 0) (id r) [r]))
     = [Some (mkYmd 2024 2 15)]
  /\ map nextDue (fst (processNow now (Sample.ids 0) (id r) [r]))
     <> [Some (Spec.advance (frequency r) (format (dueInstant r)))].
Proof. cbv zeta. repeat split. discriminate. Qed.

(** C4, amended. On a monthly, quarterly or yearly template, the scheduled
    pass sets [nextDue] of a due active template to its previous due day
    plus one period, whatever the evaluation time; [processNow] sets
    [nextDue] of the template it processes to the evaluation day plus one
    period. *)
Theorem nextDue_anchor (r : RecurringTemplate) (l : list RecurringTemplate)
    (i : nat) :
  Spec.calendarFrequency (frequency r) = true ->
  nth_error l i = Some r ->
  (forall today newId,
      isActive r = true -> isDue today (dueInstant r) = true ->
      exists r',
        nth_error (fst (processRecurringTransactions today newId l)) i = Some r'
        /\ nextDue r' = Some (Spec.advance (frequency r) (format (dueInstant r))))
  /\ (forall now newId,
         find (fun t => id t =? id r) l = Some r ->
         exists r',
           nth_error (fst (processNow now newId (id r) l)) i = Some r'
           /\ nextDue r' = Some (Spec.advance (frequency r) (format now))).
Proof.
  intros Hf Hnth. split.
  - intros today newId Ha Hd. exists (afterPass today r). split.
    + rewrite pass_fst, nth_error_map, Hnth. reflexivity.
    + now apply calendar_pass_advances.
  - intros now newId Hfind. unfold processNow. rewrite Hfind. simpl fst.
    rewrite nth_error_map, Hnth. simpl. rewrite Z.eqb_refl.
    eexists. split; [reflexivity |]. simpl.
    now rewrite (advance_calendar _ _ Hf).
Qed.

Lemma nextDue_anchor_witness :
  let r := Sample.rent "monthly" true (Some (mkYmd 2024 1 10)) in
  let l := [Sample.gym "weekly" true None; r] in
  let at15 := Sample.at10 (mkYmd 2024 1 15) in
  (exists r',
      nth_error (fst (processRecurringTransactions at15 Sample.ids l)) 1 = Some r'
      /\ nextDue r' = Some (mkYmd 2024 2 10))
  /\ (exists r',
         nth_error (fst (processNow at15 (Sample.ids 0) (id r) l)) 1 = Some r'
         /\ nextDue r' = Some (mkYmd 2024 2 15)).
Proof.
  cbv zeta.
  pose proof (nextDue_anchor
                (Sample.rent "monthly" true (Some (mkYmd 2024 1 10)))
                [Sample.gym "weekly" true None;
                 Sample.rent "monthly" true (Some (mkYmd 2024 1 10))]
                1 eq_refl eq_refl) as [Hpass Hnow].
  split.
  - exact (Hpass (Sample.at10 (mkYmd 2024 1 15)) Sample.ids eq_refl eq_refl).
  - exact (Hnow (Sample.at10 (mkYmd 2024 1 15)) (Sample.ids 0) eq_refl).
Defined.

End AdvanceClaims.

(** ** Running the pass twice *)

Section TwoPasses.
Import Recurring.

(** C5, counterexample. A monthly template due since 2024-01-01, evaluated
    twice on 2024-03-15: the first pass emits and moves [nextDue] to
    2024-02-01, which is due as well, so the second pass emits again: two
    transactions for the one due template. *)
Lemma two_passes_emit_twice :
  let l := [Sample.gym "monthly" true (Some (mkYmd 2024 1 1))] in
  let today := Sample.at10 (mkYmd 2024 3 15) in
  let p1 := processRecurringTransactions today Sample.ids l in
  let p2 := processRecurringTransactions today Sample.ids (fst p1) in
  List.length (Spec.dueActive today l) = 1%nat
  /\ map nextDue (fst p1) = [Some (mkYmd 2024 2 1)]
  /\ List.length (snd p1 ++ snd p2)%list = 2%nat.
Proof. cbv zeta. repeat split. Qed.

(** After a pass, a template whose new due day lies after the evaluation
    day is not due, and one the pass skipped is still skipped. *)
Lemma afterPass_settled (today : Instant) (r : RecurringTemplate) :
  (isActive r = true -> isDue today (dueInstant r) = true ->
   isDue today (addMonths (dueInstant r) (periodAmount (frequency r))) = false) ->
  (isActive (afterPass today r)
   && isDue today (dueInstant (afterPass today r)))%bool = false.
Proof.
  intros H.
  destruct (isActive r && isDue today (dueInstant r))%bool eqn:E.
  - apply andb_true_iff in E. destruct E as [Ha Hd].
    rewrite (afterPass_due _ _ Ha Hd).
    change (dueInstant (withProcessed r ?lp ?nd)) with (parseISO nd).
    rewrite parseISO_format.
    + rewrite (H Ha Hd). apply andb_false_r.
    + rewrite addMonths_msOfDay. apply dueInstant_midnight.
  - now rewrite (afterPass_skip _ _ E).
Qed.

End TwoPasses.

(** ** A store that rejects the write *)

Section StoreFailure.
Import Recurring.

(** C2, counterexample. The Entry Store rejects the write of the
    transaction emitted for a monthly template due on 2024-01-01: no entry
    is committed, yet the template leaves the pass with
    [lastProcessed = 2024-01-01] and [nextDue = 2024-02-01]. *)
Lemma rejected_write_still_advances :
  let st := App.mkState Sample.emptyTracker Sample.noFilter
              [Sample.gym "monthly" true (Some (mkYmd 2024 1 1))] in
  let st' := App.runPass Sample.rejecting (Sample.at10 (mkYmd 2024 1 1))
               Sample.ids st in
  ExpenseTracker.transactions (App.tracker st') = []
  /\ map lastProcessed (App.recurringTransactions st) = [None]
  /\ map nextDue (App.recurringTransactions st) = [Some (mkYmd 2024 1 1)]
  /\ map lastProcessed (App.recurringTransactions st') = [Some (mkYmd 2024 1 1)]
  /\ map nextDue (App.recurringTransactions st') = [Some (mkYmd 2024 2 1)]
  /\ App.recurringTransactions st' <> App.recurringTransactions st.
Proof. cbv zeta. repeat split. discriminate. Qed.

Lemma rejected_saves_keep_tracker (c : ExpenseTracker.Criteria)
    (api : ExpenseTracker.TransactionAPI)
    (editing : option Entry.Transaction) (emitted : list Entry.Transaction) :
  (forall tx, exists m,
      ExpenseTracker.createTransaction api tx = ExpenseTracker.Rejected m) ->
  (forall k tx, exists m,
      ExpenseTracker.updateTransaction api k tx = ExpenseTracker.Rejected m) ->
  forall s,
    fold_left (fun s tx => App.saveAndRender c api editing tx s) emitted s = s.
Proof.
  intros Hc Hu. induction emitted as [| tx rest IH]; intros s; simpl.
  - reflexivity.
  - replace (App.saveAndRender c api editing tx s) with s.
    + apply IH.
    + unfold App.saveAndRender, App.storesNewList,
        ExpenseTracker.handleSaveTransaction.
      destruct editing as [e |].
      * destruct (Hu (Entry.id e) tx) as [m ->]. reflexivity.
      * destruct (Hc tx) as [m ->]. reflexivity.
Qed.

End StoreFailure.

(** ** Paused templates *)

Section PausedTemplates.
Import Recurring.

Lemma processNowTargets_active (l : list RecurringTemplate) (i : Z) :
  In i (processNowTargets l) ->
  exists a, In a l /\ isActive a = true /\ id a = i.
Proof.
  unfold processNowTargets. intros H. apply in_app_or in H.
  assert (Hact : In i (map id (activeRecurring l))).
  { destruct H as [H | H]; [| exact H].
    apply in_map_iff in H. destruct H as (a & <- & Ha).
    apply in_map, upcoming_in_active, Ha. }
  apply in_map_iff in Hact. destruct Hact as (a & <- & Ha).
  unfold activeRecurring in Ha. apply filter_In in Ha.
  exists a. tauto.
Qed.

(** C3. A template with [isActive = false] is never emitted from. The
    scheduler pass skips it however overdue it is; [processNow] is reached
    only through the "Process Now" buttons, which the component renders on
    the rows of the upcoming and active lists; so, template ids being
    distinct, neither a pass nor any rendered "Process Now" button creates
    a transaction that refers to a paused template. *)
Theorem paused_template_not_emitted (l : list RecurringTemplate)
    (r : RecurringTemplate) :
  isActive r = false ->
  (forall today newId, processEntry today newId r = (r, None))
  /\ (NoDup (map id l) -> In r l ->
      (forall today newId tx,
          In tx (snd (processRecurringTransactions today newId l)) ->
          Entry.recurringId tx <> Some (id r))
      /\ (forall now newId i tx,
             In i (processNowTargets l) ->
             snd (processNow now newId i l) = Some tx ->
             Entry.recurringId tx <> Some (id r))).
Proof.
  intros Hoff. split.
  - intros today newId. unfold processEntry. now rewrite Hoff.
  - intros Hnd Hin.
    assert (Hclash : forall a, In a l -> isActive a = true -> id a <> id r).
    { intros a Ha Hon Hid.
      assert (a = r) by (eapply NoDup_map_inj; eauto).
      subst a. congruence. }
    split.
    + intros today newId tx Htx. rewrite pass_snd in Htx.
      destruct (forEachFrom_emitted_origin _ _ _ _ _ Htx)
        as (a & Ha & Hon & _ & Hid).
      rewrite Hid. intros Heq. injection Heq as Heq.
      exact (Hclash a Ha Hon Heq).
    + intros now newId i tx Hi Hemit.
      destruct (processNowTargets_active _ _ Hi) as (a & Ha & Hon & Hid).
      unfold processNow in Hemit.
      destruct (find (fun t => id t =? i) l) as [t0 |] eqn:Efind;
        [| discriminate].
      apply find_some in Efind. destruct Efind as [_ Ht0].
      apply Z.eqb_eq in Ht0. simpl in Hemit. injection Hemit as <-.
      simpl. intros Heq. injection Heq as Heq.
      apply (Hclash a Ha Hon). congruence.
Qed.

Lemma paused_template_not_emitted_witness :
  let paused := Sample.rent "monthly" false (Some (mkYmd 2023 1 1)) in
  let l := [paused; Sample.gym "monthly" true (Some (mkYmd 2024 1 1))] in
  processEntry (Sample.at10 (mkYmd 2024 1 15)) (Sample.ids 0) paused
  = (paused, None)
  /\ (forall tx,
         In tx (snd (processRecurringTransactions
                       (Sample.at10 (mkYmd 2024 1 15)) Sample.ids l)) ->
         Entry.recurringId tx <> Some (id paused)).
Proof.
  cbv zeta.
  pose proof (paused_template_not_emitted
                [Sample.rent "monthly" false (Some (mkYmd 2023 1 1));
                 Sample.gym "monthly" true (Some (mkYmd 2024 1 1))]
                (Sample.rent "monthly" false (Some (mkYmd 2023 1 1)))
                eq_refl) as [Hskip Hrest].
  split.
  - apply Hskip.
  - assert (Hnd : NoDup [1700000000000; 1700000000001]).
    { constructor.
      - intros [H | []]. discriminate H.
      - constructor; [intros [] | constructor]. }
    destruct (Hrest Hnd (or_introl eq_refl)) as [Hpass _].
    intros tx. apply Hpass.
Defined.

End PausedTemplates.

(** ** The calendar: day numbers follow the order of the dates *)

Ltac month_cases m :=
  let H := fresh in
  assert (H : m = 1 \/ m = 2 \/ m = 3 \/ m = 4 \/ m = 5 \/ m = 6 \/ m = 7
              \/ m = 8 \/ m = 9 \/ m = 10 \/ m = 11 \/ m = 12) by lia;
  repeat (destruct H as [H | H]).

Ltac decide_test t :=
  let v := eval vm_compute in t in
  match v with
  | true => change t with true in *
  | false => change t with false in *
  end.

Ltac calendar_consts :=
  cbv [daysInMonth Calendar.shiftedYear Calendar.dayOfShiftedYear
       year month dayOfMonth] in *;
  repeat match goal with
         | |- context [Z.leb ?a ?b] => decide_test (Z.leb a b)
         | |- context [Z.eqb ?a ?b] => decide_test (Z.eqb a b)
         | H : context [Z.leb ?a ?b] |- _ => decide_test (Z.leb a b)
         | H : context [Z.eqb ?a ?b] |- _ => decide_test (Z.eqb a b)
         end;
  cbv [orb] in *; cbv iota in *.

Ltac split_leap :=
  repeat match goal with
         | H : context [isLeapYear ?x] |- _ => destruct (isLeapYear x)
         end.

Section CalendarFacts.
Import Calendar.

Lemma marchFirst_step (y : Z) :
  marchFirst (y + 1) - marchFirst y = if isLeapYear (y + 1) then 366 else 365.
Proof.
  unfold marchFirst, isLeapYear.
  destruct ((y + 1) mod 4 =? 0) eqn:E4;
    destruct ((y + 1) mod 100 =? 0) eqn:E100;
    destruct ((y + 1) mod 400 =? 0) eqn:E400; simpl;
    rewrite ?Z.eqb_eq, ?Z.eqb_neq in *; Z.div_mod_to_equations; lia.
Qed.

Lemma marchFirst_mono (y1 y2 : Z) : y1 <= y2 -> marchFirst y1 <= marchFirst y2.
Proof. unfold marchFirst. intros H. Z.div_mod_to_equations. lia. Qed.

Lemma daysFromCivil_split (d : ymd) :
  daysFromCivil d = marchFirst (shiftedYear d) + dayOfShiftedYear d - 719468.
Proof. unfold daysFromCivil, marchFirst, shiftedYear, dayOfShiftedYear. lia. Qed.

Lemma validDate_spec (d : ymd) :
  validDate d = true <->
  1 <= month d <= 12 /\ 1 <= dayOfMonth d <= daysInMonth (year d) (month d).
Proof. unfold validDate. rewrite !andb_true_iff, !Z.leb_le. lia. Qed.

Lemma ymd_ltb_spec (a b : ymd) :
  ymd_ltb a b = true <->
  year a < year b
  \/ (year a = year b
      /\ (month a < month b
          \/ (month a = month b /\ dayOfMonth a < dayOfMonth b))).
Proof.
  unfold ymd_ltb.
  destruct (Z.ltb_spec (year a) (year b)), (Z.eqb_spec (year a) (year b)),
    (Z.ltb_spec (month a) (month b)), (Z.eqb_spec (month a) (month b)),
    (Z.ltb_spec (dayOfMonth a) (dayOfMonth b)); simpl;
    split; intros; try discriminate; try reflexivity; lia.
Qed.

Lemma ymd_trichotomy (a b : ymd) :
  ymd_ltb a b = true \/ a = b \/ ymd_ltb b a = true.
Proof.
  rewrite !ymd_ltb_spec. destruct a as [ya ma da], b as [yb mb db]. simpl.
  destruct (Z.lt_trichotomy ya yb) as [H | [H | H]]; [lia | | lia].
  destruct (Z.lt_trichotomy ma mb) as [H' | [H' | H']]; [lia | | lia].
  destruct (Z.lt_trichotomy da db) as [H'' | [H'' | H'']]; [lia | | lia].
  right. left. congruence.
Qed.

Lemma ymd_ltb_asym (a b : ymd) :
  ymd_ltb a b = true -> ymd_ltb b a = false.
Proof.
  intros H. destruct (ymd_ltb b a) eqn:E; [| reflexivity].
  apply ymd_ltb_spec in H, E. lia.
Qed.

Lemma ymd_ltb_irrefl (a : ymd) : ymd_ltb a a = false.
Proof.
  destruct (ymd_ltb a a) eqn:E; [| reflexivity]. apply ymd_ltb_spec in E. lia.
Qed.

Lemma ymd_eqb_refl (a : ymd) : ymd_eqb a a = true.
Proof. now apply ymd_eqb_eq. Qed.

Lemma dayOfShiftedYear_bound (d : ymd) :
  validDate d = true ->
  0 <= dayOfShiftedYear d
  /\ marchFirst (shiftedYear d) + dayOfShiftedYear d < marchFirst (shiftedYear d + 1).
Proof.
  intros Hv. apply validDate_spec in Hv. destruct Hv as [Hm Hd].
  pose proof (marchFirst_step (shiftedYear d)) as Hstep.
  destruct d as [y m dd].
  cbv [year month dayOfMonth] in Hm, Hd.
  month_cases m; subst m; calendar_consts;
    try replace (y - 1 + 1) with y in * by lia;
    split_leap; Z.div_mod_to_equations; lia.
Qed.

Lemma shifted_order (a b : ymd) :
  validDate a = true -> validDate b = true -> ymd_ltb a b = true ->
  shiftedYear a < shiftedYear b
  \/ (shiftedYear a = shiftedYear b /\ dayOfShiftedYear a < dayOfShiftedYear b).
Proof.
  intros Ha Hb Hlt. apply validDate_spec in Ha, Hb.
  destruct Ha as [Hma Hda], Hb as [Hmb Hdb].
  apply ymd_ltb_spec in Hlt.
  destruct a as [ya ma da], b as [yb mb db].
  cbv [year month dayOfMonth] in Hma, Hda, Hmb, Hdb, Hlt.
  month_cases ma; subst ma; month_cases mb; subst mb; calendar_consts;
    split_leap; Z.div_mod_to_equations; lia.
Qed.

(** An earlier date has a smaller day number. *)
Lemma daysFromCivil_lt (a b : ymd) :
  validDate a = true -> validDate b = true -> ymd_ltb a b = true ->
  daysFromCivil a < daysFromCivil b.
Proof.
  intros Ha Hb Hlt. rewrite !daysFromCivil_split.
  destruct (dayOfShiftedYear_bound a Ha) as [Ha0 Ha1].
  destruct (dayOfShiftedYear_bound b Hb) as [Hb0 Hb1].
  destruct (shifted_order a b Ha Hb Hlt) as [Hy | [Hy Hd]].
  - pose proof (marchFirst_mono (shiftedYear a + 1) (shiftedYear b)). lia.
  - rewrite Hy. lia.
Qed.

Lemma daysFromCivil_lt_iff (a b : ymd) :
  validDate a = true -> validDate b = true ->
  (daysFromCivil a < daysFromCivil b <-> ymd_ltb a b = true).
Proof.
  intros Ha Hb. split; [| now apply daysFromCivil_lt].
  intros H. destruct (ymd_trichotomy a b) as [Hlt | [-> | Hgt]].
  - exact Hlt.
  - lia.
  - pose proof (daysFromCivil_lt b a Hb Ha Hgt). lia.
Qed.

Lemma daysFromCivil_inj (a b : ymd) :
  validDate a = true -> validDate b = true ->
  daysFromCivil a = daysFromCivil b -> a = b.
Proof.
  intros Ha Hb H. destruct (ymd_trichotomy a b) as [Hlt | [-> | Hgt]].
  - pose proof (daysFromCivil_lt a b Ha Hb Hlt). lia.
  - reflexivity.
  - pose proof (daysFromCivil_lt b a Hb Ha Hgt). lia.
Qed.

Lemma daysFromCivil_le_iff (a b : ymd) :
  validDate a = true -> validDate b = true ->
  (daysFromCivil a <= daysFromCivil b <-> ymd_leb a b = true).
Proof.
  intros Ha Hb. unfold ymd_leb. rewrite orb_true_iff, ymd_eqb_eq.
  rewrite <- (daysFromCivil_lt_iff a b Ha Hb). split.
  - intros H. destruct (Z.eq_dec (daysFromCivil a) (daysFromCivil b)) as [E | E].
    + right. now apply daysFromCivil_inj.
    + left. lia.
  - intros [H | ->]; lia.
Qed.

(** The day number of the date a day number stands for is that number. *)
Lemma daysFromCivil_civilFromDays (n : Z) : daysFromCivil (civilFromDays n) = n.
Proof.
  unfold daysFromCivil, civilFromDays. cbv zeta. cbv [year month dayOfMonth].
  set (z := n + 719468).
  set (era := z / 146097).
  set (doe := z - era * 146097).
  set (yoe := (doe - doe / 1460 + doe / 36524 - doe / 146096) / 365).
  set (doy := doe - (365 * yoe + yoe / 4 - yoe / 100)).
  set (mp := (5 * doy + 2) / 153).
  assert (Hdoe : 0 <= doe < 146097) by (subst doe era; Z.div_mod_to_equations; lia).
  assert (Hyoe : 0 <= yoe < 400) by (subst yoe; Z.div_mod_to_equations; lia).
  assert (Hdoy : 0 <= doy <= 365) by (subst doy yoe; Z.div_mod_to_equations; lia).
  assert (Hmp : 0 <= mp <= 11) by (subst mp; Z.div_mod_to_equations; lia).
  destruct (mp <? 10) eqn:Emp.
  - apply Z.ltb_lt in Emp.
    replace (mp + 3 <=? 2) with false by (symmetry; apply Z.leb_gt; lia).
    replace ((mp + 3 + 9) mod 12) with mp by (Z.div_mod_to_equations; lia).
    replace ((yoe + era * 400) / 400) with era by (Z.div_mod_to_equations; lia).
    replace (yoe + era * 400 - era * 400) with yoe by lia.
    subst doy doe z. lia.
  - apply Z.ltb_ge in Emp.
    replace (mp - 9 <=? 2) with true by (symmetry; apply Z.leb_le; lia).
    replace ((mp - 9 + 9) mod 12) with mp by (Z.div_mod_to_equations; lia).
    replace (yoe + era * 400 + 1 - 1) with (yoe + era * 400) by lia.
    replace ((yoe + era * 400) / 400) with era by (Z.div_mod_to_equations; lia).
    replace (yoe + era * 400 - era * 400) with yoe by lia.
    subst doy doe z. lia.
Qed.

Lemma daysInMonth_bounds (y m : Z) : 28 <= daysInMonth y m <= 31.
Proof.
  unfold daysInMonth.
  destruct (m =? 2); [destruct (isLeapYear y); lia |].
  destruct ((m =? 4) || (m =? 6) || (m =? 9) || (m =? 11))%bool; lia.
Qed.

Lemma wellFormed_spec (i : Instant) :
  wellFormed i = true <->
  validDate (date i) = true /\ 0 <= msOfDay i < msPerDay.
Proof.
  unfold wellFormed. rewrite !andb_true_iff, Z.leb_le, Z.ltb_lt. tauto.
Qed.

End CalendarFacts.

(** ** [addMonths] on whole months *)

Section AddMonthsFacts.
Import Calendar.

(** The day [addMonths] reaches with a whole, non-zero number of months. *)
Lemma addMonths_date (d : Instant) (q : Q) :
  toInteger q <> 0 ->
  date (addMonths d q)
  = let total := year (date d) * 12 + (month (date d) - 1) + toInteger q in
    mkYmd (total / 12) (total mod 12 + 1)
          (Z.min (dayOfMonth (date d)) (daysInMonth (total / 12) (total mod 12 + 1))).
Proof.
  intros Hk. destruct d as [[y m dd] ms].
  unfold addMonths, lastDayBeforeMonthIndex. cbv zeta.
  apply Z.eqb_neq in Hk. rewrite Hk.
  cbv [date year month dayOfMonth msOfDay].
  replace (y * 12 + (m - 1 + toInteger q + 1 - 1))
    with (y * 12 + (m - 1) + toInteger q) by lia.
  set (total := y * 12 + (m - 1) + toInteger q).
  destruct (Z.leb_spec (daysInMonth (total / 12) (total mod 12 + 1)) dd).
  - rewrite Z.min_r by lia. reflexivity.
  - rewrite Z.min_l by lia. reflexivity.
Qed.

(** Adding a positive number of whole months to a day that exists gives a
    later day that exists. *)
Lemma addMonths_later (d : Instant) (q : Q) :
  validDate (date d) = true -> 0 < toInteger q ->
  validDate (date (addMonths d q)) = true
  /\ ymd_ltb (date d) (date (addMonths d q)) = true.
Proof.
  intros Hv Hk. rewrite addMonths_date by lia. cbv zeta.
  apply validDate_spec in Hv. destruct Hv as [Hm Hd].
  set (total := year (date d) * 12 + (month (date d) - 1) + toInteger q).
  pose proof (daysInMonth_bounds (total / 12) (total mod 12 + 1)) as Hb.
  split.
  - apply validDate_spec. simpl. split.
    + Z.div_mod_to_equations. lia.
    + lia.
  - apply ymd_ltb_spec. simpl. subst total. Z.div_mod_to_equations. lia.
Qed.

Lemma toInteger_calendar (frequency : string) :
  Spec.calendarFrequency frequency = true ->
  0 < toInteger (Recurring.periodAmount frequency).
Proof.
  unfold Spec.calendarFrequency. rewrite !orb_true_iff, !String.eqb_eq.
  intros [[-> | ->] | ->]; reflexivity.
Qed.

End AddMonthsFacts.

(** ** When a template is due *)

Section DueFacts.
Import Calendar Recurring.

Lemma isDue_calendar (today due : Instant) :
  wellFormed today = true -> validDate (date due) = true -> msOfDay due = 0 ->
  isDue today due = ymd_leb (date due) (date today).
Proof.
  intros Ht Hd Hms. apply wellFormed_spec in Ht. destruct Ht as [Hvt Hmst].
  unfold isDue, isAfter, getTime, format. rewrite Hms.
  destruct (ymd_leb (date due) (date today)) eqn:E.
  - apply (daysFromCivil_le_iff _ _ Hd Hvt) in E.
    destruct (Z.eq_dec (daysFromCivil (date due)) (daysFromCivil (date today)))
      as [Heq | Hne].
    + apply (daysFromCivil_inj _ _ Hd Hvt) in Heq. rewrite Heq.
      rewrite ymd_eqb_refl. apply orb_true_r.
    + apply orb_true_iff. left. apply Z.ltb_lt. unfold msPerDay in *. lia.
  - assert (Hgt : daysFromCivil (date today) < daysFromCivil (date due)).
    { destruct (Z.lt_ge_cases (daysFromCivil (date today)) (daysFromCivil (date due)))
        as [H | H]; [exact H |].
      apply (daysFromCivil_le_iff _ _ Hd Hvt) in H. congruence. }
    apply orb_false_iff. split.
    + apply Z.ltb_ge. unfold msPerDay in *. lia.
    + destruct (ymd_eqb (date today) (date due)) eqn:E'; [| reflexivity].
      apply ymd_eqb_eq in E'. rewrite E' in Hgt. lia.
Qed.

(** X1. Whether the pass finds a template due depends on calendar days
    only: with a due day that exists and an evaluation instant within a day
    that exists, the template is due exactly when its due day is today or
    earlier, at whatever time of the day the pass runs. *)
Theorem due_iff_due_day_reached (today : Instant) (r : RecurringTemplate) :
  wellFormed today = true ->
  validDate (format (dueInstant r)) = true ->
  isDue today (dueInstant r)
  = ymd_leb (format (dueInstant r)) (format today).
Proof.
  intros Ht Hd. apply isDue_calendar; auto. apply dueInstant_midnight.
Qed.

Lemma due_iff_due_day_reached_witness :
  isDue (Sample.at10 (mkYmd 2024 3 1))
        (dueInstant (Sample.rent "monthly" true (Some (mkYmd 2024 2 29))))
  = true.
Proof.
  rewrite (due_iff_due_day_reached (Sample.at10 (mkYmd 2024 3 1))
             (Sample.rent "monthly" true (Some (mkYmd 2024 2 29)))
             eq_refl eq_refl).
  reflexivity.
Defined.

End DueFacts.

(** ** What a pass changes and what it emits *)

Section PassFacts.
Import Calendar Recurring.

Lemma afterPass_sameButProcessed (today : Instant) (t : RecurringTemplate) :
  Props.sameButProcessed t (afterPass today t).
Proof.
  destruct (isActive t && isDue today (dueInstant t))%bool eqn:E.
  - apply andb_true_iff in E. destruct E as [Ha Hd].
    rewrite (afterPass_due _ _ Ha Hd). repeat split.
  - rewrite (afterPass_skip _ _ E). repeat split.
Qed.

(** X2. A pass keeps the number and the order of the templates and writes
    to [lastProcessed] and [nextDue] only: every other field of every
    template is as before, a paused or not yet due template is left as it
    is, and a template the pass emits for is stamped with the evaluation
    day. *)
Theorem pass_writes_only_processed_fields (today : Instant)
    (newId : nat -> float) (l : list RecurringTemplate) :
  Forall2 (fun t t' =>
             Props.sameButProcessed t t'
             /\ ((isActive t && isDue today (dueInstant t))%bool = false -> t' = t)
             /\ ((isActive t && isDue today (dueInstant t))%bool = true ->
                 lastProcessed t' = Some (format today)))
          l (fst (processRecurringTransactions today newId l)).
Proof.
  rewrite pass_fst. induction l as [| t r IH]; simpl; constructor; [| exact IH].
  split; [apply afterPass_sameButProcessed |]. split.
  - apply afterPass_skip.
  - intros E. apply andb_true_iff in E. destruct E as [Ha Hd].
    now rewrite (afterPass_due _ _ Ha Hd).
Qed.

(** X3. A pass calls [onAddTransaction] once for each active template that
    is due, in the order of the collection, and for no other: the
    transaction copies type and category, carries the amount as
    [parseFloat] reads it (the amount of the template, a negative zero read
    as zero), is described as the template with " (Auto)" appended, is
    dated with the evaluation day and refers back to the template. *)
Theorem pass_emits_one_per_due_template (today : Instant)
    (newId : nat -> float) (l : list RecurringTemplate) :
  Forall2 (Props.emittedFrom " (Auto)" today)
          (Spec.dueActive today l)
          (snd (processRecurringTransactions today newId l)).
Proof.
  rewrite pass_snd. generalize 0%nat as k.
  induction l as [| r rest IH]; intros k; simpl.
  - constructor.
  - destruct (isActive r && isDue today (dueInstant r))%bool eqn:E.
    + apply andb_true_iff in E. destruct E as [Ha Hd].
      rewrite (processEntry_due _ _ _ Ha Hd). simpl. constructor.
      * repeat split.
      * apply IH.
    + rewrite (processEntry_skip _ _ _ E). simpl. apply IH.
Qed.

(** X4. For a monthly, quarterly or yearly template with a due day that
    exists, a pass that emits moves [nextDue] to a day that exists and is
    strictly later than the previous due day. *)
Theorem pass_moves_nextDue_forward (today : Instant) (newId : nat -> float)
    (l : list RecurringTemplate) (i : nat) (r : RecurringTemplate) :
  nth_error l i = Some r ->
  isActive r = true ->
  isDue today (dueInstant r) = true ->
  Spec.calendarFrequency (frequency r) = true ->
  validDate (format (dueInstant r)) = true ->
  exists r' nd,
    nth_error (fst (processRecurringTransactions today newId l)) i = Some r'
    /\ nextDue r' = Some nd
    /\ validDate nd = true
    /\ ymd_ltb (format (dueInstant r)) nd = true.
Proof.
  intros Hnth Ha Hd Hf Hv.
  destruct (addMonths_later (dueInstant r) (periodAmount (frequency r)) Hv
              (toInteger_calendar _ Hf)) as [Hv' Hlt].
  exists (afterPass today r),
         (format (addMonths (dueInstant r) (periodAmount (frequency r)))).
  rewrite pass_fst, nth_error_map, Hnth. split; [reflexivity |].
  rewrite (afterPass_due _ _ Ha Hd). auto.
Qed.

Lemma pass_moves_nextDue_forward_witness :
  exists r' nd,
    nth_error (fst (processRecurringTransactions (Sample.at10 (mkYmd 2024 3 15))
                      Sample.ids
                      [Sample.rent "monthly" true (Some (mkYmd 2024 1 31))])) 0
    = Some r'
    /\ nextDue r' = Some nd
    /\ validDate nd = true
    /\ ymd_ltb (mkYmd 2024 1 31) nd = true.
Proof.
  exact (pass_moves_nextDue_forward (Sample.at10 (mkYmd 2024 3 15)) Sample.ids
           [Sample.rent "monthly" true (Some (mkYmd 2024 1 31))] 0
           (Sample.rent "monthly" true (Some (mkYmd 2024 1 31)))
           eq_refl eq_refl eq_refl eq_refl eq_refl).
Defined.

Lemma ymd_leb_antisym (a b : ymd) :
  ymd_leb a b = true -> ymd_leb b a = true -> a = b.
Proof.
  unfold ymd_leb. rewrite !orb_true_iff, !ymd_eqb_eq.
  intros [H1 | H1] [H2 | H2]; auto.
  apply ymd_ltb_asym in H1. congruence.
Qed.

Lemma due_is_today (today : Instant) (r : RecurringTemplate) :
  wellFormed today = true ->
  validDate (format (dueInstant r)) = true ->
  isDue today (dueInstant r) = true ->
  ymd_leb (format today) (format (dueInstant r)) = true ->
  date (dueInstant r) = date today.
Proof.
  intros Ht Hv Hd Hle. rewrite isDue_calendar in Hd; auto.
  - now apply ymd_leb_antisym.
  - apply dueInstant_midnight.
Qed.

(** X5. When every active template is monthly, quarterly or yearly and has
    a due day that exists and is not in the past, a second pass at the same
    instant emits nothing and leaves the templates as the first pass left
    them. *)
Theorem pass_idempotent_when_up_to_date (today : Instant)
    (newId newId' : nat -> float) (l : list RecurringTemplate) :
  wellFormed today = true ->
  (forall r, In r l -> isActive r = true ->
             Spec.calendarFrequency (frequency r) = true
             /\ validDate (format (dueInstant r)) = true
             /\ ymd_leb (format today) (format (dueInstant r)) = true) ->
  let p1 := processRecurringTransactions today newId l in
  processRecurringTransactions today newId' (fst p1) = (fst p1, []).
Proof.
  intros Ht H. cbv zeta. rewrite pass_fst.
  assert (Hnone : Spec.dueActive today (map (afterPass today) l) = []).
  { induction l as [| r rest IH]; simpl; [reflexivity |].
    rewrite afterPass_settled.
    - apply IH. intros r0 Hin. apply H. now right.
    - intros Ha Hd. destruct (H r (or_introl eq_refl) Ha) as (Hf & Hv & Hle).
      destruct (addMonths_later (dueInstant r) (periodAmount (frequency r)) Hv
                  (toInteger_calendar _ Hf)) as [Hv' Hlt].
      rewrite isDue_calendar; auto.
      + rewrite (due_is_today today r Ht Hv Hd Hle) in Hlt.
        unfold ymd_leb. rewrite (ymd_ltb_asym _ _ Hlt). simpl.
        destruct (ymd_eqb _ _) eqn:E; [| reflexivity].
        apply ymd_eqb_eq in E. unfold format in *. rewrite E in Hlt.
        now rewrite ymd_ltb_irrefl in Hlt.
      + rewrite addMonths_msOfDay. apply dueInstant_midnight. }
  unfold processRecurringTransactions. cbv zeta.
  now rewrite (forEachFrom_none_due _ _ _ Hnone).
Qed.

End PassFacts.

Section PassFactsMore.
Import Calendar Recurring.

Lemma pass_idempotent_when_up_to_date_witness :
  let l := [Sample.gym "monthly" true (Some (mkYmd 2024 1 20));
            Sample.rent "weekly" false (Some (mkYmd 2023 6 1))] in
  let today := Sample.at10 (mkYmd 2024 1 20) in
  let p1 := processRecurringTransactions today Sample.ids l in
  processRecurringTransactions today Sample.ids (fst p1) = (fst p1, []).
Proof.
  cbv zeta.
  apply (pass_idempotent_when_up_to_date (Sample.at10 (mkYmd 2024 1 20))
           Sample.ids Sample.ids
           [Sample.gym "monthly" true (Some (mkYmd 2024 1 20));
            Sample.rent "weekly" false (Some (mkYmd 2023 6 1))] eq_refl).
  intros r [<- | [<- | []]] Ha.
  - repeat split.
  - discriminate Ha.
Defined.

Lemma rerun_map (n : nat) (today : Instant) (newId : nat -> float) :
  forall l, Props.rerun (S n) today newId l
            = map (afterPass today) (Props.rerun n today newId l).
Proof.
  induction n as [| n IH]; intros l.
  - simpl. apply pass_fst.
  - change (Props.rerun (S (S n)) today newId l)
      with (Props.rerun (S n) today newId
              (fst (processRecurringTransactions today newId l))).
    rewrite IH. reflexivity.
Qed.

Lemma weekly_afterPass (today : Instant) (r : RecurringTemplate) :
  isActive r = true -> isDue today (dueInstant r) = true ->
  frequency r = "weekly" ->
  isActive (afterPass today r) = true
  /\ isDue today (dueInstant (afterPass today r)) = true
  /\ frequency (afterPass today r) = "weekly"
  /\ id (afterPass today r) = id r.
Proof.
  intros Ha Hd Hf. rewrite (afterPass_due _ _ Ha Hd), Hf.
  change (addMonths (dueInstant r) (periodAmount "weekly")) with (dueInstant r).
  change (dueInstant (withProcessed r ?lp ?nd)) with (parseISO nd).
  rewrite parseISO_format by apply dueInstant_midnight.
  repeat split; assumption.
Qed.

(** X6. A weekly template that is active and due never settles: however
    often the pass is run again at the same instant, each further run emits
    one more transaction for it. *)
Theorem weekly_template_emits_on_every_rerun (today : Instant)
    (newId : nat -> float) (l : list RecurringTemplate) (i : nat)
    (r : RecurringTemplate) (n : nat) :
  nth_error l i = Some r ->
  isActive r = true ->
  isDue today (dueInstant r) = true ->
  frequency r = "weekly" ->
  In (Some (id r))
     (map Entry.recurringId
          (snd (processRecurringTransactions today newId
                  (Props.rerun n today newId l)))).
Proof.
  intros Hnth Ha Hd Hf.
  assert (Hinv : exists r', nth_error (Props.rerun n today newId l) i = Some r'
                            /\ isActive r' = true
                            /\ isDue today (dueInstant r') = true
                            /\ frequency r' = "weekly"
                            /\ id r' = id r).
  { induction n as [| n IH].
    - exists r. simpl. auto.
    - destruct IH as (r' & Hn' & Ha' & Hd' & Hf' & Hid').
      exists (afterPass today r'). rewrite rerun_map, nth_error_map, Hn'.
      destruct (weekly_afterPass today r' Ha' Hd' Hf') as (H1 & H2 & H3 & H4).
      repeat split; auto. congruence. }
  destruct Hinv as (r' & Hn' & Ha' & Hd' & _ & Hid').
  rewrite pass_snd, forEachFrom_snd_ids, <- Hid'.
  apply (in_map (fun x => Some (id x))). unfold Spec.dueActive.
  apply filter_In. split.
  - eapply nth_error_In. exact Hn'.
  - now rewrite Ha', Hd'.
Qed.

Lemma weekly_template_emits_on_every_rerun_witness :
  In (Some 1700000000000)
     (map Entry.recurringId
          (snd (processRecurringTransactions (Sample.at10 (mkYmd 2024 1 3))
                  Sample.ids
                  (Props.rerun 3 (Sample.at10 (mkYmd 2024 1 3)) Sample.ids
                     [Sample.rent "weekly" true (Some (mkYmd 2024 1 1))])))).
Proof.
  exact (weekly_template_emits_on_every_rerun (Sample.at10 (mkYmd 2024 1 3))
           Sample.ids [Sample.rent "weekly" true (Some (mkYmd 2024 1 1))] 0
           (Sample.rent "weekly" true (Some (mkYmd 2024 1 1))) 3
           eq_refl eq_refl eq_refl eq_refl).
Defined.

End PassFactsMore.

(** ** [processNow] *)

Section ProcessNowFacts.
Import Calendar Recurring.

Lemma find_none_iff (i : Z) (l : list RecurringTemplate) :
  find (fun t => id t =? i) l = None <-> (forall t, In t l -> id t <> i).
Proof.
  split.
  - intros H t Hin Hid.
    apply (find_none _ _ H) in Hin. simpl in Hin.
    apply Z.eqb_neq in Hin. contradiction.
  - intros H. destruct (find (fun t => id t =? i) l) as [t |] eqn:E;
      [| reflexivity].
    apply find_some in E. destruct E as [Hin Hid].
    apply Z.eqb_eq in Hid. exfalso. exact (H t Hin Hid).
Qed.

(** X7. [processNow] keeps the number and the order of the templates and
    writes to [lastProcessed] and [nextDue] only, and only on the templates
    with the given id, which it stamps with the evaluation day; when it
    finds a template it emits one transaction built from the first one with
    that id, with the amount as [parseFloat] reads it (a negative zero read
    as zero), described with " (Manual)" appended and dated with the
    evaluation day, whether the template is due or not. *)
Theorem processNow_writes_only_processed_fields (now : Instant)
    (newId : float) (i : Z) (l : list RecurringTemplate) :
  Forall2 (fun t t' =>
             Props.sameButProcessed t t'
             /\ (id t <> i -> t' = t)
             /\ (id t = i -> lastProcessed t' = Some (format now)))
          l (fst (processNow now newId i l))
  /\ match find (fun t => id t =? i) l with
     | Some r => exists tx, snd (processNow now newId i l) = Some tx
                            /\ Props.emittedFrom " (Manual)" now r tx
     | None => snd (processNow now newId i l) = None
     end.
Proof.
  unfold processNow.
  destruct (find (fun t => id t =? i) l) as [r |] eqn:Efind; simpl.
  - split.
    + clear Efind. induction l as [| t rest IH]; simpl; constructor; [| exact IH].
      destruct (Z.eqb_spec (id t) i) as [E | E].
      * repeat split; try reflexivity. intros Hne. contradiction.
      * repeat split; try reflexivity. intros He. contradiction.
    + eexists. split; [reflexivity |]. repeat split.
  - split; [| reflexivity].
    pose proof (proj1 (find_none_iff i l) Efind) as Hnone. clear Efind.
    induction l as [| t rest IH]; constructor.
    + repeat split; try reflexivity. intros He. exfalso.
      apply (Hnone t (or_introl eq_refl) He).
    + apply IH. intros t0 Hin. apply Hnone. now right.
Qed.

(** X8. After [processNow] has run for a monthly, quarterly or yearly
    template, a scheduler pass at the same instant emits nothing for that
    id: the manual run has moved [nextDue] past the evaluation day. *)
Theorem pass_quiet_after_processNow (now : Instant) (newId : float)
    (newId' : nat -> float) (i : Z) (l : list RecurringTemplate)
    (r : RecurringTemplate) :
  wellFormed now = true ->
  find (fun t => id t =? i) l = Some r ->
  Spec.calendarFrequency (frequency r) = true ->
  forall tx,
    In tx (snd (processRecurringTransactions now newId'
                  (fst (processNow now newId i l)))) ->
    Entry.recurringId tx <> Some i.
Proof.
  intros Hwf Hfind Hf tx Htx Hid.
  rewrite pass_snd in Htx.
  destruct (forEachFrom_emitted_origin _ _ _ _ _ Htx)
    as (r0 & Hin & Ha & Hd & Hid0).
  assert (Hi : id r0 = i) by congruence.
  unfold processNow in Hin. rewrite Hfind in Hin. simpl in Hin.
  apply in_map_iff in Hin. destruct Hin as (t & Ht & _).
  destruct (Z.eqb_spec (id t) i) as [E | E].
  - subst r0.
    change (dueInstant (withProcessed t ?lp ?nd)) with (parseISO nd) in Hd.
    apply wellFormed_spec in Hwf as Hwf'. destruct Hwf' as [Hv _].
    destruct (addMonths_later now (periodAmount (frequency r)) Hv
                (toInteger_calendar _ Hf)) as [Hv' Hlt].
    rewrite isDue_calendar in Hd; auto.
    unfold parseISO, format in Hd. simpl in Hd.
    unfold ymd_leb in Hd. rewrite (ymd_ltb_asym _ _ Hlt) in Hd. simpl in Hd.
    apply ymd_eqb_eq in Hd. rewrite Hd in Hlt.
    now rewrite ymd_ltb_irrefl in Hlt.
  - subst r0. contradiction.
Qed.

Lemma pass_quiet_after_processNow_witness :
  wellFormed (Sample.at10 (mkYmd 2024 1 15)) = true
  /\ (forall tx,
         In tx (snd (processRecurringTransactions (Sample.at10 (mkYmd 2024 1 15))
                       Sample.ids
                       (fst (processNow (Sample.at10 (mkYmd 2024 1 15))
                               (Sample.ids 0) 1700000000000
                               [Sample.rent "monthly" true (Some (mkYmd 2023 11 1))])))) ->
         Entry.recurringId tx <> Some 1700000000000).
Proof.
  split; [reflexivity |].
  exact (pass_quiet_after_processNow (Sample.at10 (mkYmd 2024 1 15))
           (Sample.ids 0) Sample.ids 1700000000000
           [Sample.rent "monthly" true (Some (mkYmd 2023 11 1))]
           (Sample.rent "monthly" true (Some (mkYmd 2023 11 1)))
           eq_refl eq_refl eq_refl).
Defined.

End ProcessNowFacts.

(** ** The recurring form *)

Section RecurringFormFacts.
Import Calendar.

(** X9. [calculateNextDue] returns the later of the start day and the
    evaluation day: the day it returns is one of the two and is before
    neither. *)
Theorem calculateNextDue_is_later_day (startDate : ymd) (frequency : string)
    (today : Instant) :
  wellFormed today = true ->
  validDate startDate = true ->
  let nd := RecurringForm.calculateNextDue startDate frequency today in
  (nd = startDate \/ nd = format today)
  /\ ymd_leb startDate nd = true
  /\ ymd_leb (format today) nd = true.
Proof.
  intros Hwf Hv. cbv zeta. unfold RecurringForm.calculateNextDue. cbv zeta.
  apply wellFormed_spec in Hwf. destruct Hwf as [Hvt Hms].
  unfold isBefore, getTime, parseISO, format. simpl.
  assert (Hrefl : forall a, ymd_leb a a = true).
  { intros a. unfold ymd_leb. rewrite ymd_eqb_refl. apply orb_true_r. }
  destruct (Z.ltb_spec (daysFromCivil startDate * msPerDay + 0)
                       (daysFromCivil (date today) * msPerDay + msOfDay today))
    as [H | H].
  - split; [now right |]. split; [| apply Hrefl].
    apply (daysFromCivil_le_iff _ _ Hv Hvt). unfold msPerDay in *. lia.
  - split; [now left |]. split; [apply Hrefl |].
    apply (daysFromCivil_le_iff _ _ Hvt Hv). unfold msPerDay in *. lia.
Qed.

Lemma calculateNextDue_is_later_day_witness :
  RecurringForm.calculateNextDue (mkYmd 2023 12 25) "monthly"
    (Sample.at10 (mkYmd 2024 1 15)) = mkYmd 2024 1 15.
Proof.
  destruct (calculateNextDue_is_later_day (mkYmd 2023 12 25) "monthly"
              (Sample.at10 (mkYmd 2024 1 15)) eq_refl eq_refl)
    as [[H | H] _].
  - discriminate H.
  - exact H.
Defined.

(** A start day that is reached makes the computed [nextDue] the evaluation
    day, and a template with that [nextDue] is due. *)
Lemma calculateNextDue_reached (startDate : ymd) (frequency : string)
    (today : Instant) :
  wellFormed today = true ->
  validDate startDate = true ->
  ymd_leb startDate (format today) = true ->
  RecurringForm.calculateNextDue startDate frequency today = format today.
Proof.
  intros Hwf Hv Hle. apply wellFormed_spec in Hwf. destruct Hwf as [Hvt Hms].
  unfold RecurringForm.calculateNextDue. cbv zeta.
  unfold isBefore, getTime, parseISO, format in *. simpl.
  destruct (Z.ltb_spec (daysFromCivil startDate * msPerDay + 0)
                       (daysFromCivil (date today) * msPerDay + msOfDay today))
    as [H | H]; [reflexivity |].
  apply (daysFromCivil_le_iff _ _ Hv Hvt) in Hle.
  apply daysFromCivil_inj; auto. unfold msPerDay in *. lia.
Qed.

Lemma due_on_its_day (today : Instant) :
  Recurring.isDue today (parseISO (format today)) = true.
Proof.
  unfold Recurring.isDue. simpl. rewrite ymd_eqb_refl. apply orb_true_r.
Qed.

Lemma parseFloatNumber_truthy (x : float) :
  RecurringForm.truthyField (RecurringForm.Num x) = true ->
  Recurring.parseFloatNumber x = x.
Proof.
  unfold RecurringForm.truthyField, Recurring.parseFloatNumber.
  destruct (PrimFloat.eqb x 0%float); [discriminate | reflexivity].
Qed.

Lemma handleSubmit_incomplete (parse : string -> float)
    (clock : RecurringForm.Clock) (st : RecurringForm.State) :
  (JS.truthy (RecurringForm.description (RecurringForm.formData st))
   && RecurringForm.truthyField (RecurringForm.amount (RecurringForm.formData st))
   && JS.truthy (RecurringForm.category (RecurringForm.formData st)))%bool = false ->
  RecurringForm.handleSubmit parse clock st = st.
Proof.
  intros H. unfold RecurringForm.handleSubmit. cbv zeta.
  destruct (JS.truthy (RecurringForm.description (RecurringForm.formData st)));
    destruct (RecurringForm.truthyField (RecurringForm.amount (RecurringForm.formData st)));
    destruct (JS.truthy (RecurringForm.category (RecurringForm.formData st)));
    try discriminate H; reflexivity.
Qed.

Lemma handleSubmit_complete (parse : string -> float)
    (clock : RecurringForm.Clock) (st : RecurringForm.State) :
  (JS.truthy (RecurringForm.description (RecurringForm.formData st))
   && RecurringForm.truthyField (RecurringForm.amount (RecurringForm.formData st))
   && JS.truthy (RecurringForm.category (RecurringForm.formData st)))%bool = true ->
  RecurringForm.handleSubmit parse clock st
  = RecurringForm.mkState
      (match RecurringForm.editingTransaction st with
       | Some e =>
           map (fun t => if Recurring.id t =? Recurring.id e
                         then RecurringForm.recurringTransaction parse clock st
                         else t)
               (RecurringForm.recurringTransactions st)
       | None =>
           (RecurringForm.recurringTransactions st
            ++ [RecurringForm.recurringTransaction parse clock st])%list
       end)
      false None (RecurringForm.initialForm (RecurringForm.now clock)).
Proof.
  intros H. unfold RecurringForm.handleSubmit. cbv zeta.
  destruct (JS.truthy (RecurringForm.description (RecurringForm.formData st)));
    destruct (RecurringForm.truthyField (RecurringForm.amount (RecurringForm.formData st)));
    destruct (JS.truthy (RecurringForm.category (RecurringForm.formData st)));
    try discriminate H; reflexivity.
Qed.

(** X10. Submitting the form for a new template (no edit open): when
    description, amount or category is missing nothing changes; otherwise
    exactly one template is appended behind the existing ones, with
    [Date.now()] as id, the form is closed and reset, and, when the template
    is active and its start day is today or earlier, it is due at once: a
    pass at the same instant emits a transaction for it. *)
Theorem handleSubmit_new_template (parse : string -> float)
    (clock : RecurringForm.Clock) (st : RecurringForm.State) :
  RecurringForm.editingTransaction st = None ->
  RecurringForm.id (RecurringForm.formData st) = None ->
  let f := RecurringForm.formData st in
  let complete :=
    (JS.truthy (RecurringForm.description f)
     && RecurringForm.truthyField (RecurringForm.amount f)
     && JS.truthy (RecurringForm.category f))%bool in
  let st' := RecurringForm.handleSubmit parse clock st in
  (complete = false -> st' = st)
  /\ (complete = true ->
      exists rt,
        RecurringForm.recurringTransactions st'
        = (RecurringForm.recurringTransactions st ++ [rt])%list
        /\ Recurring.id rt = RecurringForm.dateNow clock
        /\ RecurringForm.showForm st' = false
        /\ RecurringForm.formData st'
           = RecurringForm.initialForm (RecurringForm.now clock)
        /\ (wellFormed (RecurringForm.now clock) = true ->
            validDate (RecurringForm.startDate f) = true ->
            ymd_leb (RecurringForm.startDate f)
                    (format (RecurringForm.now clock)) = true ->
            RecurringForm.isActive f = true ->
            forall newId,
              In (Some (RecurringForm.dateNow clock))
                 (map Entry.recurringId
                      (snd (Recurring.processRecurringTransactions
                              (RecurringForm.now clock) newId
                              (RecurringForm.recurringTransactions st')))))).
Proof.
  intros Hedit Hid. cbv zeta. split.
  - apply handleSubmit_incomplete.
  - intros Hc. rewrite (handleSubmit_complete parse clock st Hc), Hedit.
    cbn [RecurringForm.recurringTransactions RecurringForm.showForm
         RecurringForm.formData].
    exists (RecurringForm.recurringTransaction parse clock st).
    assert (Hrtid : Recurring.id (RecurringForm.recurringTransaction parse clock st)
                    = RecurringForm.dateNow clock).
    { unfold RecurringForm.recurringTransaction. cbv zeta. simpl.
      now rewrite Hid, Hedit. }
    split; [reflexivity |]. split; [exact Hrtid |].
    split; [reflexivity |]. split; [reflexivity |].
    intros Hwf Hv Hle Hact newId.
    rewrite pass_snd, forEachFrom_snd_ids.
    unfold Spec.dueActive. rewrite filter_app, map_app. apply in_or_app. right.
    cbn [filter].
    replace (Recurring.isActive (RecurringForm.recurringTransaction parse clock st))
      with true by (symmetry; exact Hact).
    replace (Recurring.dueInstant (RecurringForm.recurringTransaction parse clock st))
      with (parseISO (format (RecurringForm.now clock))).
    + rewrite due_on_its_day. left. now rewrite Hrtid.
    + unfold Recurring.dueInstant, RecurringForm.recurringTransaction.
      cbv zeta. simpl. now rewrite (calculateNextDue_reached _ _ _ Hwf Hv Hle).
Qed.

Lemma handleSubmit_new_template_witness :
  let st := RecurringForm.mkState [Sample.rent "monthly" true (Some (mkYmd 2024 2 1))]
              true None
              (RecurringForm.mkForm "expense" "Gym" (RecurringForm.Text "30")
                 "Subscription" "monthly" (mkYmd 2024 1 1) None true
                 None None None None) in
  let clock := RecurringForm.mkClock (Sample.at10 (mkYmd 2024 1 15))
                 1705312800000 "2024-01-15T10:00:00.000Z" in
  exists rt,
    RecurringForm.recurringTransactions
      (RecurringForm.handleSubmit (fun _ => 30%float) clock st)
    = [Sample.rent "monthly" true (Some (mkYmd 2024 2 1)); rt]
    /\ Recurring.id rt = 1705312800000.
Proof.
  cbv zeta.
  destruct (handleSubmit_new_template (fun _ => 30%float)
              (RecurringForm.mkClock (Sample.at10 (mkYmd 2024 1 15))
                 1705312800000 "2024-01-15T10:00:00.000Z")
              (RecurringForm.mkState
                 [Sample.rent "monthly" true (Some (mkYmd 2024 2 1))]
                 true None
                 (RecurringForm.mkForm "expense" "Gym" (RecurringForm.Text "30")
                    "Subscription" "monthly" (mkYmd 2024 1 1) None true
                    None None None None))
              eq_refl eq_refl) as [_ H].
  destruct (H eq_refl) as (rt & Hl & Hidrt & _).
  exists rt. split; [exact Hl | exact Hidrt].
Defined.

(** X11. Saving the edit form for template [t] leaves every template with
    another id as it is and puts, wherever the id of [t] occurs, a template
    that agrees with [t] in every field but [nextDue], which is computed
    anew from the start day as for a new template. So an active template
    whose start day has been reached is due again right after the save,
    whatever [nextDue] it had: a pass at the same instant emits for it. *)
Theorem handleSubmit_edit_recomputes_nextDue (parse : string -> float)
    (clock : RecurringForm.Clock) (st : RecurringForm.State)
    (t : Recurring.RecurringTemplate) :
  JS.truthy (Recurring.description t) = true ->
  RecurringForm.truthyField (RecurringForm.Num (Recurring.amount t)) = true ->
  JS.truthy (Recurring.category t) = true ->
  let st' := RecurringForm.handleSubmit parse clock (RecurringForm.handleEdit t st) in
  let nd := RecurringForm.calculateNextDue (Recurring.startDate t)
              (Recurring.frequency t) (RecurringForm.now clock) in
  Forall2 (fun x x' =>
             (Recurring.id x <> Recurring.id t -> x' = x)
             /\ (Recurring.id x = Recurring.id t ->
                 Props.sameButProcessed t x'
                 /\ Recurring.lastProcessed x' = Recurring.lastProcessed t
                 /\ Recurring.nextDue x' = Some nd))
          (RecurringForm.recurringTransactions st)
          (RecurringForm.recurringTransactions st')
  /\ RecurringForm.showForm st' = false
  /\ RecurringForm.editingTransaction st' = None
  /\ (In t (RecurringForm.recurringTransactions st) ->
      Recurring.isActive t = true ->
      wellFormed (RecurringForm.now clock) = true ->
      validDate (Recurring.startDate t) = true ->
      ymd_leb (Recurring.startDate t) (format (RecurringForm.now clock)) = true ->
      forall newId,
        In (Some (Recurring.id t))
           (map Entry.recurringId
                (snd (Recurring.processRecurringTransactions
                        (RecurringForm.now clock) newId
                        (RecurringForm.recurringTransactions st'))))).
Proof.
  intros Hd Ha Hc. cbv zeta.
  rewrite handleSubmit_complete
    by (cbn [RecurringForm.handleEdit RecurringForm.formData
             RecurringForm.description RecurringForm.amount RecurringForm.category];
        now rewrite Hd, Ha, Hc).
  cbn [RecurringForm.handleEdit RecurringForm.editingTransaction
       RecurringForm.recurringTransactions RecurringForm.showForm].
  set (rt := RecurringForm.recurringTransaction parse clock _).
  assert (Hrt : rt = Recurring.mk (Recurring.id t) (Recurring.type t)
                       (Recurring.description t) (Recurring.amount t)
                       (Recurring.category t) (Recurring.frequency t)
                       (Recurring.startDate t) (Recurring.endDate t)
                       (Recurring.isActive t) (Recurring.lastProcessed t)
                       (Some (RecurringForm.calculateNextDue (Recurring.startDate t)
                                (Recurring.frequency t) (RecurringForm.now clock)))
                       (Recurring.createdAt t)).
  { subst rt. unfold RecurringForm.recurringTransaction.
    cbn -[Recurring.parseFloatNumber].
    now rewrite (parseFloatNumber_truthy _ Ha). }
  clearbody rt. subst rt.
  split; [| split; [reflexivity | split; [reflexivity |]]].
  - induction (RecurringForm.recurringTransactions st) as [| x rest IH];
      simpl; constructor; [| exact IH].
    destruct (Z.eqb_spec (Recurring.id x) (Recurring.id t)) as [E | E]; split.
    + intros Hne. contradiction.
    + intros _. repeat split.
    + reflexivity.
    + intros He. contradiction.
  - intros Hin Hact Hwf Hv Hle newId.
    rewrite pass_snd, forEachFrom_snd_ids.
    apply in_map_iff.
    eexists. split; [| apply filter_In; split].
    2:{ apply in_map_iff. exists t. split; [| exact Hin].
        rewrite Z.eqb_refl. reflexivity. }
    + reflexivity.
    + cbn [Recurring.isActive]. rewrite Hact.
      unfold Recurring.dueInstant. cbn [Recurring.nextDue].
      rewrite (calculateNextDue_reached _ _ _ Hwf Hv Hle).
      now rewrite due_on_its_day.
Qed.

Lemma handleSubmit_edit_recomputes_nextDue_witness :
  let t := Sample.rent "monthly" true (Some (mkYmd 2024 2 1)) in
  let st := RecurringForm.mkState [t] false None
              (RecurringForm.initialForm (Sample.at10 (mkYmd 2024 1 15))) in
  let clock := RecurringForm.mkClock (Sample.at10 (mkYmd 2024 1 15))
                 1705312800000 "2024-01-15T10:00:00.000Z" in
  In (Some (Recurring.id t))
     (map Entry.recurringId
          (snd (Recurring.processRecurringTransactions
                  (Sample.at10 (mkYmd 2024 1 15)) Sample.ids
                  (RecurringForm.recurringTransactions
                     (RecurringForm.handleSubmit (fun _ => 0%float) clock
                        (RecurringForm.handleEdit t st)))))).
Proof.
  cbv zeta.
  destruct (handleSubmit_edit_recomputes_nextDue (fun _ => 0%float)
              (RecurringForm.mkClock (Sample.at10 (mkYmd 2024 1 15))
                 1705312800000 "2024-01-15T10:00:00.000Z")
              (RecurringForm.mkState
                 [Sample.rent "monthly" true (Some (mkYmd 2024 2 1))] false None
                 (RecurringForm.initialForm (Sample.at10 (mkYmd 2024 1 15))))
              (Sample.rent "monthly" true (Some (mkYmd 2024 2 1)))
              eq_refl eq_refl eq_refl) as (_ & _ & _ & H).
  exact (H (or_introl eq_refl) eq_refl eq_refl eq_refl eq_refl Sample.ids).
Defined.

(** X12. Deleting a template, once confirmed, removes every template with
    that id and nothing else, in place; from then on [processNow] with that
    id does nothing and no pass emits a transaction that refers to it. A
    declined confirmation changes nothing. *)
Theorem handleDelete_removes_for_good (i : Z) (st : RecurringForm.State) :
  RecurringForm.handleDelete false i st = st
  /\ let l := RecurringForm.recurringTransactions st in
     let l' := RecurringForm.recurringTransactions
                 (RecurringForm.handleDelete true i st) in
     l' = filter (fun t => negb (Recurring.id t =? i)) l
     /\ (forall t, In t l' <-> In t l /\ Recurring.id t <> i)
     /\ (forall now newId, Recurring.processNow now newId i l' = (l', None))
     /\ (forall today newId tx,
            In tx (snd (Recurring.processRecurringTransactions today newId l')) ->
            Entry.recurringId tx <> Some i).
Proof.
  split; [reflexivity |]. cbv zeta.
  cbn [RecurringForm.handleDelete RecurringForm.recurringTransactions].
  set (l := RecurringForm.recurringTransactions st).
  assert (Hin : forall t, In t (filter (fun t => negb (Recurring.id t =? i)) l)
                          <-> In t l /\ Recurring.id t <> i).
  { intros t. rewrite filter_In, negb_true_iff, Z.eqb_neq. tauto. }
  split; [reflexivity |]. split; [exact Hin |]. split.
  - intros now newId. unfold Recurring.processNow.
    rewrite (proj2 (find_none_iff i _)); [reflexivity |].
    intros t Ht. apply Hin in Ht. tauto.
  - intros today newId tx Htx Hid. rewrite pass_snd in Htx.
    destruct (forEachFrom_emitted_origin _ _ _ _ _ Htx)
      as (r0 & Hr0 & _ & _ & Hid0).
    apply Hin in Hr0. destruct Hr0 as [_ Hne]. congruence.
Qed.

End RecurringFormFacts.

(** ** More on the filter view *)

Section FilterFacts.
Import Calendar Entry ExpenseTracker.

Lemma byDateDesc_sort_sorted (l : list Transaction) :
  StronglySorted (fun a b => byDateDesc a b <= 0) (JS.sort byDateDesc l).
Proof. apply sort_sorted; unfold byDateDesc; intros; lia. Qed.

Lemma filter_all {A : Type} (f : A -> bool) (l : list A) :
  (forall x, In x l -> f x = true) -> filter f l = l.
Proof.
  intros H. apply forallb_filter_id, forallb_forall. exact H.
Qed.

Lemma filter_none {A : Type} (f : A -> bool) (l : list A) :
  (forall x, In x l -> f x = false) -> filter f l = [].
Proof.
  induction l as [| a r IH]; intros H; simpl; [reflexivity |].
  rewrite (H a (or_introl eq_refl)). apply IH. intros x Hx. apply H. now right.
Qed.

Lemma filtered_In (c : Criteria) (now : Instant) (l : list Transaction)
    (t : Transaction) :
  In t (filteredTransactions c now l)
  <-> In t l /\ Spec.satisfiesAll c now t = true.
Proof.
  rewrite filteredTransactions_one_filter. split.
  - intros H. apply (Permutation_in _ (sort_perm byDateDesc _)) in H.
    now apply filter_In in H.
  - intros H. apply (Permutation_in _ (Permutation_sym (sort_perm byDateDesc _))).
    now apply filter_In.
Qed.

(** X13. Filtering is idempotent: applying the same criteria at the same
    instant to the list the filter returned gives that list again. *)
Theorem filteredTransactions_idempotent (c : Criteria) (now : Instant)
    (l : list Transaction) :
  filteredTransactions c now (filteredTransactions c now l)
  = filteredTransactions c now l.
Proof.
  rewrite (filteredTransactions_one_filter c now (filteredTransactions c now l)).
  rewrite filter_all.
  - rewrite filteredTransactions_one_filter.
    apply sort_sorted_id, byDateDesc_sort_sorted.
  - intros t Ht. apply filtered_In in Ht. tauto.
Qed.

(** X15. With the type filter on 'income' the expense total of the view is
    0 and the balance is the income total minus 0; with the type filter on
    'expense' the income total is 0. *)
Theorem type_filter_zeroes_other_total (s cat range : string) (now : Instant)
    (l : list Transaction) :
  (let t := filteredTotals (filteredTransactions (mkCriteria s "income" cat range) now l) in
   expense t = 0%float /\ balance t = PrimFloat.sub (income t) 0%float)
  /\ (let t := filteredTotals (filteredTransactions (mkCriteria s "expense" cat range) now l) in
      income t = 0%float).
Proof.
  assert (Hty : forall ty other,
             String.eqb ty "all" = false -> String.eqb ty other = false ->
             filter (fun t => String.eqb (type t) other)
                    (filteredTransactions (mkCriteria s ty cat range) now l) = []).
  { intros ty other Hall Hother. apply filter_none. intros t Ht.
    apply filtered_In in Ht. destruct Ht as [_ Ht].
    unfold Spec.satisfiesAll, Spec.matchesType in Ht. cbn [filterType] in Ht.
    rewrite Hall in Ht. rewrite !andb_true_iff in Ht.
    destruct Ht as [[[_ Ht] _] _]. simpl in Ht.
    apply String.eqb_eq in Ht. now rewrite Ht. }
  split; cbv zeta; unfold filteredTotals; cbn [expense income balance].
  - rewrite (Hty "income" "expense" eq_refl eq_refl). split; reflexivity.
  - rewrite (Hty "expense" "income" eq_refl eq_refl). reflexivity.
Qed.

End FilterFacts.

(** ** Date windows *)

Section WindowFacts.
Import Calendar Entry DateFnsMore.

(** A window from the start of day [a] to the end of day [b] holds the
    entries whose day number lies between those of [a] and [b]. *)
Lemma entryWithin_days (a b : ymd) (t : Transaction) :
  entryWithin (mkInstant a 0) (mkInstant b endOfDayMs) t
  = ((daysFromCivil a <=? daysFromCivil (date t))
     && (daysFromCivil (date t) <=? daysFromCivil b))%bool.
Proof.
  unfold entryWithin, isWithinInterval, getTime, parseISO, endOfDayMs, msPerDay.
  cbn [DateFns.start DateFns.end_ DateFns.date msOfDay].
  destruct (Z.leb_spec (daysFromCivil a) (daysFromCivil (date t)));
    destruct (Z.leb_spec (daysFromCivil (date t)) (daysFromCivil b));
    cbn [andb];
    repeat match goal with
           | |- context [?x <=? ?y] => destruct (Z.leb_spec x y)
           end; cbn [andb]; try reflexivity; lia.
Qed.

Lemma ymd_leb_spec (a b : ymd) :
  ymd_leb a b = true <->
  year a < year b
  \/ (year a = year b
      /\ (month a < month b
          \/ (month a = month b /\ dayOfMonth a <= dayOfMonth b))).
Proof.
  unfold ymd_leb. rewrite orb_true_iff, ymd_ltb_spec, ymd_eqb_eq.
  destruct a as [ya ma da], b as [yb mb db]. simpl. split.
  - intros [H | H]; [lia | inversion H; lia].
  - intros H.
    destruct (Z.eq_dec ya yb), (Z.eq_dec ma mb), (Z.eq_dec da db);
      subst; (now right) || (left; lia).
Qed.

Lemma endOfMonth_date (d : Instant) :
  1 <= month (DateFns.date d) <= 12 ->
  DateFns.date (endOfMonth d)
  = mkYmd (year (DateFns.date d)) (month (DateFns.date d))
          (daysInMonth (year (DateFns.date d)) (month (DateFns.date d))).
Proof.
  intros Hm. unfold endOfMonth, lastDayBeforeMonthIndex. cbv zeta.
  cbn [DateFns.date].
  replace ((year (DateFns.date d) * 12 + (month (DateFns.date d) - 1 + 1 - 1)) / 12)
    with (year (DateFns.date d)) by (Z.div_mod_to_equations; lia).
  replace ((year (DateFns.date d) * 12 + (month (DateFns.date d) - 1 + 1 - 1)) mod 12 + 1)
    with (month (DateFns.date d)) by (Z.div_mod_to_equations; lia).
  reflexivity.
Qed.

(** The entries of the month of [now]. *)
Lemma entryWithin_month (now : Instant) (t : Transaction) :
  wellFormed now = true -> validDate (date t) = true ->
  entryWithin (startOfMonth now) (endOfMonth now) t
  = ((year (date t) =? year (DateFns.date now))
     && (month (date t) =? month (DateFns.date now)))%bool.
Proof.
  intros Hwf Hv. apply wellFormed_spec in Hwf. destruct Hwf as [Hvn _].
  pose proof (proj1 (validDate_spec _) Hvn) as [Hm Hd].
  pose proof (proj1 (validDate_spec _) Hv) as [Hmt Hdt].
  pose proof (daysInMonth_bounds (year (DateFns.date now)) (month (DateFns.date now))).
  unfold startOfMonth.
  replace (endOfMonth now)
    with (mkInstant (DateFns.date (endOfMonth now)) endOfDayMs) by reflexivity.
  rewrite endOfMonth_date by exact Hm.
  rewrite entryWithin_days.
  set (y := year (DateFns.date now)) in *. set (m := month (DateFns.date now)) in *.
  assert (Hv1 : validDate (mkYmd y m 1) = true)
    by (apply validDate_spec; simpl; lia).
  assert (Hv2 : validDate (mkYmd y m (daysInMonth y m)) = true)
    by (apply validDate_spec; simpl; lia).
  apply eq_true_iff_eq.
  rewrite !andb_true_iff, !Z.leb_le, !Z.eqb_eq.
  rewrite (daysFromCivil_le_iff _ _ Hv1 Hv), (daysFromCivil_le_iff _ _ Hv Hv2).
  rewrite !ymd_leb_spec. simpl. split.
  - intros [H1 H2]. lia.
  - intros [Hy Hmm]. rewrite Hy, Hmm in *. lia.
Qed.

(** The entries of the year of [now]. *)
Lemma entryWithin_year (now : Instant) (t : Transaction) :
  validDate (date t) = true ->
  entryWithin (startOfYear now) (endOfYear now) t
  = (year (date t) =? year (DateFns.date now)).
Proof.
  intros Hv.
  pose proof (proj1 (validDate_spec _) Hv) as [Hmt Hdt].
  pose proof (daysInMonth_bounds (year (date t)) (month (date t))).
  unfold startOfYear, endOfYear. rewrite entryWithin_days.
  set (y := year (DateFns.date now)).
  assert (Hv1 : validDate (mkYmd y 1 1) = true) by reflexivity.
  assert (Hv2 : validDate (mkYmd y 12 31) = true) by reflexivity.
  apply eq_true_iff_eq.
  rewrite !andb_true_iff, !Z.leb_le, !Z.eqb_eq.
  rewrite (daysFromCivil_le_iff _ _ Hv1 Hv), (daysFromCivil_le_iff _ _ Hv Hv2).
  rewrite !ymd_leb_spec. simpl. split.
  - intros [H1 H2]. lia.
  - intros Hy. rewrite Hy in *. lia.
Qed.

Lemma getDay_range (d : Instant) : 0 <= getDay d <= 6.
Proof. unfold getDay. Z.div_mod_to_equations. lia. Qed.

(** The entries of the week of [now], Sunday to Saturday. *)
Lemma entryWithin_week (now : Instant) (t : Transaction) :
  entryWithin (startOfWeek now) (endOfWeek now) t
  = ((daysFromCivil (DateFns.date now) - getDay now <=? daysFromCivil (date t))
     && (daysFromCivil (date t)
         <=? daysFromCivil (DateFns.date now) - getDay now + 6))%bool.
Proof.
  unfold startOfWeek, endOfWeek. rewrite entryWithin_days.
  rewrite !daysFromCivil_civilFromDays.
  replace (daysFromCivil (DateFns.date now) + (6 - getDay now))
    with (daysFromCivil (DateFns.date now) - getDay now + 6) by lia.
  reflexivity.
Qed.

(** The entries of the day of [d]. *)
Lemma entryWithin_day (d : Instant) (t : Transaction) :
  entryWithin (startOfDay d) (endOfDay d) t
  = (daysFromCivil (date t) =? daysFromCivil (DateFns.date d)).
Proof.
  unfold startOfDay, endOfDay. rewrite entryWithin_days.
  destruct (Z.leb_spec (daysFromCivil (DateFns.date d)) (daysFromCivil (date t)));
    destruct (Z.leb_spec (daysFromCivil (date t)) (daysFromCivil (DateFns.date d)));
    destruct (Z.eqb_spec (daysFromCivil (date t)) (daysFromCivil (DateFns.date d)));
    cbn [andb]; try reflexivity; lia.
Qed.

Lemma subDays_dayNumber (d : Instant) (k : Z) :
  daysFromCivil (DateFns.date (subDays d k)) = daysFromCivil (DateFns.date d) - k.
Proof.
  unfold subDays, addDays. destruct (Z.eqb_spec (- k) 0) as [E | E].
  - lia.
  - cbn [DateFns.date]. rewrite daysFromCivil_civilFromDays. lia.
Qed.

End WindowFacts.

(** ** The date ranges of the filter view *)

Section RangeFacts.
Import Calendar Entry ExpenseTracker DateFnsMore.

Lemma range_view (range : string) (now : Instant) (l : list Transaction) :
  filteredTransactions (mkCriteria "" "all" "all" range) now l
  = JS.sort byDateDesc
      (filter (Spec.matchesDateRange (mkCriteria "" "all" "all" range) now) l).
Proof. rewrite filteredTransactions_one_filter. reflexivity. Qed.

Ltac range_literal :=
  unfold Spec.matchesDateRange, entryWithin;
  cbn [ExpenseTracker.dateRange String.eqb Ascii.eqb Bool.eqb]; cbv iota;
  reflexivity.

Lemma matchesDateRange_today (s ty cat : string) (now : Instant) (t : Transaction) :
  Spec.matchesDateRange (mkCriteria s ty cat "today") now t
  = ymd_eqb (date t) (format now).
Proof. range_literal. Qed.

Lemma matchesDateRange_week (s ty cat : string) (now : Instant) (t : Transaction) :
  Spec.matchesDateRange (mkCriteria s ty cat "week") now t
  = entryWithin (startOfWeek now) (endOfWeek now) t.
Proof. range_literal. Qed.

Lemma matchesDateRange_month (s ty cat : string) (now : Instant) (t : Transaction) :
  Spec.matchesDateRange (mkCriteria s ty cat "month") now t
  = entryWithin (startOfMonth now) (endOfMonth now) t.
Proof. range_literal. Qed.

Lemma matchesDateRange_year (s ty cat : string) (now : Instant) (t : Transaction) :
  Spec.matchesDateRange (mkCriteria s ty cat "year") now t
  = entryWithin (startOfYear now) (endOfYear now) t.
Proof. range_literal. Qed.

(** X16. With the date range on 'month' (and nothing else filtered) the
    view holds exactly the entries of the year and month of the evaluation
    day, and on 'year' exactly the entries of its year, latest first; the
    entry dates and the evaluation day being days that exist. *)
Theorem filter_month_and_year_exact (now : Instant) (l : list Transaction) :
  wellFormed now = true ->
  Forall (fun t => validDate (date t) = true) l ->
  filteredTransactions (mkCriteria "" "all" "all" "month") now l
  = JS.sort byDateDesc
      (filter (fun t => ((year (date t) =? year (format now))
                         && (month (date t) =? month (format now)))%bool) l)
  /\ filteredTransactions (mkCriteria "" "all" "all" "year") now l
     = JS.sort byDateDesc
         (filter (fun t => year (date t) =? year (format now)) l).
Proof.
  intros Hwf Hv. rewrite Forall_forall in Hv. rewrite !range_view. split.
  - f_equal. apply filter_ext_in. intros t Ht.
    rewrite matchesDateRange_month.
    apply (entryWithin_month now t Hwf (Hv t Ht)).
  - f_equal. apply filter_ext_in. intros t Ht.
    rewrite matchesDateRange_year.
    apply (entryWithin_year now t (Hv t Ht)).
Qed.

Lemma filter_month_and_year_exact_witness :
  filteredTransactions (mkCriteria "" "all" "all" "month")
    (Sample.at10 (mkYmd 2024 1 31)) Sample.ledger
  = JS.sort byDateDesc
      (filter (fun t => ((year (date t) =? 2024) && (month (date t) =? 1))%bool)
              Sample.ledger).
Proof.
  apply (filter_month_and_year_exact (Sample.at10 (mkYmd 2024 1 31)) Sample.ledger
           eq_refl).
  repeat constructor.
Defined.

(** X17. With the date range on 'week' the view holds exactly the entries
    dated from the Sunday on or before the evaluation day to the Saturday
    after it, counted in day numbers; the evaluation day itself lies in
    that window. *)
Theorem filter_week_exact (now : Instant) (l : list Transaction) :
  let sunday := daysFromCivil (DateFns.date now) - getDay now in
  filteredTransactions (mkCriteria "" "all" "all" "week") now l
  = JS.sort byDateDesc
      (filter (fun t => ((sunday <=? daysFromCivil (date t))
                         && (daysFromCivil (date t) <=? sunday + 6))%bool) l)
  /\ sunday <= daysFromCivil (DateFns.date now) <= sunday + 6.
Proof.
  cbv zeta. split.
  - rewrite range_view. f_equal. apply filter_ext. intros t.
    rewrite matchesDateRange_week. apply (entryWithin_week now t).
  - pose proof (getDay_range now). lia.
Qed.

Lemma month_within_year (now : Instant) (t : Transaction) :
  wellFormed now = true ->
  entryWithin (startOfMonth now) (endOfMonth now) t = true ->
  entryWithin (startOfYear now) (endOfYear now) t = true.
Proof.
  intros Hwf. apply wellFormed_spec in Hwf. destruct Hwf as [Hvn _].
  pose proof (proj1 (validDate_spec _) Hvn) as [Hm Hd].
  pose proof (daysInMonth_bounds (year (DateFns.date now)) (month (DateFns.date now))).
  unfold startOfMonth, startOfYear, endOfYear.
  replace (endOfMonth now)
    with (mkInstant (DateFns.date (endOfMonth now)) endOfDayMs) by reflexivity.
  rewrite endOfMonth_date by exact Hm. rewrite !entryWithin_days.
  set (y := year (DateFns.date now)) in *. set (m := month (DateFns.date now)) in *.
  assert (Hva : validDate (mkYmd y 1 1) = true) by reflexivity.
  assert (Hvb : validDate (mkYmd y m 1) = true)
    by (apply validDate_spec; simpl; lia).
  assert (Hvc : validDate (mkYmd y m (daysInMonth y m)) = true)
    by (apply validDate_spec; simpl; lia).
  assert (Hvd : validDate (mkYmd y 12 31) = true) by reflexivity.
  assert (H1 : daysFromCivil (mkYmd y 1 1) <= daysFromCivil (mkYmd y m 1)).
  { apply (proj2 (daysFromCivil_le_iff _ _ Hva Hvb)).
    apply ymd_leb_spec. simpl. lia. }
  assert (H2 : daysFromCivil (mkYmd y m (daysInMonth y m))
               <= daysFromCivil (mkYmd y 12 31)).
  { apply (proj2 (daysFromCivil_le_iff _ _ Hvc Hvd)).
    apply ymd_leb_spec. simpl. lia. }
  rewrite !andb_true_iff, !Z.leb_le. lia.
Qed.

(** X18. The date ranges are nested: whatever the other criteria, an entry
    shown under 'today' is also shown under 'week' and under 'month', and
    an entry shown under 'month' is also shown under 'year'. *)
Theorem date_ranges_nested (s ty cat : string) (now : Instant)
    (l : list Transaction) (t : Transaction) :
  wellFormed now = true ->
  (In t (filteredTransactions (mkCriteria s ty cat "today") now l) ->
   In t (filteredTransactions (mkCriteria s ty cat "week") now l)
   /\ In t (filteredTransactions (mkCriteria s ty cat "month") now l))
  /\ (In t (filteredTransactions (mkCriteria s ty cat "month") now l) ->
      In t (filteredTransactions (mkCriteria s ty cat "year") now l)).
Proof.
  intros Hwf.
  assert (Hstep : forall r1 r2,
             (Spec.matchesDateRange (mkCriteria s ty cat r1) now t = true ->
              Spec.matchesDateRange (mkCriteria s ty cat r2) now t = true) ->
             In t (filteredTransactions (mkCriteria s ty cat r1) now l) ->
             In t (filteredTransactions (mkCriteria s ty cat r2) now l)).
  { intros r1 r2 Himp Hin. apply filtered_In in Hin. apply filtered_In.
    destruct Hin as [Hin Hsat]. split; [exact Hin |].
    unfold Spec.satisfiesAll in *. rewrite !andb_true_iff in *.
    destruct Hsat as [[[H1 H2] H3] H4]. repeat split; auto. }
  split.
  - intros Hin. split; revert Hin; apply Hstep;
      rewrite matchesDateRange_today; intros Heq; apply ymd_eqb_eq in Heq.
    + rewrite matchesDateRange_week, entryWithin_week, Heq. unfold format.
      pose proof (getDay_range now). rewrite andb_true_iff, !Z.leb_le. lia.
    + rewrite matchesDateRange_month.
      apply wellFormed_spec in Hwf as Hwf'. destruct Hwf' as [Hv _].
      rewrite entryWithin_month; auto.
      * rewrite Heq. unfold format. now rewrite !Z.eqb_refl.
      * now rewrite Heq.
  - apply Hstep. rewrite matchesDateRange_month, matchesDateRange_year.
    apply (month_within_year now t Hwf).
Qed.

Lemma date_ranges_nested_witness :
  wellFormed (Sample.at10 (mkYmd 2024 1 15)) = true
  /\ (In (Sample.entry 1%float "income" 2500.5%float (mkYmd 2024 1 15))
         (filteredTransactions (mkCriteria "" "all" "all" "today")
            (Sample.at10 (mkYmd 2024 1 15)) Sample.ledger) ->
      In (Sample.entry 1%float "income" 2500.5%float (mkYmd 2024 1 15))
         (filteredTransactions (mkCriteria "" "all" "all" "week")
            (Sample.at10 (mkYmd 2024 1 15)) Sample.ledger)).
Proof.
  split; [reflexivity |]. intros H.
  exact (proj1 (proj1 (date_ranges_nested "" "all" "all"
                         (Sample.at10 (mkYmd 2024 1 15)) Sample.ledger
                         (Sample.entry 1%float "income" 2500.5%float (mkYmd 2024 1 15))
                         eq_refl) H)).
Defined.

End RangeFacts.

(** ** The dashboard and the report charts *)

Section ChartFacts.
Import Calendar Entry DateFnsMore.

Lemma today_criteria_view (today : Instant) (l : list Transaction) :
  ExpenseTracker.filteredTransactions
    (ExpenseTracker.mkCriteria "" "all" "all" "today") today l
  = filter (fun t => ymd_eqb (date t) (format today)) l.
Proof.
  rewrite filteredTransactions_one_filter.
  replace (filter (Spec.satisfiesAll
                     (ExpenseTracker.mkCriteria "" "all" "all" "today") today) l)
    with (filter (fun t => ymd_eqb (date t) (format today)) l)
    by (apply filter_ext; intros t; unfold Spec.satisfiesAll;
        rewrite matchesDateRange_today; reflexivity).
  apply sort_sorted_id, StronglySorted_pairwise.
  intros a b Ha Hb. apply filter_In in Ha, Hb.
  destruct Ha as [_ Ha], Hb as [_ Hb]. apply ymd_eqb_eq in Ha, Hb.
  unfold ExpenseTracker.byDateDesc. replace (date b) with (date a) by congruence.
  lia.
Qed.

(** X19. The dashboard's list for today holds exactly the entries dated
    with the evaluation day, in their order, and so coincides with what the
    filter view shows under 'today'; the entry dates and the evaluation day
    being days that exist. *)
Theorem todayTransactions_exact (today : Instant) (l : list Transaction) :
  wellFormed today = true ->
  Forall (fun t => validDate (date t) = true) l ->
  Dashboard.todayTransactions today l
  = filter (fun t => ymd_eqb (date t) (format today)) l
  /\ Dashboard.todayTransactions today l
     = ExpenseTracker.filteredTransactions
         (ExpenseTracker.mkCriteria "" "all" "all" "today") today l.
Proof.
  intros Hwf Hv. rewrite Forall_forall in Hv.
  apply wellFormed_spec in Hwf. destruct Hwf as [Hvt _].
  assert (H : Dashboard.todayTransactions today l
              = filter (fun t => ymd_eqb (date t) (format today)) l).
  { unfold Dashboard.todayTransactions. cbv zeta.
    apply filter_ext_in. intros t Ht. rewrite entryWithin_day.
    apply eq_true_iff_eq. rewrite Z.eqb_eq, ymd_eqb_eq. unfold format. split.
    - apply daysFromCivil_inj; auto.
    - now intros ->. }
  split; [exact H |]. now rewrite today_criteria_view.
Qed.

Lemma todayTransactions_exact_witness :
  Dashboard.todayTransactions (Sample.at10 (mkYmd 2024 1 16)) Sample.ledger
  = filter (fun t => ymd_eqb (date t) (mkYmd 2024 1 16)) Sample.ledger.
Proof.
  apply (todayTransactions_exact (Sample.at10 (mkYmd 2024 1 16)) Sample.ledger
           eq_refl).
  repeat constructor.
Defined.

Lemma last7Days_In (now day : Instant) :
  In day (Dashboard.last7Days now) <-> exists k, 0 <= k <= 6 /\ day = subDays now k.
Proof.
  unfold Dashboard.last7Days. cbn [map In]. split.
  - intros H.
    repeat (destruct H as [<- | H]; [eexists; split; [| reflexivity]; lia |]).
    contradiction.
  - intros (k & Hk & ->).
    assert (H : k = 6 \/ k = 5 \/ k = 4 \/ k = 3 \/ k = 2 \/ k = 1 \/ k = 0) by lia.
    repeat (destruct H as [-> | H]; [tauto |]). subst. tauto.
Qed.

Lemma dayTransactions_In (day : Instant) (l : list Transaction) (t : Transaction) :
  In t (Dashboard.dayTransactions day l)
  <-> In t l /\ daysFromCivil (date t) = daysFromCivil (DateFns.date day).
Proof.
  unfold Dashboard.dayTransactions. cbv zeta.
  now rewrite filter_In, entryWithin_day, Z.eqb_eq.
Qed.

(** X20. The seven bars of the weekly chart never share an entry: the bar
    of a day counts exactly the entries with the day number of that day,
    the seven days being today and the six days before it, so an entry
    counted for two of them is counted for one and the same day. *)
Theorem weekly_bars_count_an_entry_once (now d1 d2 : Instant)
    (l : list Transaction) (t : Transaction) :
  In d1 (Dashboard.last7Days now) ->
  In d2 (Dashboard.last7Days now) ->
  In t (Dashboard.dayTransactions d1 l) ->
  In t (Dashboard.dayTransactions d2 l) ->
  d1 = d2
  /\ 0 <= daysFromCivil (DateFns.date now) - daysFromCivil (date t) <= 6.
Proof.
  intros H1 H2 Ht1 Ht2.
  apply last7Days_In in H1, H2.
  destruct H1 as (k1 & Hk1 & ->), H2 as (k2 & Hk2 & ->).
  apply dayTransactions_In in Ht1, Ht2.
  rewrite subDays_dayNumber in Ht1, Ht2.
  destruct Ht1 as [_ Ht1], Ht2 as [_ Ht2].
  split; [| lia]. f_equal. lia.
Qed.

Lemma weekly_bars_count_an_entry_once_witness :
  let t := Sample.entry 2%float "expense" 120.25%float (mkYmd 2024 1 16) in
  let day := subDays (Sample.at10 (mkYmd 2024 1 18)) 2 in
  day = day
  /\ 0 <= daysFromCivil (mkYmd 2024 1 18) - daysFromCivil (mkYmd 2024 1 16) <= 6.
Proof.
  cbv zeta.
  apply (weekly_bars_count_an_entry_once (Sample.at10 (mkYmd 2024 1 18))
           (subDays (Sample.at10 (mkYmd 2024 1 18)) 2)
           (subDays (Sample.at10 (mkYmd 2024 1 18)) 2)
           Sample.ledger
           (Sample.entry 2%float "expense" 120.25%float (mkYmd 2024 1 16))).
  - apply (proj2 (last7Days_In _ _)). exists 2. split; [lia | reflexivity].
  - apply (proj2 (last7Days_In _ _)). exists 2. split; [lia | reflexivity].
  - apply (proj2 (dayTransactions_In _ _ _)).
    split; [right; left; reflexivity | vm_compute; reflexivity].
  - apply (proj2 (dayTransactions_In _ _ _)).
    split; [right; left; reflexivity | vm_compute; reflexivity].
Defined.

(** X21. The buckets of the monthly trend chart overlap: each spans the
    fifteen days before and after a day thirty days from the next one, so
    an entry dated fifteen days before the centre of bucket [i] is counted
    in bucket [i] and in bucket [i + 1] as well. *)
Theorem trend_buckets_overlap (now : Instant) (i : Z) (l : list Transaction)
    (t : Transaction) :
  In t l ->
  daysFromCivil (date t) = daysFromCivil (DateFns.date now) - 30 * i - 15 ->
  In t (Dashboard.trendTransactions now i l)
  /\ In t (Dashboard.trendTransactions now (i + 1) l).
Proof.
  intros Hin Hd. unfold Dashboard.trendTransactions. cbv zeta.
  split; apply filter_In; (split; [exact Hin |]);
    unfold startOfDay, endOfDay; rewrite entryWithin_days;
    rewrite !subDays_dayNumber, andb_true_iff, !Z.leb_le; lia.
Qed.

Lemma trend_buckets_overlap_witness :
  let t := Sample.entry 7%float "expense" 12%float (mkYmd 2024 1 1) in
  In t (Dashboard.trendTransactions (Sample.at10 (mkYmd 2024 1 16)) 0 [t])
  /\ In t (Dashboard.trendTransactions (Sample.at10 (mkYmd 2024 1 16)) 1 [t]).
Proof.
  cbv zeta.
  apply (trend_buckets_overlap (Sample.at10 (mkYmd 2024 1 16)) 0
           [Sample.entry 7%float "expense" 12%float (mkYmd 2024 1 1)]
           (Sample.entry 7%float "expense" 12%float (mkYmd 2024 1 1))).
  - left. reflexivity.
  - reflexivity.
Defined.

End ChartFacts.

(** ** The report period and the report charts *)

Section ReportFacts.
Import Calendar Entry DateFnsMore.

Lemma toInteger_inject_Z (z : Z) : toInteger (inject_Z z) = z.
Proof. unfold toInteger, inject_Z. simpl. apply Z.quot_1_r. Qed.

Lemma subMonths_zero (d : Instant) : subMonths d 0 = d.
Proof. reflexivity. Qed.

(** The month [i > 0] months back: a day that exists, in the month counted
    back from the month of [d]. *)
Lemma subMonths_back (d : Instant) (i : Z) :
  wellFormed d = true -> 0 < i ->
  wellFormed (subMonths d i) = true
  /\ year (DateFns.date (subMonths d i)) * 12 + month (DateFns.date (subMonths d i))
     = year (DateFns.date d) * 12 + month (DateFns.date d) - i.
Proof.
  intros Hwf Hi. apply wellFormed_spec in Hwf. destruct Hwf as [Hv Hms].
  pose proof (proj1 (validDate_spec _) Hv) as [Hm Hd].
  unfold subMonths.
  assert (Hk : toInteger (inject_Z (- i)) <> 0) by (rewrite toInteger_inject_Z; lia).
  pose proof (addMonths_date d (inject_Z (- i)) Hk) as Hdate.
  cbv zeta in Hdate. rewrite toInteger_inject_Z in Hdate.
  set (total := year (DateFns.date d) * 12 + (month (DateFns.date d) - 1) + - i) in *.
  pose proof (daysInMonth_bounds (total / 12) (total mod 12 + 1)) as Hb.
  split.
  - apply wellFormed_spec. rewrite addMonths_msOfDay. split; [| exact Hms].
    rewrite Hdate. apply validDate_spec. simpl. split.
    + Z.div_mod_to_equations. lia.
    + lia.
  - rewrite Hdate. simpl. subst total. Z.div_mod_to_equations. lia.
Qed.

Lemma monthTransactions_In (now : Instant) (i : Z) (l : list Transaction)
    (t : Transaction) :
  wellFormed now = true -> validDate (date t) = true -> 0 <= i ->
  (In t (ReportsView.monthTransactions now i l)
   <-> In t l
       /\ year (date t) * 12 + month (date t)
          = year (DateFns.date now) * 12 + month (DateFns.date now) - i).
Proof.
  intros Hwf Hv Hi.
  assert (Hback : wellFormed (subMonths now i) = true
                  /\ year (DateFns.date (subMonths now i)) * 12
                     + month (DateFns.date (subMonths now i))
                     = year (DateFns.date now) * 12 + month (DateFns.date now) - i).
  { destruct (Z.eq_dec i 0) as [-> | Hne].
    - rewrite subMonths_zero. split; [exact Hwf | lia].
    - apply subMonths_back; [exact Hwf | lia]. }
  destruct Hback as [Hwf' Heq].
  unfold ReportsView.monthTransactions. cbv zeta.
  rewrite filter_In, (entryWithin_month _ t Hwf' Hv), andb_true_iff, !Z.eqb_eq.
  apply wellFormed_spec in Hwf'. destruct Hwf' as [Hv' _].
  pose proof (proj1 (validDate_spec _) Hv') as [Hm' _].
  pose proof (proj1 (validDate_spec _) Hv) as [Hm _].
  split; intros [Hin H]; (split; [exact Hin | lia]).
Qed.

(** X22. The bars of the monthly comparison chart never share an entry: an
    entry is counted for the month [i] months back exactly when its year
    and month are those of that month, so for at most one of the bars. *)
Theorem monthly_bars_count_an_entry_once (now : Instant) (i j : Z)
    (l : list Transaction) (t : Transaction) :
  wellFormed now = true -> validDate (date t) = true -> 0 <= i -> 0 <= j ->
  (In t (ReportsView.monthTransactions now i l)
   <-> In t l
       /\ year (date t) * 12 + month (date t)
          = year (DateFns.date now) * 12 + month (DateFns.date now) - i)
  /\ (In t (ReportsView.monthTransactions now i l) ->
      In t (ReportsView.monthTransactions now j l) -> i = j).
Proof.
  intros Hwf Hv Hi Hj. split.
  - now apply monthTransactions_In.
  - intros H1 H2.
    apply (monthTransactions_In now i l t Hwf Hv Hi) in H1.
    apply (monthTransactions_In now j l t Hwf Hv Hj) in H2. lia.
Qed.

Lemma monthly_bars_count_an_entry_once_witness :
  In (Sample.entry 1%float "income" 2500.5%float (mkYmd 2024 1 15))
     (ReportsView.monthTransactions (Sample.at10 (mkYmd 2024 3 31)) 2 Sample.ledger).
Proof.
  apply (monthly_bars_count_an_entry_once (Sample.at10 (mkYmd 2024 3 31)) 2 2
           Sample.ledger
           (Sample.entry 1%float "income" 2500.5%float (mkYmd 2024 1 15))
           eq_refl eq_refl); try lia.
  split; [left; reflexivity | reflexivity].
Defined.

(** X23. The report period selects what the date range of the filter view
    selects: for 'week', 'month' and 'year' the filter view (nothing else
    filtered) is the report's list sorted by date, latest first. A custom
    period with a missing bound, like any other period name, keeps every
    entry. *)
Theorem report_period_matches_filter_range (cs ce : option ymd) (now : Instant)
    (l : list Transaction) :
  (forall p, In p ["week"; "month"; "year"] ->
      ExpenseTracker.filteredTransactions
        (ExpenseTracker.mkCriteria "" "all" "all" p) now l
      = JS.sort ExpenseTracker.byDateDesc
          (ReportsView.filteredTransactions p cs ce now l))
  /\ (forall p,
         ~ In p ["week"; "month"; "year"] ->
         p <> "custom" \/ cs = None \/ ce = None ->
         ReportsView.filteredTransactions p cs ce now l = l).
Proof.
  split.
  - assert (Hsame : forall p f,
               (forall t, Spec.matchesDateRange
                            (ExpenseTracker.mkCriteria "" "all" "all" p) now t
                          = f t) ->
               ExpenseTracker.filteredTransactions
                 (ExpenseTracker.mkCriteria "" "all" "all" p) now l
               = JS.sort ExpenseTracker.byDateDesc (filter f l)).
    { intros p f Hf. rewrite range_view. f_equal. now apply filter_ext. }
    intros p [<- | [<- | [<- | []]]].
    + rewrite (Hsame "week" _ (matchesDateRange_week "" "all" "all" now)).
      destruct ce; reflexivity.
    + rewrite (Hsame "month" _ (matchesDateRange_month "" "all" "all" now)).
      destruct ce; reflexivity.
    + rewrite (Hsame "year" _ (matchesDateRange_year "" "all" "all" now)).
      destruct ce; reflexivity.
  - intros p Hp Hc. unfold ReportsView.filteredTransactions.
    assert (Hw : String.eqb p "week" = false)
      by (apply String.eqb_neq; intros ->; apply Hp; simpl; auto).
    assert (Hm : String.eqb p "month" = false)
      by (apply String.eqb_neq; intros ->; apply Hp; simpl; auto).
    assert (Hy : String.eqb p "year" = false)
      by (apply String.eqb_neq; intros ->; apply Hp; simpl; auto).
    rewrite Hw, Hm, Hy.
    destruct (String.eqb_spec p "custom") as [E | E].
    + destruct Hc as [Hc | [-> | ->]]; [contradiction | reflexivity |].
      destruct cs; reflexivity.
    + destruct ce; reflexivity.
Qed.

Lemma report_period_matches_filter_range_witness :
  ReportsView.filteredTransactions "custom" (Some (mkYmd 2024 1 1)) None
    (Sample.at10 (mkYmd 2024 1 16)) Sample.ledger
  = Sample.ledger.
Proof.
  apply (proj2 (report_period_matches_filter_range (Some (mkYmd 2024 1 1)) None
                  (Sample.at10 (mkYmd 2024 1 16)) Sample.ledger)).
  - intros [H | [H | [H | []]]]; discriminate H.
  - right. right. reflexivity.
Defined.

(** X24. Without an income entry in the period the savings rate is 0: the
    division by the income total is not carried out. *)
Theorem savings_zero_without_income (l : list Transaction) :
  (forall t, In t l -> type t <> "income") ->
  Reports.income (Reports.periodTotals l) = 0%float
  /\ Reports.savings (Reports.periodTotals l) = 0%float.
Proof.
  intros H. unfold Reports.periodTotals. cbv zeta.
  rewrite (filter_none (fun t => String.eqb (type t) "income") l).
  - split; reflexivity.
  - intros t Ht. apply String.eqb_neq. now apply H.
Qed.

Lemma savings_zero_without_income_witness :
  Reports.savings
    (Reports.periodTotals
       [Sample.entry 2%float "expense" 120.25%float (mkYmd 2024 1 16)])
  = 0%float.
Proof.
  apply (savings_zero_without_income
           [Sample.entry 2%float "expense" 120.25%float (mkYmd 2024 1 16)]).
  intros t [<- | []]. discriminate.
Defined.

End ReportFacts.

(** ** Saving and deleting entries *)

Section EntryStoreFacts.
Import Entry ExpenseTracker.

(** An entry list reached from [old] by updates of the entry under edit:
    position by position, the old entry or the data of an accepted update
    of one of the [emitted] transactions. *)
Lemma saves_while_editing (api : TransactionAPI) (e : Transaction)
    (emitted : list Transaction) :
  forall (s : State) (seen : list Transaction),
    Forall2 (fun old new =>
               new = old
               \/ exists tx data,
                    In tx (seen ++ emitted)
                    /\ updateTransaction api (id e) tx = Success data
                    /\ new = data)
            (transactions s)
            (transactions
               (fold_left (fun s tx => handleSaveTransaction api (Some e) tx s)
                          emitted s)).
Proof.
  induction emitted as [| tx rest IH]; intros s seen.
  - simpl. induction (transactions s); constructor; auto.
  - cbn [fold_left].
    specialize (IH (handleSaveTransaction api (Some e) tx s) (seen ++ [tx])%list).
    rewrite <- app_assoc in IH. cbn [app] in IH.
    remember (transactions
                (fold_left (fun s tx => handleSaveTransaction api (Some e) tx s)
                           rest (handleSaveTransaction api (Some e) tx s))) as final.
    clear Heqfinal. revert final IH.
    unfold handleSaveTransaction.
    destruct (updateTransaction api (id e) tx) as [data | | m] eqn:Eupd;
      cbn [transactions]; intros final IH; try exact IH.
    revert final IH. induction (transactions s) as [| a l IHl]; intros final IH.
    + inversion IH. constructor.
    + cbn [map] in IH. inversion IH as [| x y l1 l2 Hxy Hrest]; subst.
      constructor.
      * destruct (PrimFloat.eqb (id a) (id e)).
        -- destruct Hxy as [-> | Hxy]; [| right; exact Hxy].
           right. exists tx, data. split; [| split; [exact Eupd | reflexivity]].
           apply in_or_app. right. now left.
        -- exact Hxy.
      * apply IHl. exact Hrest.
Qed.

Lemma saveAndRender_unsorted (c : Criteria) (api : TransactionAPI)
    (editing : option Transaction) (tx : Transaction) (s : State) :
  App.sortsStateInPlace c = false ->
  App.saveAndRender c api editing tx s = handleSaveTransaction api editing tx s.
Proof.
  intros Hc. unfold App.saveAndRender, App.rendered. rewrite Hc. cbv zeta.
  destruct (App.storesNewList api editing tx); [| reflexivity].
  now destruct (handleSaveTransaction api editing tx s).
Qed.

Lemma fold_saves_unsorted (c : Criteria) (api : TransactionAPI)
    (editing : option Transaction) (emitted : list Transaction) :
  App.sortsStateInPlace c = false ->
  forall s,
    fold_left (fun s tx => App.saveAndRender c api editing tx s) emitted s
    = fold_left (fun s tx => handleSaveTransaction api editing tx s) emitted s.
Proof.
  intros Hc. induction emitted as [| tx rest IH]; intros s; cbn [fold_left].
  - reflexivity.
  - rewrite saveAndRender_unsorted by exact Hc. apply IH.
Qed.

Lemma rendered_perm (c : Criteria) (l : list Transaction) :
  Permutation (App.rendered c l) l.
Proof.
  unfold App.rendered. destruct (App.sortsStateInPlace c).
  - apply sort_perm.
  - apply Permutation_refl.
Qed.

(** The entries held after a run of saves made while [e] is under edit:
    as many as before, each an entry of [old] or the data of an accepted
    update of one of the transactions of [all]. *)
Lemma saves_while_editing_rendered (c : Criteria) (api : TransactionAPI)
    (e : Transaction) (old all : list Transaction)
    (emitted : list Transaction) :
  incl emitted all ->
  forall s : State,
    Forall (fun new =>
              In new old
              \/ exists tx data,
                   In tx all
                   /\ updateTransaction api (id e) tx = Success data
                   /\ new = data)
           (transactions s) ->
    let s' := fold_left (fun s tx => App.saveAndRender c api (Some e) tx s)
                        emitted s in
    List.length (transactions s') = List.length (transactions s)
    /\ Forall (fun new =>
                 In new old
                 \/ exists tx data,
                      In tx all
                      /\ updateTransaction api (id e) tx = Success data
                      /\ new = data)
              (transactions s').
Proof.
  induction emitted as [| tx rest IH]; intros Hincl s Hs; cbv zeta.
  - cbn [fold_left]. split; [reflexivity | exact Hs].
  - cbn [fold_left].
    assert (Hstep :
      List.length (transactions (App.saveAndRender c api (Some e) tx s))
      = List.length (transactions s)
      /\ Forall (fun new =>
                   In new old
                   \/ exists tx data,
                        In tx all
                        /\ updateTransaction api (id e) tx = Success data
                        /\ new = data)
                (transactions (App.saveAndRender c api (Some e) tx s))).
    { unfold App.saveAndRender, App.storesNewList, handleSaveTransaction.
      cbv zeta.
      destruct (updateTransaction api (id e) tx) as [data | | m] eqn:Eupd;
        cbn [transactions]; try (split; [reflexivity | exact Hs]).
      split.
      - rewrite (Permutation_length (rendered_perm c _)). apply length_map.
      - apply Forall_forall. intros x Hx.
        apply (Permutation_in _ (rendered_perm c _)) in Hx.
        apply in_map_iff in Hx. destruct Hx as (t & Hxt & Ht).
        destruct (PrimFloat.eqb (id t) (id e)).
        + right. exists tx, data. split; [| split; [exact Eupd | now symmetry]].
          apply Hincl. now left.
        + subst x. exact (proj1 (Forall_forall _ _) Hs t Ht). }
    destruct Hstep as [Hlen HP].
    destruct (IH (fun x Hx => Hincl x (or_intror Hx))
                 (App.saveAndRender c api (Some e) tx s) HP) as [Hlen' HP'].
    split; [now rewrite Hlen' | exact HP'].
Qed.

(** X25. While an entry is open in the edit form, a scheduler pass adds no
    entry: every transaction it emits is sent as an update of the entry
    under edit. The entry list keeps its length, and each entry it holds
    afterwards is one it held before or the data the store returned for one
    of those updates. With a filter set the positions are kept as well;
    with no filter set the view sorts the stored list in place after each
    accepted update, so the positions can change. *)
Theorem pass_during_edit_adds_no_entry (api : TransactionAPI)
    (today : Instant) (newId : nat -> float) (st : App.State) (e : Transaction) :
  editingTransaction (App.tracker st) = Some e ->
  let emitted :=
    snd (Recurring.processRecurringTransactions today newId
           (App.recurringTransactions st)) in
  let before := transactions (App.tracker st) in
  let after := transactions (App.tracker (App.runPass api today newId st)) in
  List.length after = List.length before
  /\ Forall (fun new =>
               In new before
               \/ exists tx data,
                    In tx emitted
                    /\ updateTransaction api (id e) tx = Success data
                    /\ new = data)
            after
  /\ (App.sortsStateInPlace (App.criteria st) = false ->
      Forall2 (fun old new =>
                 new = old
                 \/ exists tx data,
                      In tx emitted
                      /\ updateTransaction api (id e) tx = Success data
                      /\ new = data)
              before after).
Proof.
  intros He. cbv zeta. unfold App.runPass. cbv zeta. cbn [App.tracker].
  rewrite He.
  destruct (saves_while_editing_rendered (App.criteria st) api e
              (transactions (App.tracker st))
              (snd (Recurring.processRecurringTransactions today newId
                      (App.recurringTransactions st)))
              (snd (Recurring.processRecurringTransactions today newId
                      (App.recurringTransactions st)))
              (fun x Hx => Hx) (App.tracker st)) as [Hlen HP].
  { apply Forall_forall. intros x Hx. now left. }
  split; [exact Hlen |]. split; [exact HP |].
  intros Hc. rewrite fold_saves_unsorted by exact Hc.
  apply (saves_while_editing api e _ (App.tracker st) []).
Qed.

Lemma pass_during_edit_adds_no_entry_witness :
  let e := Sample.entry 1%float "income" 2500.5%float (mkYmd 2024 1 15) in
  let st := App.mkState (mkState Sample.ledger (Some e) true) Sample.noFilter
              [Sample.gym "monthly" true (Some (mkYmd 2024 1 1))] in
  List.length
    (transactions
       (App.tracker (App.runPass Sample.accepting (Sample.at10 (mkYmd 2024 1 1))
                       Sample.ids st)))
  = 3%nat.
Proof.
  cbv zeta.
  exact (proj1 (pass_during_edit_adds_no_entry Sample.accepting
                  (Sample.at10 (mkYmd 2024 1 1)) Sample.ids
                  (App.mkState
                     (mkState Sample.ledger
                        (Some (Sample.entry 1%float "income" 2500.5%float
                                 (mkYmd 2024 1 15))) true)
                     Sample.noFilter
                     [Sample.gym "monthly" true (Some (mkYmd 2024 1 1))])
                  (Sample.entry 1%float "income" 2500.5%float (mkYmd 2024 1 15))
                  eq_refl)).
Defined.

(** The entries held after a run of accepted saves with no entry under
    edit. *)
Lemma saves_accepted (c : Criteria) (api : TransactionAPI)
    (emitted : list Transaction) :
  (forall tx, exists data, createTransaction api tx = Success data) ->
  forall s : State,
    let s' := fold_left (fun s tx => App.saveAndRender c api None tx s)
                        emitted s in
    exists added,
      Permutation (transactions s') (added ++ transactions s)
      /\ List.length added = List.length emitted
      /\ (App.sortsStateInPlace c = false ->
          transactions s' = (added ++ transactions s)%list)
      /\ (App.sortsStateInPlace c = true -> emitted <> [] ->
          Spec.sortedByDateDesc (transactions s')).
Proof.
  intros Hacc. induction emitted as [| tx rest IH]; intros s; cbv zeta.
  - exists []. cbn [fold_left app List.length].
    repeat split; auto. intros _ H. now contradiction H.
  - cbn [fold_left]. destruct (Hacc tx) as [data Hdata].
    assert (Hstep : App.saveAndRender c api None tx s
                    = mkState (App.rendered c (data :: transactions s)) None false).
    { unfold App.saveAndRender, App.storesNewList, handleSaveTransaction.
      rewrite Hdata. reflexivity. }
    rewrite Hstep.
    destruct (IH (mkState (App.rendered c (data :: transactions s)) None false))
      as (added & Hperm & Hlen & Hexact & Hsorted).
    cbn [transactions] in Hperm, Hexact.
    exists (added ++ [data])%list. repeat split.
    + rewrite <- app_assoc. cbn [app].
      eapply Permutation_trans; [exact Hperm |].
      apply Permutation_app_head. apply rendered_perm.
    + rewrite length_app, Hlen. simpl. lia.
    + intros Hc. rewrite (Hexact Hc), <- app_assoc. cbn [app].
      unfold App.rendered. now rewrite Hc.
    + intros Hc _. destruct rest as [| tx' rest'].
      * cbn [fold_left transactions]. unfold App.rendered. rewrite Hc.
        apply byDateDesc_sorted.
      * apply (Hsorted Hc). discriminate.
Qed.

(** X26. With no entry open in the edit form and a store that accepts every
    write, a scheduler pass adds exactly one new entry per active template
    that is due and keeps every entry already held. With a filter set the
    new entries stand in front of the old ones, which keep their order;
    with no filter set the view sorts the stored list in place after each
    save, and the list is left sorted by date, newest first. *)
Theorem pass_adds_one_entry_per_due_template (api : TransactionAPI)
    (today : Instant) (newId : nat -> float) (st : App.State) :
  editingTransaction (App.tracker st) = None ->
  (forall tx, exists data, createTransaction api tx = Success data) ->
  let before := transactions (App.tracker st) in
  let after := transactions (App.tracker (App.runPass api today newId st)) in
  exists added,
    Permutation after (added ++ before)
    /\ List.length added
       = List.length (Spec.dueActive today (App.recurringTransactions st))
    /\ (App.sortsStateInPlace (App.criteria st) = false ->
        after = (added ++ before)%list)
    /\ (App.sortsStateInPlace (App.criteria st) = true ->
        Spec.dueActive today (App.recurringTransactions st) <> [] ->
        Spec.sortedByDateDesc after).
Proof.
  intros He Hacc. cbv zeta. unfold App.runPass. cbv zeta. cbn [App.tracker].
  rewrite He.
  assert (Hcount :
    List.length (snd (Recurring.processRecurringTransactions today newId
                        (App.recurringTransactions st)))
    = List.length (Spec.dueActive today (App.recurringTransactions st))).
  { rewrite pass_snd.
    rewrite <- (length_map Entry.recurringId), forEachFrom_snd_ids.
    apply length_map. }
  destruct (saves_accepted (App.criteria st) api
              (snd (Recurring.processRecurringTransactions today newId
                      (App.recurringTransactions st)))
              Hacc (App.tracker st)) as (added & Hperm & Hlen & Hexact & Hsorted).
  exists added. split; [exact Hperm |]. split; [now rewrite Hlen |].
  split; [exact Hexact |].
  intros Hc Hdue. apply (Hsorted Hc). intros Hnil.
  apply Hdue. apply length_zero_iff_nil. rewrite <- Hcount, Hnil. reflexivity.
Qed.

Lemma pass_adds_one_entry_per_due_template_witness :
  let st := App.mkState (mkState Sample.ledger None false) Sample.noFilter
              [Sample.gym "monthly" true (Some (mkYmd 2024 1 1));
               Sample.rent "monthly" false None] in
  let after :=
    transactions
      (App.tracker
         (App.runPass Sample.accepting (Sample.at10 (mkYmd 2024 1 1)) Sample.ids
            st)) in
  exists added,
    Permutation after (added ++ Sample.ledger)
    /\ List.length added = 1%nat
    /\ (App.sortsStateInPlace Sample.noFilter = false ->
        after = (added ++ Sample.ledger)%list)
    /\ (App.sortsStateInPlace Sample.noFilter = true ->
        Spec.dueActive (Sample.at10 (mkYmd 2024 1 1))
          [Sample.gym "monthly" true (Some (mkYmd 2024 1 1));
           Sample.rent "monthly" false None] <> [] ->
        Spec.sortedByDateDesc after).
Proof.
  cbv zeta.
  apply (pass_adds_one_entry_per_due_template Sample.accepting
           (Sample.at10 (mkYmd 2024 1 1)) Sample.ids
           (App.mkState (mkState Sample.ledger None false) Sample.noFilter
              [Sample.gym "monthly" true (Some (mkYmd 2024 1 1));
               Sample.rent "monthly" false None])
           eq_refl).
  intros tx. exists tx. reflexivity.
Defined.

(** X27. Deleting an entry changes the entry list only when the deletion
    was confirmed and the store reported success; it then removes the
    entries whose id equals the given one and keeps all others in their
    order, and touches nothing else of the state. *)
Theorem handleDeleteTransaction_effect
    (deleteTransaction : float -> Tracker.DeleteResponse)
    (confirmed : bool) (i : float) (st : State) :
  let st' := Tracker.handleDeleteTransaction deleteTransaction confirmed i st in
  editingTransaction st' = editingTransaction st
  /\ showTransactionForm st' = showTransactionForm st
  /\ (confirmed = false \/ deleteTransaction i <> Tracker.Deleted -> st' = st)
  /\ (confirmed = true -> deleteTransaction i = Tracker.Deleted ->
      transactions st'
      = filter (fun t => negb (PrimFloat.eqb (id t) i)) (transactions st)
      /\ Forall (fun t => PrimFloat.eqb (id t) i = false) (transactions st')
      /\ (forall t, In t (transactions st) -> PrimFloat.eqb (id t) i = false ->
                    In t (transactions st'))).
Proof.
  cbv zeta. unfold Tracker.handleDeleteTransaction.
  destruct confirmed.
  - destruct (deleteTransaction i) eqn:E; cbn [editingTransaction showTransactionForm transactions];
      repeat split; auto;
      try (intros [H | H]; [discriminate H | now (contradiction || auto)]);
      try discriminate.
    + apply Forall_forall. intros t Ht. apply filter_In in Ht.
      now apply negb_true_iff.
    + intros t Ht Hne. apply filter_In. split; [exact Ht |].
      now apply negb_true_iff.
  - repeat split; auto; discriminate.
Qed.

End EntryStoreFacts.

(** ** Categories *)

Section CategoryFacts.
Import Entry.

Lemma filter_partition_perm {A : Type} (f : A -> bool) (l : list A) :
  Permutation (filter f l ++ filter (fun x => negb (f x)) l) l.
Proof.
  induction l as [| a r IH]; simpl.
  - constructor.
  - destruct (f a); simpl.
    + now constructor.
    + eapply perm_trans; [apply Permutation_sym, Permutation_middle |].
      now constructor.
Qed.

Lemma includesString_In (arr : list string) (s : string) :
  Tracker.includesString arr s = true <-> In s arr.
Proof.
  unfold Tracker.includesString. rewrite existsb_exists. split.
  - intros (x & Hx & Heq). apply String.eqb_eq in Heq. now subst.
  - intros H. exists s. split; [exact H | apply String.eqb_refl].
Qed.

(** X28. However the category list of the API looks, and whatever
    categories were held before, the categories the component holds after
    loading it never have an empty income or expense list; and
    when the list holds at least one of the five known income names and at
    least one other name, the two lists together are the API list, every
    name in one of them. *)
Theorem loadCategories_array_total (categoryData : list string)
    (current : Tracker.Categories) :
  let c := Tracker.loadCategories (Some (Tracker.ArrayData categoryData)) current in
  let known := ["Salary"; "Freelance"; "Investment"; "Business"; "Gift"] in
  Tracker.income c <> []
  /\ Tracker.expense c <> []
  /\ (filter (Tracker.includesString known) categoryData <> [] ->
      filter (fun cat => negb (Tracker.includesString known cat)) categoryData <> [] ->
      Tracker.income c = filter (Tracker.includesString known) categoryData
      /\ Tracker.expense c
         = filter (fun cat => negb (Tracker.includesString known cat)) categoryData
      /\ Permutation (Tracker.income c ++ Tracker.expense c) categoryData).
Proof.
  cbv zeta. unfold Tracker.loadCategories, Tracker.splitCategories. cbv zeta.
  set (known := ["Salary"; "Freelance"; "Investment"; "Business"; "Gift"]).
  set (inc := filter (Tracker.includesString known) categoryData).
  assert (Hexp : filter (fun cat => negb (Tracker.includesString inc cat)) categoryData
                 = filter (fun cat => negb (Tracker.includesString known cat)) categoryData).
  { apply filter_ext_in. intros cat Hcat. f_equal.
    apply eq_true_iff_eq. rewrite (includesString_In inc). unfold inc.
    rewrite filter_In.
    split; [intros [_ H]; exact H | intros H; split; [exact Hcat | exact H]]. }
  rewrite Hexp.
  set (exp := filter (fun cat => negb (Tracker.includesString known cat)) categoryData).
  cbn [Tracker.income Tracker.expense].
  split; [destruct inc; discriminate |].
  split; [destruct exp; discriminate |].
  intros Hi He.
  destruct inc as [| i0 inc'] eqn:Einc; [contradiction |].
  destruct exp as [| e0 exp'] eqn:Eexp; [contradiction |].
  split; [reflexivity |]. split; [reflexivity |].
  rewrite <- Einc, <- Eexp. apply filter_partition_perm.
Qed.

Lemma addTo_keys (o : list (string * float)) (k : string) (a : float) (k' : string) :
  In k' (map fst (ByCategory.addTo o k a)) <-> k' = k \/ In k' (map fst o).
Proof.
  induction o as [| [k0 v] r IH]; simpl.
  - split; intros [H | H]; auto; contradiction.
  - destruct (String.eqb_spec k0 k) as [E | E]; simpl.
    + subst. intuition congruence.
    + rewrite IH. intuition congruence.
Qed.

Lemma addTo_NoDup (o : list (string * float)) (k : string) (a : float) :
  NoDup (map fst o) -> NoDup (map fst (ByCategory.addTo o k a)).
Proof.
  induction o as [| [k0 v] r IH]; simpl; intros H.
  - constructor; [intros [] | constructor].
  - inversion H as [| ? ? Hnot Hnd]; subst.
    destruct (String.eqb_spec k0 k) as [E | E]; simpl.
    + now constructor.
    + constructor; [| now apply IH].
      rewrite addTo_keys. intros [Hk | Hk]; [congruence | contradiction].
Qed.

Lemma fold_addTo (ts : list Transaction) :
  forall o,
    NoDup (map fst o) ->
    let o' := fold_left (fun o t => ByCategory.addTo o (category t) (amount t)) ts o in
    NoDup (map fst o')
    /\ (forall c, In c (map fst o')
                  <-> In c (map fst o) \/ exists t, In t ts /\ category t = c).
Proof.
  induction ts as [| t rest IH]; intros o Hnd; cbv zeta; simpl.
  - split; [exact Hnd |]. intros c. split; [auto |].
    intros [H | (t & [] & _)]. exact H.
  - destruct (IH (ByCategory.addTo o (category t) (amount t))
                 (addTo_NoDup o _ _ Hnd)) as [Hnd' Hin].
    split; [exact Hnd' |]. intros c. rewrite Hin, addTo_keys. split.
    + intros [[-> | H] | (t' & Ht' & Hc)].
      * right. exists t. auto.
      * now left.
      * right. exists t'. auto.
    + intros [H | (t' & [-> | Ht'] & Hc)].
      * left. now right.
      * left. left. now symmetry.
      * right. exists t'. auto.
Qed.

Lemma expensesByCategory_keys (l : list Transaction) :
  NoDup (map fst (ByCategory.expensesByCategory l))
  /\ (forall c, In c (map fst (ByCategory.expensesByCategory l))
                <-> exists t, In t l /\ Props.expenseOf c t).
Proof.
  unfold ByCategory.expensesByCategory.
  destruct (fold_addTo (filter (fun t => String.eqb (type t) "expense") l) []
              (NoDup_nil _)) as [Hnd Hin].
  split; [exact Hnd |]. intros c. rewrite Hin. unfold Props.expenseOf. split.
  - intros [[] | (t & Ht & Hc)]. apply filter_In in Ht. destruct Ht as [Ht Hty].
    apply String.eqb_eq in Hty. exists t. auto.
  - intros (t & Ht & Hty & Hc). right. exists t. split; [| exact Hc].
    apply filter_In. split; [exact Ht |]. now apply String.eqb_eq.
Qed.

(** X29. The category charts, when the categories of the expense entries
    are ordinary object keys (none of the names [Object.prototype] defines,
    ["__proto__"] among them, and no string of digits): the dashboard pie
    has one label per category that has an expense entry, each once, and as
    many values as labels, but colours for at most ten of them; the report
    doughnut shows at most eight categories, each once, and each the
    category of some expense entry. *)
Theorem category_charts (l : list Transaction) :
  Props.plainCategories l ->
  (let '(labels, data, colours) := ByCategory.categoryData l in
   NoDup labels
   /\ (forall c, In c labels <-> exists t, In t l /\ Props.expenseOf c t)
   /\ List.length data = List.length labels
   /\ List.length colours = Nat.min (List.length labels) 10)
  /\ (let top := ByCategory.sortedCategories l in
      (List.length top <= 8)%nat
      /\ NoDup (map fst top)
      /\ (forall c, In c (map fst top) -> exists t, In t l /\ Props.expenseOf c t)).
Proof.
  intros _. destruct (expensesByCategory_keys l) as [Hnd Hin]. split.
  - unfold ByCategory.categoryData. cbv zeta.
    split; [exact Hnd |]. split; [exact Hin |]. split.
    + now rewrite !length_map.
    + rewrite length_firstn. reflexivity.
  - cbv zeta. unfold ByCategory.sortedCategories, JS.slice0.
    set (cmp := fun a b : string * float =>
                  ByCategory.floatSign (PrimFloat.sub (snd b) (snd a))).
    pose proof (sort_perm cmp (ByCategory.expensesByCategory l)) as Hperm.
    set (sorted := JS.sort cmp (ByCategory.expensesByCategory l)) in *.
    assert (Hnd' : NoDup (map fst sorted)).
    { eapply Permutation_NoDup; [| exact Hnd].
      apply Permutation_map, Permutation_sym, Hperm. }
    split; [apply firstn_le_length |]. split.
    + rewrite <- (firstn_skipn 8 sorted), map_app in Hnd'.
      now apply NoDup_app_remove_r in Hnd'.
    + intros c Hc. apply Hin.
      apply (Permutation_in _ (Permutation_map fst Hperm)).
      rewrite <- (firstn_skipn 8 sorted), map_app. apply in_or_app. now left.
Qed.

Lemma category_charts_witness :
  let l := Sample.ledger in
  Props.plainCategories l
  /\ (let '(labels, data, colours) := ByCategory.categoryData l in
      NoDup labels
      /\ (forall c, In c labels <-> exists t, In t l /\ Props.expenseOf c t)
      /\ List.length data = List.length labels
      /\ List.length colours = Nat.min (List.length labels) 10)
  /\ (let top := ByCategory.sortedCategories l in
      (List.length top <= 8)%nat
      /\ NoDup (map fst top)
      /\ (forall c, In c (map fst top) -> exists t, In t l /\ Props.expenseOf c t)).
Proof.
  cbv zeta.
  assert (H : Props.plainCategories Sample.ledger).
  { intros t Ht _. unfold Sample.ledger in Ht. cbn [In] in Ht.
    repeat (destruct Ht as [<- | Ht]; [vm_compute; reflexivity |]).
    contradiction. }
  split; [exact H | exact (category_charts Sample.ledger H)].
Defined.

End CategoryFacts.

(** ** The transaction form *)

Section TransactionFormFacts.
Import TransactionForm.

Lemma trimStartBytes_no_leading_space (l : list ascii) :
  Props.startsWithSpaceBytes (trimStartBytes l) = false.
Proof.
  remember (List.length l) as n eqn:Hn. revert l Hn.
  induction n as [n IH] using lt_wf_ind. intros l Hn.
  destruct l as [| a r]; [reflexivity |].
  cbn [trimStartBytes].
  destruct (isSpace a) eqn:Ea.
  { apply (IH (List.length r)); [subst n; cbn [List.length]; lia | reflexivity]. }
  destruct r as [| b r2].
  { cbn [Props.startsWithSpaceBytes]. now rewrite Ea. }
  destruct (isSpace2 a b) eqn:Eab.
  { apply (IH (List.length r2)); [subst n; cbn [List.length]; lia | reflexivity]. }
  destruct r2 as [| c r3].
  { cbn [Props.startsWithSpaceBytes]. now rewrite Ea, Eab. }
  destruct (isSpace3 a b c) eqn:Eabc.
  { apply (IH (List.length r3)); [subst n; cbn [List.length]; lia | reflexivity]. }
  cbn [Props.startsWithSpaceBytes]. now rewrite Ea, Eab, Eabc.
Qed.

Lemma trimStartReversed_no_leading_space (l : list ascii) :
  Props.startsWithSpaceReversed (trimStartReversed l) = false.
Proof.
  remember (List.length l) as n eqn:Hn. revert l Hn.
  induction n as [n IH] using lt_wf_ind. intros l Hn.
  destruct l as [| a r]; [reflexivity |].
  cbn [trimStartReversed].
  destruct (isSpace a) eqn:Ea.
  { apply (IH (List.length r)); [subst n; cbn [List.length]; lia | reflexivity]. }
  destruct r as [| b r2].
  { cbn [Props.startsWithSpaceReversed]. now rewrite Ea. }
  destruct (isSpace2 b a) eqn:Eab.
  { apply (IH (List.length r2)); [subst n; cbn [List.length]; lia | reflexivity]. }
  destruct r2 as [| c r3].
  { cbn [Props.startsWithSpaceReversed]. now rewrite Ea, Eab. }
  destruct (isSpace3 c b a) eqn:Eabc.
  { apply (IH (List.length r3)); [subst n; cbn [List.length]; lia | reflexivity]. }
  cbn [Props.startsWithSpaceReversed]. now rewrite Ea, Eab, Eabc.
Qed.

(** What is left is the end of the bytes it was given. *)
Lemma trimStartReversed_suffix (l : list ascii) :
  exists p, l = (p ++ trimStartReversed l)%list.
Proof.
  remember (List.length l) as n eqn:Hn. revert l Hn.
  induction n as [n IH] using lt_wf_ind. intros l Hn.
  destruct l as [| a r]; [now exists [] |].
  cbn [trimStartReversed].
  destruct (isSpace a).
  { destruct (IH (List.length r)) with (l := r) as [p Hp];
      [subst n; cbn [List.length]; lia | reflexivity |].
    exists (a :: p). cbn [app]. now rewrite <- Hp. }
  destruct r as [| b r2]; [now exists [] |].
  destruct (isSpace2 b a).
  { destruct (IH (List.length r2)) with (l := r2) as [p Hp];
      [subst n; cbn [List.length]; lia | reflexivity |].
    exists (a :: b :: p). cbn [app]. now rewrite <- Hp. }
  destruct r2 as [| c r3]; [now exists [] |].
  destruct (isSpace3 c b a).
  { destruct (IH (List.length r3)) with (l := r3) as [p Hp];
      [subst n; cbn [List.length]; lia | reflexivity |].
    exists (a :: b :: c :: p). cbn [app]. now rewrite <- Hp. }
  now exists [].
Qed.

Lemma startsWithSpaceBytes_app (u v : list ascii) :
  Props.startsWithSpaceBytes u = true ->
  Props.startsWithSpaceBytes (u ++ v) = true.
Proof.
  destruct u as [| a [| b [| c u]]]; cbn [app Props.startsWithSpaceBytes];
    try discriminate.
  - rewrite orb_false_r. now intros ->.
  - rewrite orb_false_r.
    destruct (isSpace a); [reflexivity |]. cbn [orb]. now intros ->.
  - auto.
Qed.

Lemma trimEndBytes_no_trailing_space (l : list ascii) :
  Props.startsWithSpaceReversed (rev (trimEndBytes l)) = false.
Proof.
  unfold trimEndBytes. rewrite rev_involutive.
  apply trimStartReversed_no_leading_space.
Qed.

Lemma trimEndBytes_keeps_start (l : list ascii) :
  Props.startsWithSpaceBytes l = false ->
  Props.startsWithSpaceBytes (trimEndBytes l) = false.
Proof.
  intros Hl. destruct (trimStartReversed_suffix (rev l)) as [p Hp].
  assert (E : l = (trimEndBytes l ++ rev p)%list).
  { unfold trimEndBytes. rewrite <- rev_app_distr, <- Hp.
    symmetry. apply rev_involutive. }
  destruct (Props.startsWithSpaceBytes (trimEndBytes l)) eqn:Es;
    [| reflexivity].
  apply (startsWithSpaceBytes_app _ (rev p)) in Es.
  rewrite <- E in Es. congruence.
Qed.

Lemma trim_no_space_at_either_end (s : string) :
  Props.startsWithSpace (trim s) = false
  /\ Props.endsWithSpace (trim s) = false.
Proof.
  unfold Props.startsWithSpace, Props.endsWithSpace, trim.
  rewrite list_ascii_of_string_of_list_ascii. split.
  - apply trimEndBytes_keeps_start, trimStartBytes_no_leading_space.
  - apply trimEndBytes_no_trailing_space.
Qed.

(** X30. The form hands a transaction to [onSave] only when validation left
    no error, and never otherwise: what it saves has the parsed amount,
    which is not <= 0, a category and a date that are set, and the
    description with the white space at both ends removed (every white
    space and line terminator character of the language, not the ASCII
    ones alone) and something left of it. *)
Theorem form_saves_only_valid_data (parse : string -> float) (f : FormData) :
  match handleSubmit parse f with
  | (errors, Some data) =>
      errors = mkErrors None None None None
      /\ dataType data = type f
      /\ dataAmount data = parse (amount f)
      /\ PrimFloat.leb (dataAmount data) 0%float = false
      /\ amount f <> ""
      /\ dataCategory data = category f
      /\ category f <> ""
      /\ dataDescription data = trim (description f)
      /\ dataDescription data <> ""
      /\ Props.startsWithSpace (dataDescription data) = false
      /\ Props.endsWithSpace (dataDescription data) = false
      /\ date f = Some (dataDate data)
  | (errors, None) => errors <> mkErrors None None None None
  end.
Proof.
  unfold handleSubmit, validateForm. cbv zeta.
  cbn [fst snd amountError categoryError descriptionError dateError].
  unfold JS.truthy.
  destruct (String.eqb_spec (amount f) "") as [Ea | Ea]; cbn [negb orb];
    [discriminate |].
  destruct (PrimFloat.leb (parse (amount f)) 0%float) eqn:El; [discriminate |].
  destruct (String.eqb_spec (category f) "") as [Ec | Ec]; cbn [negb];
    [discriminate |].
  destruct (String.eqb_spec (trim (description f)) "") as [Ed | Ed]; cbn [negb];
    [discriminate |].
  destruct (date f) as [d |] eqn:Edate; [| discriminate].
  cbn [negb dataType dataAmount dataCategory dataDescription dataDate].
  repeat split; auto.
  - apply trim_no_space_at_either_end.
  - apply trim_no_space_at_either_end.
Qed.

End TransactionFormFacts.

(** ** The pass, the store, and a second pass *)

Section PassAndStore.
Import Calendar Recurring.

(** A due day later than the day of [later] is not due at [later]. *)
Lemma not_due_before (later : Instant) (nd : ymd) :
  wellFormed later = true -> validDate nd = true ->
  ymd_ltb (format later) nd = true ->
  isDue later (parseISO nd) = false.
Proof.
  intros Hwf Hv Hlt.
  rewrite (isDue_calendar later (parseISO nd) Hwf Hv eq_refl).
  change (date (parseISO nd)) with nd. unfold format in Hlt.
  unfold ymd_leb. rewrite (ymd_ltb_asym _ _ Hlt). cbn [orb].
  destruct (ymd_eqb nd (date later)) eqn:E; [| reflexivity].
  apply ymd_eqb_eq in E. rewrite E in Hlt.
  now rewrite ymd_ltb_irrefl in Hlt.
Qed.

(** After a pass emitted for a monthly, quarterly or yearly template, the
    template is due again at the same instant exactly when it was overdue
    by a full period. *)
Lemma afterPass_still_due (today : Instant) (r : RecurringTemplate) :
  wellFormed today = true ->
  isActive r = true -> isDue today (dueInstant r) = true ->
  Spec.calendarFrequency (frequency r) = true ->
  validDate (format (dueInstant r)) = true ->
  (isActive (afterPass today r)
   && isDue today (dueInstant (afterPass today r)))%bool
  = Props.overdueByAPeriod today r.
Proof.
  intros Hwf Ha Hd Hf Hv.
  destruct (addMonths_later (dueInstant r) (periodAmount (frequency r)) Hv
              (toInteger_calendar _ Hf)) as [Hv' _].
  rewrite (afterPass_due _ _ Ha Hd).
  change (dueInstant (withProcessed r ?lp ?nd)) with (parseISO nd).
  change (isActive (withProcessed r ?lp ?nd)) with (isActive r).
  rewrite Ha. cbn [andb].
  rewrite parseISO_format
    by (rewrite addMonths_msOfDay; apply dueInstant_midnight).
  rewrite (isDue_calendar today _ Hwf Hv')
    by (rewrite addMonths_msOfDay; apply dueInstant_midnight).
  unfold Props.overdueByAPeriod.
  rewrite <- (advance_calendar _ (dueInstant r) Hf). reflexivity.
Qed.

(** The templates a second pass at the same instant finds due. *)
Lemma second_pass_due (today : Instant) (l : list RecurringTemplate) :
  wellFormed today = true ->
  (forall r, In r l -> isActive r = true -> isDue today (dueInstant r) = true ->
             Spec.calendarFrequency (frequency r) = true
             /\ validDate (format (dueInstant r)) = true) ->
  map (fun r => Some (id r)) (Spec.dueActive today (map (afterPass today) l))
  = map (fun r => Some (id r))
        (filter (Props.overdueByAPeriod today) (Spec.dueActive today l)).
Proof.
  intros Hwf. induction l as [| r rest IH]; intros H; [reflexivity |].
  assert (IH' := IH (fun r0 Hin => H r0 (or_intror Hin))). clear IH.
  unfold Spec.dueActive in *. cbn [map filter].
  destruct (isActive r && isDue today (dueInstant r))%bool eqn:E.
  - apply andb_true_iff in E. destruct E as [Ha Hd].
    destruct (H r (or_introl eq_refl) Ha Hd) as [Hf Hv].
    rewrite (afterPass_still_due today r Hwf Ha Hd Hf Hv).
    cbn [filter].
    destruct (Props.overdueByAPeriod today r); [| exact IH'].
    cbn [map]. rewrite IH'. f_equal.
    now rewrite (afterPass_due _ _ Ha Hd).
  - rewrite (afterPass_skip _ _ E), E. exact IH'.
Qed.

(** C2, amended. For a monthly, quarterly or yearly template that is active
    and due, with a due day that exists, a scheduler pass sets
    [lastProcessed] to the evaluation day and moves [nextDue] one period
    past the previous due date, to a strictly later day, whatever the Entry
    Store answers: the templates the pass leaves are the same for every
    store. When the store rejects every write the tracker state is left as
    it was, so no entry is added, and the emission is not retried: no pass
    run before the new due day emits for the template. *)
Theorem pass_ignores_store_outcome (api : ExpenseTracker.TransactionAPI)
    (today : Instant) (newId : nat -> float) (st : App.State)
    (i : nat) (r : RecurringTemplate) :
  nth_error (App.recurringTransactions st) i = Some r ->
  isActive r = true ->
  isDue today (dueInstant r) = true ->
  Spec.calendarFrequency (frequency r) = true ->
  validDate (format (dueInstant r)) = true ->
  let st' := App.runPass api today newId st in
  exists r' nd,
    nth_error (App.recurringTransactions st') i = Some r'
    /\ lastProcessed r' = Some (format today)
    /\ nextDue r' = Some nd
    /\ nd = Spec.advance (frequency r) (format (dueInstant r))
    /\ ymd_ltb (format (dueInstant r)) nd = true
    /\ (forall api',
          App.recurringTransactions (App.runPass api' today newId st)
          = App.recurringTransactions st')
    /\ ((forall tx, exists m,
            ExpenseTracker.createTransaction api tx = ExpenseTracker.Rejected m) ->
        (forall k tx, exists m,
            ExpenseTracker.updateTransaction api k tx = ExpenseTracker.Rejected m) ->
        App.tracker st' = App.tracker st)
    /\ (forall later nid,
          wellFormed later = true -> ymd_ltb (format later) nd = true ->
          processEntry later nid r' = (r', None)).
Proof.
  intros Hnth Ha Hd Hf Hv. cbv zeta.
  destruct (addMonths_later (dueInstant r) (periodAmount (frequency r)) Hv
              (toInteger_calendar _ Hf)) as [Hv' Hlt].
  pose proof (advance_calendar _ (dueInstant r) Hf) as Hadv.
  change (date (addMonths (dueInstant r) (periodAmount (frequency r))))
    with (format (addMonths (dueInstant r) (periodAmount (frequency r))))
    in Hv', Hlt.
  rewrite Hadv in Hv', Hlt.
  exists (afterPass today r),
         (Spec.advance (frequency r) (format (dueInstant r))).
  change (App.recurringTransactions (App.runPass api today newId st))
    with (fst (processRecurringTransactions today newId
                 (App.recurringTransactions st))).
  rewrite pass_fst, nth_error_map, Hnth.
  destruct (calendar_pass_advances today r Ha Hd Hf) as [Hnd Hlp].
  split; [reflexivity |]. split; [exact Hlp |]. split; [exact Hnd |].
  split; [reflexivity |]. split; [exact Hlt |]. split; [| split].
  - intros api'.
    change (App.recurringTransactions (App.runPass api' today newId st))
      with (fst (processRecurringTransactions today newId
                   (App.recurringTransactions st))).
    apply pass_fst.
  - intros Hc Hu. unfold App.runPass. cbv zeta. cbn [App.tracker].
    apply rejected_saves_keep_tracker; assumption.
  - intros later nid Hwf Hbefore. apply processEntry_skip.
    unfold dueInstant. rewrite Hnd.
    rewrite (not_due_before later _ Hwf Hv' Hbefore). apply andb_false_r.
Qed.

Lemma pass_ignores_store_outcome_witness :
  let today := Sample.at10 (mkYmd 2024 1 1) in
  let st := App.mkState (ExpenseTracker.mkState Sample.ledger None false)
              Sample.noFilter
              [Sample.gym "monthly" true (Some (mkYmd 2024 1 1))] in
  let st' := App.runPass Sample.rejecting today Sample.ids st in
  exists r' nd,
    nth_error (App.recurringTransactions st') 0 = Some r'
    /\ lastProcessed r' = Some (mkYmd 2024 1 1)
    /\ nextDue r' = Some nd
    /\ nd = mkYmd 2024 2 1
    /\ ymd_ltb (mkYmd 2024 1 1) nd = true
    /\ (forall api',
          App.recurringTransactions (App.runPass api' today Sample.ids st)
          = App.recurringTransactions st')
    /\ ((forall tx, exists m,
            ExpenseTracker.createTransaction Sample.rejecting tx
            = ExpenseTracker.Rejected m) ->
        (forall k tx, exists m,
            ExpenseTracker.updateTransaction Sample.rejecting k tx
            = ExpenseTracker.Rejected m) ->
        App.tracker st' = App.tracker st)
    /\ (forall later nid,
          wellFormed later = true -> ymd_ltb (format later) nd = true ->
          processEntry later nid r' = (r', None)).
Proof.
  cbv zeta.
  exact (pass_ignores_store_outcome Sample.rejecting
           (Sample.at10 (mkYmd 2024 1 1)) Sample.ids
           (App.mkState (ExpenseTracker.mkState Sample.ledger None false)
              Sample.noFilter
              [Sample.gym "monthly" true (Some (mkYmd 2024 1 1))])
           0 (Sample.gym "monthly" true (Some (mkYmd 2024 1 1)))
           eq_refl eq_refl eq_refl eq_refl eq_refl).
Defined.

(** C5, amended. With monthly, quarterly and yearly templates (due days
    that exist), two passes in succession at the same evaluation instant
    emit as follows: the first emits one transaction per active template
    that is due; the second emits one more for exactly those of them whose
    due date plus one period is still not after the evaluation day, in
    their order. So the second pass finds nothing due, and the two passes
    emit exactly one transaction per due active template, whenever no such
    template is overdue by a full period or more. *)
Theorem two_passes_emissions (today : Instant) (newId newId' : nat -> float)
    (l : list RecurringTemplate) :
  wellFormed today = true ->
  (forall r, In r l -> isActive r = true -> isDue today (dueInstant r) = true ->
             Spec.calendarFrequency (frequency r) = true
             /\ validDate (format (dueInstant r)) = true) ->
  let p1 := processRecurringTransactions today newId l in
  let p2 := processRecurringTransactions today newId' (fst p1) in
  map Entry.recurringId (snd p1)
  = map (fun r => Some (id r)) (Spec.dueActive today l)
  /\ map Entry.recurringId (snd p2)
     = map (fun r => Some (id r))
           (filter (Props.overdueByAPeriod today) (Spec.dueActive today l))
  /\ ((forall r, In r (Spec.dueActive today l) ->
                 Props.overdueByAPeriod today r = false) ->
      p2 = (fst p1, [])).
Proof.
  intros Hwf H. cbv zeta.
  pose proof (second_pass_due today l Hwf H) as Hsecond.
  split; [| split].
  - rewrite pass_snd. apply forEachFrom_snd_ids.
  - rewrite pass_snd, forEachFrom_snd_ids, pass_fst. exact Hsecond.
  - intros Hnone. rewrite pass_fst.
    rewrite (filter_none _ _ Hnone) in Hsecond. cbn [map] in Hsecond.
    apply map_eq_nil in Hsecond.
    unfold processRecurringTransactions. cbv zeta.
    now rewrite (forEachFrom_none_due _ _ _ Hsecond).
Qed.

Lemma two_passes_emissions_witness :
  let today := Sample.at10 (mkYmd 2024 1 20) in
  let l := [Sample.gym "monthly" true (Some (mkYmd 2024 1 1));
            Sample.rent "yearly" true (Some (mkYmd 2022 6 15));
            Sample.rent "monthly" false None] in
  let p1 := processRecurringTransactions today Sample.ids l in
  let p2 := processRecurringTransactions today Sample.ids (fst p1) in
  wellFormed today = true
  /\ map Entry.recurringId (snd p1)
     = map (fun r => Some (id r)) (Spec.dueActive today l)
  /\ map Entry.recurringId (snd p2)
     = map (fun r => Some (id r))
           (filter (Props.overdueByAPeriod today) (Spec.dueActive today l))
  /\ ((forall r, In r (Spec.dueActive today l) ->
                 Props.overdueByAPeriod today r = false) ->
      p2 = (fst p1, [])).
Proof.
  cbv zeta. split; [reflexivity |].
  apply (two_passes_emissions (Sample.at10 (mkYmd 2024 1 20)) Sample.ids
           Sample.ids
           [Sample.gym "monthly" true (Some (mkYmd 2024 1 1));
            Sample.rent "yearly" true (Some (mkYmd 2022 6 15));
            Sample.rent "monthly" false None]);
    [reflexivity |].
  intros r Hin Ha _. cbn [In] in Hin.
  destruct Hin as [<- | [<- | [<- | []]]];
    [split; reflexivity | split; reflexivity | discriminate Ha].
Defined.

End PassAndStore.
